(** * Shipyard: a shallow embedding of the deployment control plane

    The development follows the Go packages of the repository:
    [Strs] and [Filepath] model the few functions of Go's [strings] and
    [path/filepath] (Unix flavour) that the code calls; [OS] is the file
    system and subprocess model the daemon runs against; [Nginx],
    [Deploy], [Update], [Health] and [Server] embed the packages of the
    same names. *)

From Stdlib Require Import ZArith Ascii String List Bool Lia.
From stdpp Require Import base option list gmap strings fin_maps pretty.

Local Open Scope string_scope.

(** ** Go's [strings] package (the functions the code uses) *)
Module Strs.

(** [strings.HasPrefix] *)
Fixpoint HasPrefix (s p : string) {struct p} : bool :=
  match p with
  | EmptyString => true
  | String c p' =>
      match s with
      | EmptyString => false
      | String d s' => Ascii.eqb c d && HasPrefix s' p'
      end
  end.

(** [strings.Contains] *)
Fixpoint Contains (s sub : string) : bool :=
  HasPrefix s sub ||
  match s with
  | EmptyString => false
  | String _ s' => Contains s' sub
  end.

(** [strings.Join] of a component list. *)
Fixpoint Join (l : list string) (sep : string) : string :=
  match l with
  | [] => ""
  | [x] => x
  | x :: l' => x ++ sep ++ Join l' sep
  end.

(** [strings.Split(s, "/")]: the maximal slash-free pieces of [s], in
    order; always at least one piece. *)
Fixpoint SplitSlash (s : string) : list string :=
  match s with
  | EmptyString => [""]
  | String c s' =>
      if Ascii.eqb c "/" then "" :: SplitSlash s'
      else match SplitSlash s' with
           | [] => [String c ""]
           | x :: l => String c x :: l
           end
  end.

(** White space as [unicode.IsSpace] has it.  In ASCII: tab, line
    feed, vertical tab, form feed, carriage return and space. *)
Definition isSpace (c : ascii) : bool :=
  let n := nat_of_ascii c in
  (n =? 32)%nat || ((9 <=? n)%nat && (n <=? 13)%nat).

Definition utf8 (bytes : list nat) : string :=
  fold_right (fun b s => String (ascii_of_nat b) s) "" bytes.

(** Above ASCII: U+0085, U+00A0, U+1680, U+2000 to U+200A, U+2028,
    U+2029, U+202F, U+205F and U+3000, as their UTF-8 bytes. *)
Definition wideSpaces : list string :=
  map utf8 (app [[194; 133]; [194; 160]; [225; 154; 128]]
              (app (map (fun k => [226; 128; (128 + k)%nat]) (seq 0 11))
                   [[226; 128; 168]; [226; 128; 169]; [226; 128; 175];
                    [226; 129; 159]; [227; 128; 128]]))%nat.

(** The width in bytes of the white-space character that [s] begins
    with, among ASCII and the encodings [wide]; 0 when it begins with
    none (any other character, or bytes that are not UTF-8). *)
Definition spaceWidth (wide : list string) (s : string) : nat :=
  match s with
  | EmptyString => 0
  | String c _ =>
      if isSpace c then 1
      else match List.find (fun w => HasPrefix s w) wide with
           | Some w => String.length w
           | None => 0
           end
  end.

(** Drop [skip] bytes, then white space for as long as there is some. *)
Fixpoint trimFrom (wide : list string) (skip : nat) (s : string) : string :=
  match s with
  | EmptyString => ""
  | String _ s' =>
      match skip with
      | S k => trimFrom wide k s'
      | O =>
          match spaceWidth wide s with
          | S k => trimFrom wide k s'
          | O => s
          end
      end
  end.

Definition TrimLeft (s : string) : string := trimFrom wideSpaces 0 s.

(** From the end, the last character is found by its last byte; the
    encodings are matched backwards. *)
Definition TrimRight (s : string) : string :=
  String.rev (trimFrom (map String.rev wideSpaces) 0 (String.rev s)).

(** [strings.TrimSpace] *)
Definition TrimSpace (s : string) : string := TrimRight (TrimLeft s).

(** [s[n:]] *)
Fixpoint Drop (n : nat) (s : string) : string :=
  match n, s with
  | S n', String _ s' => Drop n' s'
  | _, _ => s
  end.

Fixpoint noSlash (s : string) : bool :=
  match s with
  | EmptyString => true
  | String c s' => negb (Ascii.eqb c "/") && noSlash s'
  end.

End Strs.

(** ** Go's [path/filepath] on Unix *)
Module Filepath.
Import Strs.

Definition IsAbs (p : string) : bool := HasPrefix p "/".

(** One step of the lexical clean-up over the stack of kept components
    (most recent first): empty and [.] components vanish, [..] pops a
    real component, is dropped at the root, and is kept in front of a
    relative path. *)
Definition cleanStep (rooted : bool) (stack : list string) (e : string)
  : list string :=
  if String.eqb e "" || String.eqb e "." then stack
  else if String.eqb e ".." then
    match stack with
    | top :: rest => if String.eqb top ".." then e :: stack else rest
    | [] => if rooted then [] else [e]
    end
  else e :: stack.

(** The canonical component list of a path. *)
Definition elems (p : string) : list string :=
  rev (fold_left (cleanStep (IsAbs p)) (SplitSlash p) []).

Definition render (rooted : bool) (es : list string) : string :=
  if rooted then "/" ++ Join es "/"
  else match es with
       | [] => "."
       | _ => Join es "/"
       end.

(** [filepath.Clean] *)
Definition Clean (p : string) : string := render (IsAbs p) (elems p).

(** [filepath.Join]: empty elements are ignored, the rest is joined with
    slashes and cleaned; all empty gives the empty string. *)
Fixpoint Join (l : list string) : string :=
  match l with
  | [] => ""
  | x :: l' => if String.eqb x "" then Join l' else Clean (Strs.Join l "/")
  end.

(** [filepath.Dir]: everything up to the last slash, cleaned. *)
Definition Dir (p : string) : string :=
  match rev (SplitSlash p) with
  | _ :: (_ :: _) as front => Clean (Strs.Join (rev front) "/" ++ "/")
  | _ => "."
  end.

(** The path elements [filepath.Rel] walks over: none for the empty
    string, one empty element for the root. *)
Definition relElems (p : string) : list string :=
  if String.eqb p "" then []
  else if String.eqb p "/" then [""]
  else SplitSlash p.

Fixpoint dropCommon (b t : list string) : list string * list string :=
  match b, t with
  | x :: b', y :: t' => if String.eqb x y then dropCommon b' t' else (b, t)
  | _, _ => (b, t)
  end.

(** [filepath.Rel]: lexically, the path that leads from [basepath] to
    [targpath]; [None] when there is none. *)
Definition Rel (basepath targpath : string) : option string :=
  let base := Clean basepath in
  let targ := Clean targpath in
  if String.eqb targ base then Some "."
  else
    let base := if String.eqb base "." then "" else base in
    if negb (Bool.eqb (IsAbs base) (IsAbs targ)) then None
    else
      let (b, t) := dropCommon (relElems base) (relElems targ) in
      match b with
      | [] => Some (Strs.Join t "/")
      | x :: _ =>
          if String.eqb x ".." then None
          else Some (Strs.Join (map (fun _ => "..") b ++ t) "/")
      end.

(** [p] names [dir] or something below it, lexically: same kind of
    path, the elements of [dir] first, and no step back up after them. *)
Fixpoint stripElems (d p : list string) : option (list string) :=
  match d, p with
  | [], _ => Some p
  | x :: d', y :: p' => if String.eqb x y then stripElems d' p' else None
  | _ :: _, [] => None
  end.

Definition inside (dir p : string) : bool :=
  Bool.eqb (IsAbs dir) (IsAbs p) &&
  match stripElems (elems dir) (elems p) with
  | Some (x :: _) => negb (String.eqb x "..")
  | Some [] => true
  | None => false
  end.

End Filepath.

#[global] Arguments Filepath.Clean : simpl never.
#[global] Arguments Filepath.Join : simpl never.
#[global] Arguments Filepath.Dir : simpl never.

(** ** The operating system the daemon runs against

    Path strings name nodes verbatim (the code hands the kernel either
    configured paths or results of [filepath.Join] and [filepath.Dir]).
    A symbolic link in final position is followed by the calls that
    follow it in the kernel ([Stat], opening a file for writing); links
    in the middle of a path are not traversed, and the parent directory
    of a created node is not looked up, since every caller makes it
    with [MkdirAll] first.  Subprocesses are an oracle of the
    environment: exit status, combined output, whether the process
    outlives ten seconds, and the disk it leaves behind.

    A call fails for a reason the tree shows (a missing source, a node
    of the wrong kind in the way, a directory that is not empty, a
    chain of links that is too long).  Failures from outside the tree
    (permissions, a full or read-only device, an I/O error while
    copying or syncing) are not modelled: where the code handles the
    failure of a call, that branch is embedded, and a theorem about it
    either follows the branch or excludes it by the error it
    returns. *)
Module OS.
Import Strs.

Inductive node :=
| File (data : string) (exec : bool)
| Directory
| Link (target : string).

Abbreviation FS := (gmap string node).

(** A Go [error] value is its message; [None] is [nil]. *)
Abbreviation error := string (only parsing).

Definition PathError (op path msg : string) : string :=
  op ++ " " ++ path ++ ": " ++ msg.

Definition isSymlink (n : option node) : bool :=
  match n with Some (Link _) => true | _ => false end.

Definition childPrefix (p : string) : string :=
  if String.eqb p "/" then "/" else p ++ "/".

(** [k] lies strictly below directory [p]. *)
Definition below (p k : string) : bool :=
  HasPrefix k (childPrefix p) && negb (String.eqb k p).

Definition hasChildren (fs : FS) (p : string) : bool :=
  existsb (fun kv => below p (fst kv)) (map_to_list fs).

(** Where the link [p -> t] leads. *)
Definition linkDest (p t : string) : string :=
  if Filepath.IsAbs t then t else Filepath.Join [Filepath.Dir p; t].

(** Follow links in final position; [None] when the chain is too long. *)
Fixpoint resolve (fuel : nat) (fs : FS) (p : string) : option string :=
  match fs !! p with
  | Some (Link t) =>
      match fuel with
      | O => None
      | S n => resolve n fs (linkDest p t)
      end
  | _ => Some p
  end.

Definition maxLinks : nat := 40.

Definition Lstat (fs : FS) (p : string) : option node := fs !! p.

Definition Stat (fs : FS) (p : string) : option node :=
  match resolve maxLinks fs p with
  | Some q => fs !! q
  | None => None
  end.

(** The prefixes of [p] that end in front of a slash, shortest first,
    and [p] itself. *)
Definition ancestors (p : string) : list string :=
  let pieces := SplitSlash p in
  filter (fun a => a ≠ "")
         (map (fun k => Strs.Join (take k pieces) "/") (seq 1 (length pieces))).

Fixpoint mkdirChain (fs : FS) (l : list string) : string + FS :=
  match l with
  | [] => inr fs
  | a :: rest =>
      match Stat fs a with
      | Some Directory => mkdirChain fs rest
      | Some _ => inl (PathError "mkdir" a "not a directory")
      | None =>
          match fs !! a with
          | Some _ => inl (PathError "mkdir" a "file exists")
          | None => mkdirChain (<[a := Directory]> fs) rest
          end
      end
  end.

Definition mkdirAll (fs : FS) (p : string) : string + FS :=
  match Stat fs p with
  | Some Directory => inr fs
  | Some _ => inl (PathError "mkdir" p "not a directory")
  | None => mkdirChain fs (ancestors p)
  end.

(** Open with [O_CREATE|O_TRUNC] and write [data]: a new file gets the
    requested mode, an existing one keeps its own. *)
Definition writeFile (fs : FS) (p data : string) (exec : bool) : string + FS :=
  match resolve maxLinks fs p with
  | None => inl (PathError "open" p "too many levels of symbolic links")
  | Some q =>
      match fs !! q with
      | Some Directory => inl (PathError "open" p "is a directory")
      | Some (File _ m) => inr (<[q := File data m]> fs)
      | _ => inr (<[q := File data exec]> fs)
      end
  end.

Definition remove (fs : FS) (p : string) : string + FS :=
  match fs !! p with
  | None => inl (PathError "remove" p "no such file or directory")
  | Some Directory =>
      if hasChildren fs p then inl (PathError "remove" p "directory not empty")
      else inr (delete p fs)
  | Some _ => inr (delete p fs)
  end.

Definition removeAll (fs : FS) (p : string) : FS :=
  match fs !! p with
  | None => fs
  | Some Directory => filter (fun kv => below p (fst kv) = false) (delete p fs)
  | Some _ => delete p fs
  end.

Definition symlink (fs : FS) (target link : string) : string + FS :=
  match fs !! link with
  | Some _ => inl ("symlink " ++ target ++ " " ++ link ++ ": file exists")
  | None => inr (<[link := Link target]> fs)
  end.

(** Moving a directory takes what lies below it along. *)
Definition moveTree (fs : FS) (a b : string) : FS :=
  let moved := filter (fun kv => below a (fst kv)) (map_to_list fs) in
  let rest := filter (fun kv => below a (fst kv) = false) (delete a fs) in
  foldr (fun kv m => <[b ++ Strs.Drop (String.length a) (fst kv) := snd kv]> m)
        (<[b := Directory]> rest) moved.

Definition rename (fs : FS) (a b : string) : string + FS :=
  let bad msg := inl ("rename " ++ a ++ " " ++ b ++ ": " ++ msg) in
  match fs !! a with
  | None => bad "no such file or directory"
  | Some n =>
      if String.eqb a b then inr fs
      else match n, fs !! b with
           | Directory, Some Directory =>
               if hasChildren fs b then bad "directory not empty"
               else inr (moveTree (delete b fs) a b)
           | Directory, Some _ => bad "not a directory"
           | Directory, None => inr (moveTree fs a b)
           | _, Some Directory => bad "file exists"
           | _, _ => inr (<[b := n]> (delete a fs))
           end
  end.

(** What a subprocess run reports and leaves behind. *)
Record outcome := Outcome {
  exit_ok : bool;
  output : string;
  slow : bool;
  after : FS
}.

Inductive event :=
| EvMkdirAll (path : string) (ok : bool)
| EvWrite (path data : string) (ok : bool)
| EvRemove (path : string) (ok : bool)
| EvRemoveAll (path : string)
| EvSymlink (target link : string) (ok : bool)
| EvRename (from to : string) (ok : bool)
| EvExec (argv : list string) (ok : bool) (out : string)
| EvRestart (service : string).

Record Env := {
  spawn : list string -> FS -> outcome
}.

Record World := { disk : FS; trace : list event }.

Definition M (A : Type) : Type := World -> A * World.
Definition ret {A} (a : A) : M A := fun w => (a, w).
Definition bind {A B} (m : M A) (k : A -> M B) : M B :=
  fun w => let (a, w') := m w in k a w'.

End OS.

Notation "'let*' x := m 'in' k" := (OS.bind m (fun x => k))
  (at level 10, x name, m at level 200, k at level 200).

Module Sys.
Import OS.

Definition emit (e : event) : M unit :=
  fun w => (tt, {| disk := disk w; trace := trace w ++ [e] |}).

(** Run a pure file-system step, log it, and hand back the Go error. *)
Definition step (f : FS -> string + FS) (ev : bool -> event) : M (option string) :=
  fun w =>
    match f (disk w) with
    | inl e => (Some e, {| disk := disk w; trace := trace w ++ [ev false] |})
    | inr fs' => (None, {| disk := fs'; trace := trace w ++ [ev true] |})
    end.

Definition MkdirAll (p : string) : M (option string) :=
  step (fun fs => mkdirAll fs p) (EvMkdirAll p).
Definition WriteFile (p data : string) (exec : bool) : M (option string) :=
  step (fun fs => writeFile fs p data exec) (EvWrite p data).
Definition Remove (p : string) : M (option string) :=
  step (fun fs => remove fs p) (EvRemove p).
Definition RemoveAll (p : string) : M (option string) :=
  step (fun fs => inr (removeAll fs p)) (fun _ => EvRemoveAll p).
Definition Symlink (target link : string) : M (option string) :=
  step (fun fs => symlink fs target link) (EvSymlink target link).
Definition Rename (a b : string) : M (option string) :=
  step (fun fs => rename fs a b) (EvRename a b).
Definition StatM (p : string) : M (option node) :=
  fun w => (Stat (disk w) p, w).
Definition LstatM (p : string) : M (option node) :=
  fun w => (Lstat (disk w) p, w).

(** [exec.Command(argv...)] run to completion. *)
Definition Exec (env : Env) (argv : list string) : M outcome :=
  fun w =>
    let o := spawn env argv (disk w) in
    (o, {| disk := after o; trace := trace w ++ [EvExec argv (exit_ok o) (output o)] |}).

(** A subprocess under a ten-second deadline: it counts as failed when
    it exits non-zero or is still running when the timer fires. *)
Definition ExecTimeout (env : Env) (argv : list string) : M outcome :=
  fun w =>
    let o := spawn env argv (disk w) in
    (o, {| disk := after o;
           trace := trace w ++ [EvExec argv (exit_ok o && negb (slow o)) (output o)] |}).

(** A call started on disk [fs] with an empty log. *)
Definition fresh (fs : FS) : World := {| disk := fs; trace := [] |}.

(** [fmt.Errorf("ctx: %w", err)] *)
Definition wrap (ctx err : string) : string := ctx ++ ": " ++ err.

End Sys.

(** ** Package [config] *)
Module Config.

Record ServerConfig := {
  ListenAddr : string; LogFile : string; LogLevel : string;
  TLSCert : string; TLSKey : string
}.

Record NginxConfig := {
  BinaryPath : string; MainConfPath : string;
  SitesAvailable : string; SitesEnabled : string; OverrideConf : string
}.

Record JailConfig := {
  BaseDir : string; JailConfPath : string; FreeBSDVersion : string;
  TarballCache : string; IPBase : string
}.

Record HealthConfig := {
  PollInterval : Z; FailureThreshold : Z; HealthPath : string
}.

Record SelfConfig := {
  SelfBinaryPath : string; PidFile : string; ConfigDir : string
}.

Record BackendConfig := {
  JailName : string; JailIP : string; ListenPort : Z;
  ProxyPath : string; BinaryName : string
}.

Record SiteConfig := {
  FrontendRoot : string; APIKey : string; OverrideIPs : list string;
  Backend : option BackendConfig; SSLEnabled : bool
}.

Record Config := {
  Server : ServerConfig; Nginx : NginxConfig; Jail : JailConfig;
  Health : HealthConfig; Self : SelfConfig;
  AdminKeys : list string;
  Site : gmap string SiteConfig;
  path : string
}.

Definition Site_set (c : Config) (m : gmap string SiteConfig) : Config :=
  {| Server := Server c; Nginx := Nginx c; Jail := Jail c; Health := Health c;
     Self := Self c; AdminKeys := AdminKeys c; Site := m; path := path c |}.

Definition HasFrontend (s : SiteConfig) : bool :=
  negb (String.eqb (FrontendRoot s) "").

Definition IsBackendOnly (s : SiteConfig) : bool :=
  match Backend s with
  | Some _ => String.eqb (FrontendRoot s) ""
  | None => false
  end.

End Config.

(** ** Package [config]: mutation and persistence

    The registry is the in-memory [Config]; a mutating method hands the
    new registry back together with its error.  The TOML encoder is a
    parameter. *)
Module Registry.
Import OS Sys Config.

(** The TOML encoder and the [%q] verb of [fmt] are parameters. *)
Section Registry.
Variable encode : Config -> string.
Variable quote : string -> string.

(** [AddSite]: the map is updated first, then the file is rewritten. *)
Definition AddSite (name : string) (site : SiteConfig) (c : Config)
  : M (option string * Config) :=
  match Site c !! name with
  | Some _ => ret (Some ("site " ++ quote name ++ " already exists"), c)
  | None =>
      let c' := Site_set c (<[name := site]> (Site c)) in
      if String.eqb (path c') "" then ret (Some "config path not set", c')
      else
        let* err := WriteFile (path c') (encode c') false in
        match err with
        | Some e => ret (Some (wrap "create config file" e), c')
        | None => ret (None, c')
        end
  end.

End Registry.

(** *** Lookup, validation and removal

    [Validate] and [NextJailIP] range over the site map; the order of
    the range is an argument.  The [%q] verb of [fmt] is a parameter. *)
Section Sites.
Variable encode : Config -> string.
Variable quote : string -> string.

Definition GetSite (c : Config) (name : string) : string + SiteConfig :=
  match Site c !! name with
  | None => inl ("site not found: " ++ name)
  | Some site => inr site
  end.

Definition GetSiteWithBackend (c : Config) (name : string) : string + SiteConfig :=
  match GetSite c name with
  | inl e => inl e
  | inr site =>
      match Backend site with
      | None => inl ("site " ++ name ++ " has no backend config")
      | Some _ => inr site
      end
  end.

(** The loop of [Validate] over the sites. *)
Fixpoint validateSites (order : list (string * SiteConfig)) : option string :=
  match order with
  | [] => None
  | (domain, site) :: rest =>
      if String.eqb (FrontendRoot site) "" &&
         match Backend site with None => true | Some _ => false end then
        Some ("site " ++ quote domain ++
              ": frontend_root is required (or configure a backend for backend-only mode)")
      else if String.eqb (APIKey site) "" then
        Some ("site " ++ quote domain ++ ": api_key is required")
      else validateSites rest
  end.

Definition Validate (order : list (string * SiteConfig)) (c : Config) : option string :=
  if String.eqb (ListenAddr (Server c)) "" then Some "server.listen_addr is required"
  else if (length (AdminKeys c) =? 0)%nat then Some "admin_keys must not be empty"
  else if String.eqb (BinaryPath (Nginx c)) "" || String.eqb (MainConfPath (Nginx c)) "" ||
          String.eqb (SitesAvailable (Nginx c)) "" || String.eqb (SitesEnabled (Nginx c)) ""
  then Some "nginx config paths are required"
  else if String.eqb (BaseDir (Jail c)) "" || String.eqb (JailConfPath (Jail c)) ""
  then Some "jail config paths are required"
  else if (size (Site c) =? 0)%nat then Some "at least one site must be configured"
  else validateSites order.

(** [RemoveSite]: the entry is deleted first, then the file is
    rewritten. *)
Definition RemoveSite (name : string) (c : Config) : M (option string * Config) :=
  match Site c !! name with
  | None => ret (Some ("site " ++ quote name ++ " does not exist"), c)
  | Some _ =>
      let c' := Site_set c (delete name (Site c)) in
      if String.eqb (path c') "" then ret (Some "config path not set", c')
      else
        let* err := WriteFile (path c') (encode c') false in
        match err with
        | Some e => ret (Some (wrap "create config file" e), c')
        | None => ret (None, c')
        end
  end.

Definition GetSiteByDomain (c : Config) (domain : string) : option SiteConfig :=
  Site c !! domain.

(** *** Jail addresses

    [scanInt] is what [fmt.Sscanf(s, "%d", &num)] leaves in [num]: the
    number read, or 0 when none could be read. *)
Variable scanInt : string -> Z.

(** Go's [int] on the target: 64 bits, wrapping. *)
Definition wrap64 (z : Z) : Z := ((z + 2 ^ 63) mod 2 ^ 64 - 2 ^ 63)%Z.

(** [ip[lastDot+1:]] for the last dot of [ip]; [None] when it has no
    dot. *)
Fixpoint afterLastDot (ip : string) : option string :=
  match ip with
  | EmptyString => None
  | String c rest =>
      match afterLastDot rest with
      | Some s => Some s
      | None => if Ascii.eqb c "." then Some rest else None
      end
  end.

(** The loop of [NextJailIP]: the highest last octet in use. *)
Definition maxJailNumber (order : list (string * SiteConfig)) : Z :=
  fold_left
    (fun maxNum kv =>
       match Backend (snd kv) with
       | Some b =>
           if String.eqb (JailIP b) "" then maxNum
           else match afterLastDot (JailIP b) with
                | Some s =>
                    let num := scanInt s in
                    if (num >? maxNum)%Z then num else maxNum
                | None => maxNum
                end
       | None => maxNum
       end)
    order 0%Z.

Definition NextJailIP (order : list (string * SiteConfig)) (c : Config) : string :=
  let ipBase := if String.eqb (IPBase (Jail c)) "" then "127.0.1" else IPBase (Jail c) in
  ipBase ++ "." ++ pretty (wrap64 (maxJailNumber order + 1)).

End Sites.
End Registry.

(** ** Package [ssl]: certificates through the ACME client *)
Module Ssl.
Import OS Sys.

Definition AcmeWebroot : string := "/var/www/acme".

Definition CertPaths (domain : string) : string * string :=
  let base := Filepath.Join ["/usr/local/etc/letsencrypt/live"; domain] in
  (Filepath.Join [base; "fullchain.pem"], Filepath.Join [base; "privkey.pem"]).

Definition HasValidCert (domain : string) : M bool :=
  let* cert := StatM (fst (CertPaths domain)) in
  let* key := StatM (snd (CertPaths domain)) in
  ret (match cert, key with Some _, Some _ => true | _, _ => false end).

Definition certbotCmd (domain : string) : list string :=
  ["certbot"; "certonly"; "--webroot"; "--webroot-path"; AcmeWebroot;
   "--non-interactive"; "--agree-tos"; "--register-unsafely-without-email";
   "-d"; domain].

Definition ObtainCert (env : Env) (domain : string) : M (option string) :=
  let* have := HasValidCert domain in
  if have then ret None
  else
    let acmeDir := Filepath.Join [AcmeWebroot; ".well-known"; "acme-challenge"] in
    let* err := MkdirAll acmeDir in
    match err with
    | Some e => ret (Some (wrap "create acme directory" e))
    | None =>
        let* o := Exec env (certbotCmd domain) in
        if negb (exit_ok o) then
          ret (Some ("certbot failed: exit status 1
Output: " ++ output o))
        else
          let* have := HasValidCert domain in
          if negb have then
            ret (Some "certbot succeeded but certificate not found at expected path")
          else ret None
    end.

End Ssl.

#[global] Arguments Ssl.CertPaths : simpl never.
#[global] Arguments Ssl.certbotCmd : simpl never.

(** ** Package [nginx]: the proxy configurator

    The text generators ([GenerateOverrideConf], [GenerateHTTPOnlyConfig],
    [TransformToHTTPS]) are template renderers outside the transaction
    logic; the manager is parameterised by them. *)
Module Nginx.
Import Strs OS Sys Config.

Section Manager.
Variable env : Env.
Variable GenerateOverrideConf : Config -> string.
Variable GenerateHTTPOnlyConfig : string -> string.
Variable TransformToHTTPS : string -> string -> string -> string -> string.
Variable CertPaths : string -> string * string.

Definition testCmd (cfg : Config) : list string := [BinaryPath (Nginx cfg); "-t"].
Definition reloadCmd (cfg : Config) : list string := [BinaryPath (Nginx cfg); "-s"; "reload"].

Definition availablePath (cfg : Config) (siteName : string) : string :=
  Filepath.Join [SitesAvailable (Nginx cfg); siteName ++ ".conf"].
Definition enabledPath (cfg : Config) (siteName : string) : string :=
  Filepath.Join [SitesEnabled (Nginx cfg); siteName ++ ".conf"].

(** [ValidateAndGetError]: run [nginx -t]; on failure hand back its
    trimmed output. *)
Definition ValidateAndGetError (cfg : Config) : M (bool * string) :=
  let* o := Exec env (testCmd cfg) in
  ret (if exit_ok o then (true, "") else (false, TrimSpace (output o))).

Definition symlinkSiteConfig (cfg : Config) (siteName : string) : M (option string) :=
  match Site cfg !! siteName with
  | None => ret (Some ("site not found: " ++ siteName))
  | Some _ =>
      let* err := MkdirAll (SitesEnabled (Nginx cfg)) in
      match err with
      | Some e => ret (Some (wrap "mkdir sites-enabled" e))
      | None =>
          let* _ := Remove (enabledPath cfg siteName) in
          let* err := Symlink (availablePath cfg siteName) (enabledPath cfg siteName) in
          match err with
          | Some e => ret (Some (wrap "symlink" e))
          | None => ret None
          end
      end
  end.

Definition DeploySiteConfigRaw (cfg : Config) (siteName nginxConfig : string)
  : M (bool * string * option string) :=
  match Site cfg !! siteName with
  | None => ret (false, "", Some ("site not found: " ++ siteName))
  | Some _ =>
      let* err := MkdirAll (SitesAvailable (Nginx cfg)) in
      match err with
      | Some e => ret (false, "", Some (wrap "mkdir sites-available" e))
      | None =>
          let* err := WriteFile (availablePath cfg siteName) nginxConfig false in
          match err with
          | Some e => ret (false, "", Some (wrap "write site config" e))
          | None =>
              let* err := WriteFile (OverrideConf (Nginx cfg)) (GenerateOverrideConf cfg) false in
              match err with
              | Some e => ret (false, "", Some (wrap "write override conf" e))
              | None =>
                  let* v := ValidateAndGetError cfg in
                  if negb (fst v) then ret (false, snd v, None)
                  else
                    let* err := symlinkSiteConfig cfg siteName in
                    match err with
                    | Some e => ret (false, "", Some (wrap "symlink site config" e))
                    | None =>
                        let* o := Exec env (reloadCmd cfg) in
                        if exit_ok o then ret (true, "", None)
                        else ret (false, "", Some (wrap "nginx reload" "exit status 1"))
                    end
              end
          end
      end
  end.

Definition DeploySiteConfig (cfg : Config) (siteName nginxConfig : string)
  : M (bool * string * option string) :=
  match Site cfg !! siteName with
  | None => ret (false, "", Some ("site not found: " ++ siteName))
  | Some site =>
      let finalConfig :=
        if SSLEnabled site
        then TransformToHTTPS nginxConfig siteName
               (fst (CertPaths siteName)) (snd (CertPaths siteName))
        else nginxConfig in
      DeploySiteConfigRaw cfg siteName finalConfig
  end.

Definition DeployHTTPOnlyConfig (cfg : Config) (domain : string) : M (option string) :=
  let* err := MkdirAll (SitesAvailable (Nginx cfg)) in
  match err with
  | Some e => ret (Some (wrap "mkdir sites-available" e))
  | None =>
      let* err := MkdirAll (SitesEnabled (Nginx cfg)) in
      match err with
      | Some e => ret (Some (wrap "mkdir sites-enabled" e))
      | None =>
          let httpConfig := GenerateHTTPOnlyConfig domain in
          let* err := WriteFile (availablePath cfg domain) httpConfig false in
          match err with
          | Some e => ret (Some (wrap "write http config" e))
          | None =>
              let* _ := Remove (enabledPath cfg domain) in
              let* err := Symlink (availablePath cfg domain) (enabledPath cfg domain) in
              match err with
              | Some e => ret (Some (wrap "symlink" e))
              | None =>
                  let* v := ValidateAndGetError cfg in
                  if negb (fst v) then
                    let* _ := Remove (enabledPath cfg domain) in
                    let* _ := Remove (availablePath cfg domain) in
                    ret (Some ("nginx validation failed: " ++ snd v))
                  else
                    let* o := Exec env (reloadCmd cfg) in
                    if exit_ok o then ret None
                    else ret (Some (wrap "nginx reload" "exit status 1"))
              end
          end
      end
  end.

Definition RemoveSiteConfigByDomain (cfg : Config) (domain : string) : M (option string) :=
  let* _ := Remove (enabledPath cfg domain) in
  let* _ := Remove (availablePath cfg domain) in
  let* _ := Exec env (reloadCmd cfg) in
  ret None.

Definition RemoveSiteConfig (cfg : Config) (siteName : string) : M (option string) :=
  match Site cfg !! siteName with
  | None => ret (Some ("site not found: " ++ siteName))
  | Some _ =>
      let* _ := Remove (enabledPath cfg siteName) in
      let* _ := Remove (availablePath cfg siteName) in
      let* err := WriteFile (OverrideConf (Nginx cfg)) (GenerateOverrideConf cfg) false in
      match err with
      | Some e => ret (Some (wrap "write override conf" e))
      | None =>
          let* v := ValidateAndGetError cfg in
          if negb (fst v) then ret (Some ("nginx validation after removal: " ++ snd v))
          else
            let* o := Exec env (reloadCmd cfg) in
            if exit_ok o then ret None
            else ret (Some (wrap "nginx reload" "exit status 1"))
      end
  end.

End Manager.
End Nginx.

(** ** Package [deploy]: the artifact store *)
Module Deploy.
Import Strs OS Sys Config.

(** What opening and reading a zip entry yields. *)
Inductive payload :=
| Unopenable
| Damaged (written : string)
| Intact (data : string).

Record ZipEntry := {
  Name : string;
  IsDir : bool;
  Payload : payload
}.

Section FrontendDeployer.
Variable env : Env.
Variable cfg : Config.
Variable GenerateOverrideConf : Config -> string.
Variable TransformToHTTPS : string -> string -> string -> string -> string.
Variable GenerateRobotsTxt : string.
Variable GenerateSiteCombinedConfig : string -> string -> Z -> string -> string.
Variable GenerateSiteCombinedConfigHTTPS :
  string -> string -> Z -> string -> string -> string -> string.

Definition zipSlip (name : string) : string := "zip slip detected: " ++ name.

Definition extractZipEntry (f : ZipEntry) (targetDir : string) : M (option string) :=
  let cleanPath := Filepath.Clean (Name f) in
  if HasPrefix cleanPath ".." || Filepath.IsAbs cleanPath then ret (Some (zipSlip (Name f)))
  else
    let fullPath := Filepath.Join [targetDir; cleanPath] in
    match Filepath.Rel targetDir fullPath with
    | None => ret (Some (zipSlip (Name f)))
    | Some rel =>
        if HasPrefix rel ".." then ret (Some (zipSlip (Name f)))
        else if IsDir f then
          let* err := MkdirAll fullPath in
          match err with
          | Some e => ret (Some (wrap "mkdir" e))
          | None => ret None
          end
        else
          let* err := MkdirAll (Filepath.Dir fullPath) in
          match err with
          | Some e => ret (Some (wrap "mkdir parent" e))
          | None =>
              match Payload f with
              | Unopenable => ret (Some (wrap "open zip entry" "zip: unsupported compression algorithm"))
              | Damaged written =>
                  let* err := WriteFile fullPath written false in
                  match err with
                  | Some e => ret (Some (wrap "create file" e))
                  | None => ret (Some (wrap "extract file" "zip: checksum error"))
                  end
              | Intact data =>
                  let* err := WriteFile fullPath data false in
                  match err with
                  | Some e => ret (Some (wrap "create file" e))
                  | None => ret None
                  end
              end
          end
    end.

(** The loop of [extractZip] over the entries of the archive. *)
Fixpoint extractEntries (files : list ZipEntry) (targetDir : string) : M (option string) :=
  match files with
  | [] => ret None
  | f :: rest =>
      let* err := extractZipEntry f targetDir in
      match err with
      | Some e => ret (Some e)
      | None => extractEntries rest targetDir
      end
  end.

(** [extractZip]: the upload either is a zip with these entries or is
    not one. *)
Definition extractZip (archive : option (list ZipEntry)) (targetDir : string)
  : M (option string) :=
  match archive with
  | None => ret (Some (wrap "invalid zip" "zip: not a valid zip file"))
  | Some files => extractEntries files targetDir
  end.

Definition buildDirs : list string := ["dist"; "build"; "out"; "public"].

(** The scan of the build sub-directories: the first one with an
    [index.html] wins. *)
Fixpoint detectTarget (fs : FS) (commitDir commitHash : string) (subdirs : list string)
  : string :=
  match subdirs with
  | [] => commitHash
  | subdir :: rest =>
      let subdirPath := Filepath.Join [commitDir; subdir] in
      let indexPath := Filepath.Join [subdirPath; "index.html"] in
      match Stat fs indexPath with
      | Some _ => Filepath.Join [commitHash; subdir]
      | None => detectTarget fs commitDir commitHash rest
      end
  end.

Definition updateLatestSymlink (frontendRoot commitHash : string) : M (option string) :=
  let latestPath := Filepath.Join [frontendRoot; "latest"] in
  let tmpPath := Filepath.Join [frontendRoot; "latest.tmp"] in
  let* _ := Remove tmpPath in
  let* info := LstatM latestPath in
  let* healed :=
    match info with
    | Some (Link _) | None => ret None
    | Some _ => RemoveAll latestPath
    end in
  match healed with
  | Some e => ret (Some (wrap "remove existing latest" e))
  | None =>
      let commitDir := Filepath.Join [frontendRoot; commitHash] in
      let* symlinkTarget :=
        (fun w => (detectTarget (disk w) commitDir commitHash buildDirs, w)) in
      let* err := Symlink symlinkTarget tmpPath in
      match err with
      | Some e => ret (Some (wrap "create temp symlink" e))
      | None =>
          let* err := Rename tmpPath latestPath in
          match err with
          | Some e =>
              let* _ := Remove tmpPath in
              ret (Some (wrap "rename symlink" e))
          | None => ret None
          end
      end
  end.

(** [Deploy]: unpack under the commit directory, add a default
    [robots.txt], move [latest] when asked to, and hand the proxy
    configuration to the configurator. *)
Definition Deploy (siteName commitHash : string) (archive : option (list ZipEntry))
           (nginxConfig : string) (updateLatest : bool)
  : M (bool * string * option string) :=
  match Site cfg !! siteName with
  | None => ret (false, "", Some ("site not found: " ++ siteName))
  | Some site =>
      let commitDir := Filepath.Join [FrontendRoot site; commitHash] in
      let* err := MkdirAll commitDir in
      match err with
      | Some e => ret (false, "", Some (wrap "mkdir commit dir" e))
      | None =>
          let* err := extractZip archive commitDir in
          match err with
          | Some e => ret (false, "", Some (wrap "extract zip" e))
          | None =>
              let robotsPath := Filepath.Join [commitDir; "robots.txt"] in
              let* info := StatM robotsPath in
              let* err :=
                match info with
                | None => WriteFile robotsPath GenerateRobotsTxt false
                | Some _ => ret None
                end in
              match err with
              | Some e => ret (false, "", Some (wrap "write robots.txt" e))
              | None =>
                  let* err :=
                    if updateLatest then updateLatestSymlink (FrontendRoot site) commitHash
                    else ret None in
                  match err with
                  | Some e => ret (false, "", Some (wrap "update symlink" e))
                  | None =>
                      let* out :=
                        match Backend site with
                        | Some b =>
                            let combinedConfig :=
                              if SSLEnabled site then
                                GenerateSiteCombinedConfigHTTPS siteName (FrontendRoot site)
                                  (ListenPort b) (ProxyPath b)
                                  (fst (Ssl.CertPaths siteName)) (snd (Ssl.CertPaths siteName))
                              else
                                GenerateSiteCombinedConfig siteName (FrontendRoot site)
                                  (ListenPort b) (ProxyPath b) in
                            Nginx.DeploySiteConfigRaw env GenerateOverrideConf cfg
                              siteName combinedConfig
                        | None =>
                            Nginx.DeploySiteConfig env GenerateOverrideConf TransformToHTTPS
                              Ssl.CertPaths cfg siteName nginxConfig
                        end in
                      match out with
                      | (_, _, Some e) => ret (false, "", Some e)
                      | (false, errMsg, None) => ret (false, errMsg, None)
                      | (true, _, None) => ret (true, "", None)
                      end
                  end
              end
          end
      end
  end.

End FrontendDeployer.
End Deploy.

(** ** Package [update]: the self-updater *)
Module Update.
Import Strs OS Sys.

Section Updater.
Variable env : Env.
Variable binaryPath : string.

(** [writeNewBinary]: make the directory, open with
    [O_CREATE|O_WRONLY|O_TRUNC] and mode 0755, copy, sync. *)
Definition writeNewBinary (path data : string) : M (option string) :=
  let* err := MkdirAll (Filepath.Dir path) in
  match err with
  | Some e => ret (Some (wrap "create directory" e))
  | None =>
      let* err := WriteFile path data true in
      match err with
      | Some e => ret (Some (wrap "create file" e))
      | None => ret None
      end
  end.

Definition validateBinary (path : string) : M (option string) :=
  let* info := StatM path in
  match info with
  | None => ret (Some (wrap "stat binary" (PathError "stat" path "no such file or directory")))
  | Some (File _ false) => ret (Some "binary is not executable")
  | Some _ =>
      let* o := ExecTimeout env [path; "version"] in
      if slow o then ret (Some "binary validation timed out")
      else if exit_ok o then ret None
      else ret (Some (wrap "binary validation failed" "exit status 1"))
  end.

Definition atomicReplace (newPath oldPath : string) : M (option string) :=
  let* _ := Remove oldPath in
  let* err := Rename binaryPath oldPath in
  match err with
  | Some e => ret (Some (wrap "backup current binary" e))
  | None =>
      let* err := Rename newPath binaryPath in
      match err with
      | Some e =>
          let* restoreErr := Rename oldPath binaryPath in
          match restoreErr with
          | Some re => ret (Some ("rename failed (" ++ e ++ ") and restore failed (" ++ re ++ ")"))
          | None => ret (Some (wrap "rename new binary" e))
          end
      | None => ret None
      end
  end.

Definition Update (newBinary : string) : M (option string) :=
  let newPath := binaryPath ++ ".new" in
  let oldPath := binaryPath ++ ".old" in
  let* err := writeNewBinary newPath newBinary in
  match err with
  | Some e => ret (Some (wrap "write new binary" e))
  | None =>
      let* err := validateBinary newPath in
      match err with
      | Some e =>
          let* _ := Remove newPath in
          ret (Some (wrap "validate binary" e))
      | None =>
          let* err := atomicReplace newPath oldPath in
          match err with
          | Some e =>
              let* _ := Remove newPath in
              ret (Some (wrap "atomic replace" e))
          | None => ret None
          end
      end
  end.

Definition HasBackup : M bool :=
  let* info := StatM (binaryPath ++ ".old") in
  ret (match info with Some _ => true | None => false end).

Definition Rollback : M (option string) :=
  let oldPath := binaryPath ++ ".old" in
  let* info := StatM oldPath in
  match info with
  | None => ret (Some ("no backup found at " ++ oldPath))
  | Some _ =>
      let newPath := binaryPath ++ ".new" in
      let* _ := Remove newPath in
      let* err := Rename binaryPath newPath in
      match err with
      | Some e => ret (Some (wrap "move current binary" e))
      | None =>
          let* err := Rename oldPath binaryPath in
          match err with
          | Some e =>
              let* _ := Rename newPath binaryPath in
              ret (Some (wrap "restore backup" e))
          | None =>
              let* _ := Remove newPath in
              ret None
          end
      end
  end.

End Updater.
End Update.

(** ** Package [service]: the supervisor's naming *)
Module Service.

(** [strings.ReplaceAll] for a one-byte pattern. *)
Fixpoint replaceChar (from : ascii) (to : string) (s : string) : string :=
  match s with
  | EmptyString => ""
  | String c s' =>
      if Ascii.eqb c from then to ++ replaceChar from to s'
      else String c (replaceChar from to s')
  end.

Definition serviceName (siteName : string) : string :=
  replaceChar "-" "_" (replaceChar "." "_" siteName).

End Service.

(** ** Package [service]: the rc.d manager (FreeBSD build) *)
Module ServiceManager.
Import Strs OS Sys Config Service.

Definition potName (siteName : string) : string := replaceChar "." "-" siteName.

Section Manager.
Variable env : Env.
Variable cfg : Config.
(** [rcdTmpl.Execute] on service name, pot name, binary path and port:
    the script, or the template error. *)
Variable renderRcd : string -> string -> string -> Z -> string + string.

Definition enableService (name : string) : M (option string) :=
  let* o := Exec env ["sysrc"; name ++ "_enable=YES"] in
  ret (if exit_ok o then None else Some (wrap "enable service" "exit status 1")).

Definition disableService (name : string) : M (option string) :=
  let* o := Exec env ["sysrc"; name ++ "_enable=NO"] in
  ret (if exit_ok o then None else Some (wrap "disable service" "exit status 1")).

Definition startService (name : string) : M (option string) :=
  let* o := Exec env ["service"; name; "start"] in
  ret (if exit_ok o then None else Some (wrap "start service" "exit status 1")).

Definition stopService (name : string) : M unit :=
  let* _ := Exec env ["service"; name; "stop"] in
  ret tt.

Definition restartService (name : string) : M (option string) :=
  let* o := Exec env ["service"; name; "restart"] in
  ret (if exit_ok o then None else Some (wrap "restart service" "exit status 1")).

Definition checkService (name : string) : M bool :=
  let* o := Exec env ["service"; name; "status"] in
  ret (exit_ok o).

Definition rcdPath (siteName : string) : string :=
  Filepath.Join ["/usr/local/etc/rc.d"; serviceName siteName].

Definition CreateBackendService (siteName : string) : M (option string) :=
  match Site cfg !! siteName with
  | None => ret (Some ("site not found: " ++ siteName))
  | Some site =>
      match Backend site with
      | None => ret (Some ("site " ++ siteName ++ " has no backend config"))
      | Some b =>
          let binaryPath := Filepath.Join ["/usr/local/bin"; BinaryName b] in
          match renderRcd (serviceName siteName) (potName siteName) binaryPath (ListenPort b) with
          | inl e => ret (Some (wrap "execute rcd template" e))
          | inr scriptContent =>
              let* err := MkdirAll (Filepath.Dir (rcdPath siteName)) in
              match err with
              | Some e => ret (Some (wrap "mkdir rc.d" e))
              | None =>
                  let* err := WriteFile (rcdPath siteName) scriptContent true in
                  match err with
                  | Some e => ret (Some (wrap "write rc.d script" e))
                  | None => ret None
                  end
              end
          end
      end
  end.

Definition RemoveBackendService (siteName : string) : M (option string) :=
  match Site cfg !! siteName with
  | None => ret (Some ("site not found: " ++ siteName))
  | Some site =>
      match Backend site with
      | None => ret None
      | Some _ =>
          let* _ := Remove (rcdPath siteName) in
          ret None
      end
  end.

(** The shape shared by [Enable], [Disable], [Start] and [Restart]. *)
Definition onBackend (siteName : string) (act : string -> M (option string))
  : M (option string) :=
  match Site cfg !! siteName with
  | None => ret (Some ("site not found: " ++ siteName))
  | Some site =>
      match Backend site with
      | None => ret None
      | Some _ => act (serviceName siteName)
      end
  end.

Definition Enable (siteName : string) : M (option string) := onBackend siteName enableService.
Definition Disable (siteName : string) : M (option string) := onBackend siteName disableService.
Definition Start (siteName : string) : M (option string) := onBackend siteName startService.
Definition Restart (siteName : string) : M (option string) := onBackend siteName restartService.

Definition Stop (siteName : string) : M (option string) :=
  onBackend siteName (fun name => let* _ := stopService name in ret None).

Definition Status (siteName : string) : M (bool * option string) :=
  match Site cfg !! siteName with
  | None => ret (false, Some ("site not found: " ++ siteName))
  | Some site =>
      match Backend site with
      | None => ret (false, None)
      | Some _ =>
          let* up := checkService (serviceName siteName) in
          ret (up, None)
      end
  end.

End Manager.
End ServiceManager.

(** ** Package [jail]: pots

    [potCmd] is the configured pot binary. *)
Module Pot.
Import Strs OS Sys Config Service.

Definition potName (siteName : string) : string := replaceChar "." "-" siteName.

Section Manager.
Variable env : Env.
Variable cfg : Config.
(** What [m.potCmd()] returns: the configured pot binary, [pot] when
    none is set. *)
Variable potCmd : string.

Definition potExists (name : string) : M bool :=
  let* o := Exec env [potCmd; "info"; "-p"; name] in
  ret (exit_ok o).

Definition createPot (siteName : string) : M (option string) :=
  let* o := Exec env [potCmd; "create"; "-p"; potName siteName; "-t"; "single";
                      "-b"; FreeBSDVersion (Jail cfg); "-N"; "inherit"] in
  ret (if exit_ok o then None
       else Some ("pot create: exit status 1: " ++ output o)).

Definition EnsureExists (siteName : string) : M (option string) :=
  match Site cfg !! siteName with
  | None => ret (Some ("site not found: " ++ siteName))
  | Some site =>
      match Backend site with
      | None => ret (Some ("site " ++ siteName ++ " has no backend config"))
      | Some _ =>
          let* have := potExists (potName siteName) in
          if have then ret None else createPot siteName
      end
  end.

Definition Start (siteName : string) : M (option string) :=
  match Site cfg !! siteName with
  | None => ret (Some ("site not found: " ++ siteName))
  | Some site =>
      match Backend site with
      | None => ret (Some ("site " ++ siteName ++ " has no backend config"))
      | Some _ =>
          let* o := Exec env [potCmd; "start"; "-p"; potName siteName] in
          ret (if exit_ok o then None
               else Some ("pot start: exit status 1: " ++ output o))
      end
  end.

Definition Stop (siteName : string) : M (option string) :=
  match Site cfg !! siteName with
  | None => ret (Some ("site not found: " ++ siteName))
  | Some site =>
      match Backend site with
      | None => ret None
      | Some _ =>
          let* _ := Exec env [potCmd; "stop"; "-p"; potName siteName] in
          ret None
      end
  end.

Definition Destroy (siteName : string) : M (option string) :=
  match Site cfg !! siteName with
  | None => ret (Some ("site not found: " ++ siteName))
  | Some site =>
      match Backend site with
      | None => ret None
      | Some _ =>
          let* _ := Stop siteName in
          let* o := Exec env [potCmd; "destroy"; "-p"; potName siteName] in
          ret (if exit_ok o then None
               else Some ("pot destroy: exit status 1: " ++ output o))
      end
  end.

Definition CopyIn (siteName srcPath destPath : string) : M (option string) :=
  match Site cfg !! siteName with
  | None => ret (Some ("site not found: " ++ siteName))
  | Some site =>
      match Backend site with
      | None => ret (Some ("site " ++ siteName ++ " has no backend config"))
      | Some _ =>
          let* o := Exec env [potCmd; "copy-in"; "-p"; potName siteName; "-F";
                              "-s"; srcPath; "-d"; destPath] in
          ret (if exit_ok o then None
               else Some ("pot copy-in: exit status 1: " ++ output o))
      end
  end.

Definition ExecIn (siteName command : string) (args : list string) : M (option string) :=
  match Site cfg !! siteName with
  | None => ret (Some ("site not found: " ++ siteName))
  | Some site =>
      match Backend site with
      | None => ret (Some ("site " ++ siteName ++ " has no backend config"))
      | Some _ =>
          let* o := Exec env ([potCmd; "exec"; "-p"; potName siteName; command] ++ args)%list in
          ret (if exit_ok o then None
               else Some ("pot exec: exit status 1: " ++ output o))
      end
  end.

End Manager.
End Pot.

(** ** Package [health]: the monitor

    One tick of the monitor ranges over the site map, in whatever order
    the map hands its entries out; [order] is that enumeration.  The
    probe is an HTTP GET answered by the environment ([None] is a
    transport error or a timeout); restarts go to the service
    supervisor and are recorded in order. *)
Module Health.
Import Config.

Record ServiceStatus := {
  LastCheck : Z;
  ConsecutiveFailures : Z;
  Healthy : bool
}.

Record Monitor := {
  serviceStatus : gmap string ServiceStatus;
  restarts : list string
}.

(** Go's [int] on the target: 64 bits, wrapping. *)
Definition wrapInt (z : Z) : Z := ((z + 2 ^ 63) mod 2 ^ 64 - 2 ^ 63)%Z.

Section Tick.
Variable cfg : Config.
Variable httpGet : string -> option Z.
Variable now : Z.

Definition healthURL (b : BackendConfig) : string :=
  "http://" ++ JailIP b ++ ":" ++ pretty (ListenPort b) ++ HealthPath (Health cfg).

Definition checkService (site : SiteConfig) : bool :=
  match Backend site with
  | None => true
  | Some b =>
      match httpGet (healthURL b) with
      | None => false
      | Some code => (code =? 200)%Z
      end
  end.

(** [svcMgr.Restart]: nothing for an unknown site or one without a
    backend, otherwise the platform's restart of the named service. *)
Definition Restart (siteName : string) (log : list string) : list string :=
  match Site cfg !! siteName with
  | None => log
  | Some site =>
      match Backend site with
      | None => log
      | Some _ => (log ++ [Service.serviceName siteName])%list
      end
  end.

(** The body of the loop in [checkAllServices]. *)
Definition checkOne (m : Monitor) (siteName : string) (site : SiteConfig) : Monitor :=
  match Backend site with
  | None => m
  | Some _ =>
      let healthy := checkService site in
      match serviceStatus m !! siteName with
      | Some status =>
          if negb healthy then
            let failures := wrapInt (ConsecutiveFailures status + 1) in
            if (failures >=? FailureThreshold (Health cfg))%Z then
              {| serviceStatus :=
                   <[siteName := {| LastCheck := now; ConsecutiveFailures := 0;
                                    Healthy := healthy |}]> (serviceStatus m);
                 restarts := Restart siteName (restarts m) |}
            else
              {| serviceStatus :=
                   <[siteName := {| LastCheck := now; ConsecutiveFailures := failures;
                                    Healthy := healthy |}]> (serviceStatus m);
                 restarts := restarts m |}
          else
            {| serviceStatus :=
                 <[siteName := {| LastCheck := now; ConsecutiveFailures := 0;
                                  Healthy := healthy |}]> (serviceStatus m);
               restarts := restarts m |}
      | None =>
          {| serviceStatus :=
               <[siteName := {| LastCheck := now; ConsecutiveFailures := 0;
                                Healthy := healthy |}]> (serviceStatus m);
             restarts := restarts m |}
      end
  end.

Definition checkAllServices (order : list (string * SiteConfig)) (m : Monitor) : Monitor :=
  fold_left (fun m kv => checkOne m (fst kv) (snd kv)) order m.

End Tick.
End Health.

(** ** Package [server]: requests, responses, middleware *)
Module Server.
Import OS Sys Config.

Inductive json := JStr (s : string) | JBool (b : bool) | JInt (z : Z).

Record Response := { status : Z; body : list (string * json) }.

Definition StatusOK : Z := 200.
Definition StatusCreated : Z := 201.
Definition StatusBadRequest : Z := 400.
Definition StatusUnauthorized : Z := 401.
Definition StatusNotFound : Z := 404.
Definition StatusConflict : Z := 409.
Definition StatusUnprocessableEntity : Z := 422.
Definition StatusInternalServerError : Z := 500.

Definition errorJSON (code : Z) (tag : string) : Response :=
  {| status := code; body := [("status", JStr "error"); ("error", JStr tag)] |}.

Definition errorDetail (code : Z) (tag detail : string) : Response :=
  {| status := code;
     body := [("status", JStr "error"); ("error", JStr tag); ("detail", JStr detail)] |}.

(** The machine-stable tag of an error response. *)
Definition errorTag (r : Response) : option string :=
  match filter (fun kv => String.eqb (fst kv) "error") (body r) with
  | (_, JStr t) :: _ => Some t
  | _ => None
  end.

(** An uploaded part: its bytes, or [None] when it cannot be opened.
    Parts are held in memory, so [Open] gives a reader over the bytes,
    and one [Read] into a buffer of the part's size returns them all;
    on an empty part that [Read] reports [io.EOF]. *)
Record Upload := { filename : string; content : option string }.

Record Form := {
  Value : gmap string (list string);
  FormFile : gmap string (list Upload)
}.

(** What a handler sees of a request: the multipart form ([None] when
    it does not parse) and the headers. *)
Record Request := {
  form : option Form;
  headers : gmap string string
}.

(** [c.Get(name)]: the header, or the empty string. *)
Definition Get (r : Request) (name : string) : string :=
  default "" (headers r !! name).

Definition formValue (f : Form) (name : string) : list string :=
  default [] (Value f !! name).

(** [subtle.ConstantTimeCompare]: 1 when both byte strings are equal,
    0 otherwise; the bytes are folded with xor and or. *)
Fixpoint xorFold (x y : string) (v : N) : N :=
  match x, y with
  | String a x', String b y' =>
      xorFold x' y' (N.lor v (N.lxor (N_of_ascii a) (N_of_ascii b)))
  | _, _ => v
  end.

Definition ConstantTimeCompare (x y : string) : Z :=
  if (String.length x =? String.length y)%nat
  then (if (xorFold x y 0 =? 0)%N then 1 else 0)%Z
  else 0%Z.

Inductive verdict := Next | Reply (r : Response).

(** [for _, adminKey := range cfg.AdminKeys] with its early exit. *)
Fixpoint anyAdminKey (key : string) (keys : list string) : bool :=
  match keys with
  | [] => false
  | k :: rest =>
      if (ConstantTimeCompare key k =? 1)%Z then true else anyAdminKey key rest
  end.

Definition AdminAuth (cfg : Config) (c : Request) : verdict :=
  let key := Get c "X-Shipyard-Key" in
  if String.eqb key "" then
    Reply (errorDetail StatusUnauthorized "missing_auth" "X-Shipyard-Key header required")
  else if anyAdminKey key (AdminKeys cfg) then Next
  else Reply (errorJSON StatusUnauthorized "invalid_key").

Definition SiteAuth (cfg : Config) (c : Request) : verdict :=
  match form c with
  | None => Reply (errorDetail StatusBadRequest "invalid_request" "failed to parse form")
  | Some f =>
      match formValue f "site" with
      | [] => Reply (errorJSON StatusBadRequest "missing_site")
      | siteName :: _ =>
          match Site cfg !! siteName with
          | None => Reply (errorJSON StatusNotFound "site_not_found")
          | Some site =>
              let key := Get c "X-Shipyard-Key" in
              if String.eqb key "" then Reply (errorJSON StatusUnauthorized "missing_auth")
              else if (ConstantTimeCompare key (APIKey site) =? 1)%Z then Next
              else if anyAdminKey key (AdminKeys cfg) then Next
              else Reply (errorJSON StatusUnauthorized "invalid_key")
          end
      end
  end.

Inductive auth := NoAuth | Admin | PerSite.

(** The table of [setupRoutes]. *)
Definition routes : list (string * string * auth) :=
  [ ("GET", "/health", NoAuth);
    ("GET", "/status/:site", NoAuth);
    ("GET", "/sites", Admin);
    ("POST", "/site/create", Admin);
    ("POST", "/site/init", Admin);
    ("POST", "/site/destroy", Admin);
    ("GET", "/site/logs", Admin);
    ("GET", "/nginx/example", Admin);
    ("POST", "/deploy/frontend", PerSite);
    ("POST", "/deploy/backend", PerSite);
    ("POST", "/deploy/self", Admin) ].

Definition routeAuth (method route : string) : option auth :=
  match filter (fun r => String.eqb (fst (fst r)) method && String.eqb (snd (fst r)) route) routes with
  | r :: _ => Some (snd r)
  | [] => None
  end.

Definition middleware (a : auth) (cfg : Config) (c : Request) : verdict :=
  match a with
  | NoAuth => Next
  | Admin => AdminAuth cfg c
  | PerSite => SiteAuth cfg c
  end.

(** *** Commit ids *)

Definition inRange (lo hi c : ascii) : bool :=
  (nat_of_ascii lo <=? nat_of_ascii c)%nat && (nat_of_ascii c <=? nat_of_ascii hi)%nat.

(** The character class [[0-9a-f]]. *)
Definition hexClass (c : ascii) : bool := inRange "0" "9" c || inRange "a" "f" c.

(** An anchored [^cls{lo,hi}$]: every character is consumed by the
    class, between [lo] and [hi] of them. *)
Fixpoint matchRepeat (cls : ascii -> bool) (lo hi : nat) (s : string) {struct s} : bool :=
  match s with
  | EmptyString => (lo =? 0)%nat
  | String c s' =>
      match hi with
      | O => false
      | S hi' => cls c && matchRepeat cls (pred lo) hi' s'
      end
  end.

(** [commitHashRegex.MatchString], for [^[0-9a-f]{7,40}$]. *)
Definition commitHashRegex (s : string) : bool := matchRepeat hexClass 7 40 s.

Definition isValidCommitHash (hash : string) : bool :=
  String.eqb hash "latest" || commitHashRegex hash.

(** *** The deploy handlers

    The deployers are fields of the server, set when it is built; the
    handlers are parameterised by them and by the two template
    renderers. *)
Section Handlers.
Variable cfg : Config.
Variable frontendDeploy :
  string -> string -> string -> string -> bool -> M (bool * string * option string).
Variable backendDeploy : string -> string -> string -> string -> M (option string).
Variable nginxDefaultTmpl : string -> string -> string + string.
Variable RenderUserConfig : string -> string -> Config -> string + string.

Definition formFile (f : Form) (name : string) : list Upload :=
  default [] (FormFile f !! name).

Definition DeployFrontend (c : Request) : M Response :=
  match form c with
  | None =>
      ret (errorDetail StatusBadRequest "invalid_request" "failed to parse multipart form")
  | Some f =>
      match formValue f "site", formValue f "commit" with
      | siteName :: _, commitHash :: _ =>
          let updateLatest :=
            match formValue f "update_latest" with
            | v :: _ => String.eqb v "true" || String.eqb v "1"
            | [] => false
            end in
          match Site cfg !! siteName with
          | None => ret (errorJSON StatusNotFound "site_not_found")
          | Some site =>
              if IsBackendOnly site then
                ret (errorDetail StatusBadRequest "backend_only_site"
                       "this site has no frontend; use /deploy/backend instead")
              else if negb (isValidCommitHash commitHash) then
                ret (errorDetail StatusBadRequest "invalid_commit_hash"
                       "must be 7-40 char hex string")
              else
                match formFile f "artifact" with
                | [] => ret (errorJSON StatusBadRequest "missing_artifact")
                | artifactFile :: _ =>
                    let fromForm : string + string :=
                      match formValue f "nginx_config" with
                      | v :: _ =>
                          if negb (String.eqb v "") then inr v
                          else match formFile f "nginx_config" with
                               | nginxFile :: _ =>
                                   match content nginxFile with
                                   | None => inl "failed to read nginx_config file"
                                   | Some bytes =>
                                       if String.eqb bytes "" then
                                         inl "failed to read nginx_config"
                                       else inr bytes
                                   end
                               | [] => inr ""
                               end
                      | [] =>
                          match formFile f "nginx_config" with
                          | nginxFile :: _ =>
                              match content nginxFile with
                              | None => inl "failed to read nginx_config file"
                              | Some bytes =>
                                  if String.eqb bytes "" then
                                    inl "failed to read nginx_config"
                                  else inr bytes
                              end
                          | [] => inr ""
                          end
                      end in
                    match fromForm with
                    | inl tag => ret (errorJSON StatusBadRequest tag)
                    | inr given =>
                        let rendered : Response + string :=
                          if String.eqb given "" then
                            match nginxDefaultTmpl siteName (FrontendRoot site) with
                            | inl e => inl (errorDetail StatusInternalServerError
                                              "nginx_config_generation_failed" e)
                            | inr text => inr text
                            end
                          else
                            match RenderUserConfig given siteName cfg with
                            | inl e => inl (errorDetail StatusBadRequest
                                              "nginx_template_error" e)
                            | inr text => inr text
                            end in
                        match rendered with
                        | inl r => ret r
                        | inr nginxConfig =>
                            match content artifactFile with
                            | None => ret (errorJSON StatusBadRequest "failed to read artifact")
                            | Some src =>
                                let* out := frontendDeploy siteName commitHash src
                                              nginxConfig updateLatest in
                                match out with
                                | (_, _, Some err) =>
                                    ret (errorDetail StatusInternalServerError
                                           "deployment_failed" err)
                                | (false, nginxErr, None) =>
                                    ret {| status := StatusUnprocessableEntity;
                                           body := [("status", JStr "partially_deployed");
                                                    ("error", JStr "nginx_validation_failed");
                                                    ("detail", JStr nginxErr);
                                                    ("commit_deployed", JBool true);
                                                    ("nginx_reloaded", JBool false);
                                                    ("latest_updated", JBool updateLatest);
                                                    ("site", JStr siteName);
                                                    ("commit", JStr commitHash)] |}
                                | (true, _, None) =>
                                    ret {| status := StatusOK;
                                           body := [("status", JStr "deployed");
                                                    ("site", JStr siteName);
                                                    ("commit", JStr commitHash);
                                                    ("path", JStr (FrontendRoot site ++ "/" ++ commitHash));
                                                    ("nginx_reloaded", JBool true);
                                                    ("latest_updated", JBool updateLatest)] |}
                                end
                            end
                        end
                    end
                end
          end
      | _, _ => ret (errorJSON StatusBadRequest "missing_fields")
      end
  end.

Definition DeployBackend (c : Request) : M Response :=
  match form c with
  | None => ret (errorJSON StatusBadRequest "invalid_request")
  | Some f =>
      match formValue f "site", formValue f "commit" with
      | siteName :: _, commitHash :: _ =>
          match Site cfg !! siteName with
          | None => ret (errorJSON StatusNotFound "site_not_found")
          | Some site =>
              match Backend site with
              | None => ret (errorJSON StatusBadRequest "site_has_no_backend")
              | Some backend =>
                  if negb (isValidCommitHash commitHash) then
                    ret (errorJSON StatusBadRequest "invalid_commit_hash")
                  else
                    match formFile f "artifact" with
                    | [] => ret (errorJSON StatusBadRequest "missing_artifact")
                    | artifactFile :: _ =>
                        match content artifactFile with
                        | None => ret (errorJSON StatusBadRequest "failed to read artifact")
                        | Some src =>
                            let binaryName :=
                              match formValue f "binary_name" with
                              | v :: _ => v
                              | [] => BinaryName backend
                              end in
                            let* err := backendDeploy siteName commitHash src binaryName in
                            match err with
                            | Some e =>
                                ret (errorDetail StatusInternalServerError "deployment_failed" e)
                            | None =>
                                ret {| status := StatusOK;
                                       body := [("status", JStr "deployed");
                                                ("site", JStr siteName);
                                                ("commit", JStr commitHash);
                                                ("jail", JStr (JailName backend));
                                                ("healthy", JBool true)] |}
                            end
                        end
                    end
              end
          end
      | _, _ => ret (errorJSON StatusBadRequest "missing_fields")
      end
  end.

(** A route: the middleware first, the handler when it lets the
    request through. *)
Definition serve (a : auth) (handler : Request -> M Response) (c : Request) : M Response :=
  match middleware a cfg c with
  | Reply r => ret r
  | Next => handler c
  end.

End Handlers.

(** *** Site creation *)

Record SiteCreateRequest := {
  Domain : string;
  ReqFrontendRoot : string;
  ReqSSLEnabled : bool;
  WithBackend : bool;
  BackendPort : Z;
  ReqProxyPath : string
}.

Definition domainEdge (c : ascii) : bool := inRange "a" "z" c || inRange "0" "9" c.
Definition domainInner (c : ascii) : bool :=
  domainEdge c || Ascii.eqb c "." || Ascii.eqb c "-".

(** The rest of a domain after its first character: inner characters,
    then one closing edge character. *)
Fixpoint domainTail (s : string) : bool :=
  match s with
  | EmptyString => false
  | String c EmptyString => domainEdge c
  | String c s' => domainInner c && domainTail s'
  end.

(** [validDomain.MatchString], for [^[a-z0-9][a-z0-9\.\-]*[a-z0-9]$]. *)
Definition validDomain (s : string) : bool :=
  match s with
  | EmptyString => false
  | String c s' => domainEdge c && domainTail s'
  end.

Section Lifecycle.
Variable env : Env.
Variable encode : Config -> string.
Variable quote : string -> string.
Variable GenerateOverrideConf : Config -> string.
Variable GenerateHTTPOnlyConfig : string -> string.
Variable GenerateBackendProxyConfig : string -> Z -> string -> string.
Variable GenerateBackendProxyConfigHTTPS : string -> Z -> string -> string -> string -> string.
Variable GenerateSiteCombinedConfig : string -> string -> Z -> string -> string.
Variable GenerateSiteCombinedConfigHTTPS :
  string -> string -> Z -> string -> string -> string -> string.
Variable NextJailIP : Config -> string.
(** [config.GenerateAPIKey("sk-site-")]: the key, or [None] when the
    random source fails. *)
Variable GenerateAPIKey : option string.

Definition created (req : SiteCreateRequest) (apiKey frontendRoot : string)
           (backendOnly nginxDeployed : bool) : Response :=
  {| status := StatusCreated;
     body := [("status", JStr "created"); ("domain", JStr (Domain req));
              ("api_key", JStr apiKey); ("frontend_root", JStr frontendRoot);
              ("ssl_enabled", JBool (ReqSSLEnabled req));
              ("has_backend", JBool (WithBackend req));
              ("backend_only", JBool backendOnly);
              ("nginx_deployed", JBool nginxDeployed)] |}.

(** [SiteCreate]: the parsed JSON body ([None] when it does not parse)
    and the registry in, the response and the registry out. *)
Definition SiteCreate (cfg : Config) (parsed : option SiteCreateRequest)
  : M (Response * Config) :=
  match parsed with
  | None => ret (errorDetail StatusBadRequest "invalid_request" "failed to parse JSON body", cfg)
  | Some req =>
      if String.eqb (Domain req) "" then ret (errorJSON StatusBadRequest "missing_domain", cfg)
      else if negb (validDomain (Domain req)) then
        ret (errorDetail StatusBadRequest "invalid_domain"
               "domain must be lowercase alphanumeric with dots and hyphens", cfg)
      else
        match Site cfg !! Domain req with
        | Some _ => ret (errorJSON StatusConflict "site_exists", cfg)
        | None =>
            match GenerateAPIKey with
            | None => ret (errorJSON StatusInternalServerError "key_generation_failed", cfg)
            | Some apiKey =>
                let backendOnly := WithBackend req && String.eqb (ReqFrontendRoot req) "" in
                let frontendRoot :=
                  if negb backendOnly && String.eqb (ReqFrontendRoot req) ""
                  then Filepath.Join ["/var/www"; Domain req]
                  else ReqFrontendRoot req in
                let backend :=
                  if WithBackend req then
                    Some {| JailName := Domain req;
                            JailIP := NextJailIP cfg;
                            ListenPort := if (BackendPort req =? 0)%Z then 8080%Z
                                          else BackendPort req;
                            ProxyPath := if String.eqb (ReqProxyPath req) "" then "/api"
                                         else ReqProxyPath req;
                            BinaryName := Domain req |}
                  else None in
                let site := {| FrontendRoot := frontendRoot; APIKey := apiKey;
                               OverrideIPs := []; Backend := backend;
                               SSLEnabled := ReqSSLEnabled req |} in
                let* sslErr :=
                  if ReqSSLEnabled req then
                    let* err := Nginx.DeployHTTPOnlyConfig env GenerateHTTPOnlyConfig cfg
                                  (Domain req) in
                    match err with
                    | Some e =>
                        ret (Some (errorDetail StatusInternalServerError
                                     "nginx_setup_failed" e))
                    | None =>
                        let* err := Ssl.ObtainCert env (Domain req) in
                        match err with
                        | Some e =>
                            let* _ := Nginx.RemoveSiteConfigByDomain env cfg (Domain req) in
                            ret (Some (errorDetail StatusInternalServerError
                                         "cert_generation_failed" e))
                        | None => ret None
                        end
                    end
                  else ret None in
                match sslErr with
                | Some r => ret (r, cfg)
                | None =>
                    let* saved := Registry.AddSite encode quote (Domain req) site cfg in
                    match saved with
                    | (Some e, cfg') =>
                        ret (errorDetail StatusInternalServerError "save_failed" e, cfg')
                    | (None, cfg') =>
                        match backend with
                        | None => ret (created req apiKey frontendRoot backendOnly false, cfg')
                        | Some b =>
                            let certPath := fst (Ssl.CertPaths (Domain req)) in
                            let keyPath := snd (Ssl.CertPaths (Domain req)) in
                            let nginxConfig :=
                              if backendOnly then
                                if ReqSSLEnabled req
                                then GenerateBackendProxyConfigHTTPS (Domain req)
                                       (ListenPort b) (ProxyPath b) certPath keyPath
                                else GenerateBackendProxyConfig (Domain req)
                                       (ListenPort b) (ProxyPath b)
                              else
                                if ReqSSLEnabled req
                                then GenerateSiteCombinedConfigHTTPS (Domain req) frontendRoot
                                       (ListenPort b) (ProxyPath b) certPath keyPath
                                else GenerateSiteCombinedConfig (Domain req) frontendRoot
                                       (ListenPort b) (ProxyPath b) in
                            let* out := Nginx.DeploySiteConfigRaw env GenerateOverrideConf
                                          cfg' (Domain req) nginxConfig in
                            let nginxDeployed :=
                              match out with
                              | (reloaded, _, None) => reloaded
                              | (_, _, Some _) => false
                              end in
                            ret (created req apiKey frontendRoot backendOnly nginxDeployed, cfg')
                        end
                    end
                end
            end
        end
  end.

End Lifecycle.

(** *** Site teardown and self-update *)
Section Teardown.
Variable env : Env.
Variable encode : Config -> string.
Variable quote : string -> string.
Variable GenerateOverrideConf : Config -> string.
Variable potCmd : string.

(** [SiteDestroy]: the registry in, the response and the registry out. *)
Definition SiteDestroy (cfg : Config) (c : Request) : M (Response * Config) :=
  match form c with
  | None => ret (errorJSON StatusBadRequest "invalid_request", cfg)
  | Some f =>
      match formValue f "site" with
      | [] => ret (errorJSON StatusBadRequest "missing_site", cfg)
      | siteName :: _ =>
          match Site cfg !! siteName with
          | None => ret (errorJSON StatusNotFound "site_not_found", cfg)
          | Some site =>
              let* _ :=
                match Backend site with
                | Some _ =>
                    let* _ := ServiceManager.Stop env cfg siteName in
                    let* _ := ServiceManager.Disable env cfg siteName in
                    let* _ := ServiceManager.RemoveBackendService cfg siteName in
                    let* _ := Pot.Destroy env cfg potCmd siteName in
                    ret tt
                | None => ret tt
                end in
              let* _ := Nginx.RemoveSiteConfig env GenerateOverrideConf cfg siteName in
              let* _ :=
                if HasFrontend site then RemoveAll (FrontendRoot site) else ret None in
              let* removed := Registry.RemoveSite encode quote siteName cfg in
              let configRemoved :=
                match fst removed with
                | Some _ => false
                | None => true
                end in
              ret ({| status := StatusOK;
                      body := [("status", JStr "destroyed"); ("site", JStr siteName);
                               ("config_removed", JBool configRemoved)] |},
                   snd removed)
          end
      end
  end.

(** [DeploySelf]: the request body in; the response, and whether the
    shutdown for the restart is triggered. *)
Definition DeploySelf (cfg : Config) (payload : string) : M (Response * bool) :=
  if (String.length payload =? 0)%nat then
    ret ({| status := StatusBadRequest;
            body := [("error", JStr "request body is empty")] |}, false)
  else
    let* err := Update.Update env (SelfBinaryPath (Self cfg)) payload in
    match err with
    | Some e =>
        ret ({| status := StatusInternalServerError; body := [("error", JStr e)] |}, false)
    | None =>
        ret ({| status := StatusOK;
                body := [("status", JStr "restarting");
                         ("message", JStr "Update successful, restarting...")] |}, true)
    end.

End Teardown.

End Server.

(** * Properties *)

Example clean_samples :
  map Filepath.Clean ["a/b/../c"; "/../a//b/"; ""; "../../x"; "a/.."; "/"; "a/../../b"; "..foo/x"]
  = ["a/c"; "/a/b"; "."; "../../x"; "."; "/"; "../b"; "..foo/x"].
Proof. reflexivity. Qed.

Example dir_samples :
  map Filepath.Dir ["/a/b"; "a"; "/a"; "a/b/c.new"; "/"; ""; "a/"]
  = ["/a"; "."; "/"; "a/b"; "/"; "."; "a"].
Proof. reflexivity. Qed.

Example join_samples :
  map Filepath.Join [["/r"; "c"]; [""; "x"]; ["a"; ""]; ["/r/c"; "../x"]; ["abc1234"; "dist"]]
  = ["/r/c"; "x"; "a"; "/r/x"; "abc1234/dist"].
Proof. reflexivity. Qed.

Example sys_demo :
  let w0 := {| OS.disk := ∅; OS.trace := [] |} in
  let prog := (let* _ := Sys.MkdirAll "/a/b" in
               let* _ := Sys.WriteFile "/a/b/c" "x" false in
               let* _ := Sys.Symlink "/a/b/c" "/a/l" in Sys.StatM "/a/l") in
  fst (prog w0) = Some (OS.File "x" false).
Proof. vm_compute. reflexivity. Qed.

(** ** Facts about strings *)
Module StrsFacts.
Import Strs.

Lemma HasPrefix_app (p s : string) : HasPrefix (p ++ s) p = true.
Proof.
  induction p as [|c p IH]; simpl; [reflexivity|].
  rewrite Ascii.eqb_refl. exact IH.
Qed.


Lemma Contains_prefix (s p : string) : HasPrefix s p = true -> Contains s p = true.
Proof. intros H. destruct s; simpl in *; rewrite H; reflexivity. Qed.

End StrsFacts.

(** ** Facts about cleaned paths *)
Module FilepathFacts.
Import Strs Filepath StrsFacts.
Local Open Scope list_scope.

(** A proper path element: not empty, not [.], not [..], no slash. *)
Definition normal (e : string) : Prop :=
  e <> "" /\ e <> "." /\ e <> ".." /\ noSlash e = true.

Lemma SplitSlash_noSlash (s : string) : Forall (fun e => noSlash e = true) (SplitSlash s).
Proof.
  induction s as [|c s IH]; simpl; [repeat constructor|].
  destruct (Ascii.eqb c "/") eqn:Ec; [constructor; [reflexivity|exact IH]|].
  destruct (SplitSlash s) as [|x l]; [repeat constructor; simpl; now rewrite Ec|].
  inversion IH; subst. constructor; [simpl; rewrite Ec; simpl; assumption|assumption].
Qed.

Lemma SplitSlash_nonempty (s : string) : SplitSlash s <> [].
Proof.
  induction s as [|c s IH]; simpl; [discriminate|].
  destruct (Ascii.eqb c "/"); [discriminate|]. destruct (SplitSlash s); discriminate.
Qed.

Lemma SplitSlash_single (s : string) : noSlash s = true -> SplitSlash s = [s].
Proof.
  induction s as [|c s IH]; simpl; [reflexivity|].
  intros H. apply andb_true_iff in H as [Hc Hs].
  destruct (Ascii.eqb c "/"); [discriminate|]. now rewrite (IH Hs).
Qed.

Lemma SplitSlash_app (a b : string) :
  SplitSlash (a +:+ "/" +:+ b) = SplitSlash a ++ SplitSlash b.
Proof.
  induction a as [|c a IH]; simpl; [reflexivity|].
  destruct (Ascii.eqb c "/"); [now rewrite IH|].
  rewrite IH. destruct (SplitSlash a) eqn:E; [|reflexivity].
  destruct (SplitSlash_nonempty _ E).
Qed.

Lemma SplitSlash_cons (x b : string) :
  noSlash x = true -> SplitSlash (x +:+ "/" +:+ b) = x :: SplitSlash b.
Proof. intros H. now rewrite SplitSlash_app, (SplitSlash_single _ H). Qed.

Lemma SplitSlash_Join (es : list string) :
  es <> [] -> Forall (fun e => noSlash e = true) es -> SplitSlash (Strs.Join es "/") = es.
Proof.
  induction es as [|x es IH]; [congruence|]. intros _ Hall.
  inversion Hall as [|? ? Hx Hes]; subst.
  destruct es as [|y es]; [simpl; now apply SplitSlash_single|].
  change (Strs.Join (x :: y :: es) "/") with (x +:+ "/" +:+ Strs.Join (y :: es) "/").
  rewrite SplitSlash_cons by assumption. f_equal. apply IH; [discriminate|assumption].
Qed.

(** The stack of the clean-up (latest element first) is proper
    elements on top of [..] elements, and a rooted path keeps no [..]. *)
Definition stackOK (rooted : bool) (stack : list string) : Prop :=
  exists ns k, stack = ns ++ repeat ".." k /\ Forall normal ns /\
               (rooted = true -> k = 0).

Lemma normal_not_dots (e : string) : normal e -> String.eqb e ".." = false.
Proof. intros (_ & _ & H & _). now apply String.eqb_neq. Qed.

Lemma cleanStep_ok (rooted : bool) (stack : list string) (e : string) :
  noSlash e = true -> stackOK rooted stack -> stackOK rooted (cleanStep rooted stack e).
Proof.
  intros He (ns & k & -> & Hns & Hk). unfold cleanStep.
  destruct (String.eqb_spec e "") as [->|H0]; [exists ns, k; auto|].
  destruct (String.eqb_spec e ".") as [->|H1]; [exists ns, k; auto|]. simpl.
  destruct (String.eqb_spec e "..") as [->|H2].
  - destruct ns as [|n ns]; simpl.
    + destruct k as [|k]; simpl.
      * destruct rooted; [exists [], 0; auto|].
        exists [], 1. repeat split; [constructor|discriminate].
      * exists [], (S (S k)). repeat split; [constructor|].
        intros Hr. specialize (Hk Hr). discriminate.
    + inversion Hns; subst. rewrite normal_not_dots by assumption.
      exists ns, k. auto.
  - exists (e :: ns), k. repeat split; auto. constructor; [|assumption].
    repeat split; assumption.
Qed.

Lemma fold_cleanStep_ok (rooted : bool) (es stack : list string) :
  Forall (fun e => noSlash e = true) es -> stackOK rooted stack ->
  stackOK rooted (fold_left (cleanStep rooted) es stack).
Proof.
  revert stack. induction es as [|e es IH]; intros stack Hall Hst; simpl; [exact Hst|].
  inversion Hall; subst. apply IH; [assumption|]. now apply cleanStep_ok.
Qed.

(** Canonical element lists: [..] elements, then proper ones. *)
Definition canonical (rooted : bool) (es : list string) : Prop :=
  exists k ns, es = repeat ".." k ++ ns /\ Forall normal ns /\ (rooted = true -> k = 0).

Lemma rev_repeat {A} (x : A) (k : nat) : rev (repeat x k) = repeat x k.
Proof.
  induction k as [|k IH]; simpl; [reflexivity|]. rewrite IH.
  clear IH. induction k as [|k IH]; simpl; [reflexivity|]. now rewrite IH.
Qed.

Lemma elems_canonical (p : string) : canonical (IsAbs p) (elems p).
Proof.
  unfold elems.
  destruct (fold_cleanStep_ok (IsAbs p) (SplitSlash p) [])
    as (ns & k & -> & Hns & Hk).
  - apply SplitSlash_noSlash.
  - exists [], 0. repeat split; constructor.
  - exists k, (rev ns). rewrite rev_app_distr, rev_repeat. repeat split; auto.
    apply Forall_rev. exact Hns.
Qed.

(** Folding proper elements just pushes them. *)
Lemma fold_normals (rooted : bool) (ns stack : list string) :
  Forall normal ns -> fold_left (cleanStep rooted) ns stack = rev ns ++ stack.
Proof.
  revert stack. induction ns as [|n ns IH]; intros stack Hall; simpl; [reflexivity|].
  inversion Hall as [|? ? Hn Hns]; subst. rewrite IH by assumption.
  destruct Hn as (H0 & H1 & H2 & _). unfold cleanStep.
  apply String.eqb_neq in H0, H1, H2. rewrite H0, H1, H2. simpl.
  now rewrite <- app_assoc.
Qed.

Lemma fold_dots (k : nat) :
  fold_left (cleanStep false) (repeat ".." k) [] = repeat ".." k.
Proof.
  assert (H : forall j, fold_left (cleanStep false) (repeat ".." k) (repeat ".." j)
                        = repeat ".." (k + j)).
  { induction k as [|k IH]; intros j; simpl; [reflexivity|].
    replace (cleanStep false (repeat ".." j) "..") with (repeat ".." (S j)).
    - rewrite IH. replace (k + S j) with (S (k + j)) by lia. reflexivity.
    - destruct j; reflexivity. }
  specialize (H 0). simpl in H. now rewrite Nat.add_0_r in H.
Qed.

Lemma fold_canonical (rooted : bool) (es : list string) :
  canonical rooted es -> rev (fold_left (cleanStep rooted) es []) = es.
Proof.
  intros (k & ns & -> & Hns & Hk). rewrite fold_left_app.
  destruct rooted.
  - rewrite (Hk eq_refl). simpl. rewrite fold_normals by assumption.
    now rewrite app_nil_r, rev_involutive.
  - rewrite fold_dots, fold_normals by assumption.
    now rewrite rev_app_distr, rev_involutive, rev_repeat.
Qed.

Lemma normal_IsAbs (n : string) : normal n -> IsAbs n = false.
Proof.
  intros (H0 & _ & _ & Hs). destruct n as [|c n]; [reflexivity|].
  cbn [noSlash] in Hs. apply andb_true_iff in Hs as [Hc _].
  unfold IsAbs. cbn [HasPrefix]. rewrite Ascii.eqb_sym.
  destruct (Ascii.eqb c "/"); [discriminate|reflexivity].
Qed.

Lemma IsAbs_app (a b : string) : a <> "" -> IsAbs (a +:+ b) = IsAbs a.
Proof. destruct a as [|c a]; [congruence|]. reflexivity. Qed.

Lemma Join_head (x : string) (l : list string) :
  l <> [] -> Strs.Join (x :: l) "/" = x +:+ "/" +:+ Strs.Join l "/".
Proof. destruct l; [congruence|]. reflexivity. Qed.

Lemma canonical_noSlash (rooted : bool) (es : list string) :
  canonical rooted es -> Forall (fun e => noSlash e = true) es.
Proof.
  intros (k & ns & -> & Hns & _). apply Forall_app. split.
  - clear. induction k; simpl; constructor; auto.
  - eapply Forall_impl; [exact Hns|]. intros e (_ & _ & _ & H). exact H.
Qed.

Lemma canonical_head (es : list string) (x : string) (l : list string) :
  canonical false es -> es = x :: l -> x <> "" /\ IsAbs x = false.
Proof.
  intros (k & ns & -> & Hns & _) E. destruct k as [|k]; simpl in E.
  - destruct ns as [|n ns]; [discriminate|]. injection E as -> ->.
    inversion Hns as [|? ? Hn _]; subst. split; [apply Hn|now apply normal_IsAbs].
  - injection E as <- _. split; [discriminate|reflexivity].
Qed.

Lemma render_IsAbs (rooted : bool) (es : list string) :
  canonical rooted es -> IsAbs (render rooted es) = rooted.
Proof.
  intros Hc. unfold render. destruct rooted; [reflexivity|].
  destruct es as [|x l] eqn:E; [reflexivity|].
  destruct (canonical_head _ _ _ Hc eq_refl) as [Hx Hab].
  destruct l as [|y l]; [exact Hab|].
  rewrite Join_head by discriminate. now rewrite IsAbs_app.
Qed.

Lemma fold_skip_empty (rooted : bool) (es : list string) :
  fold_left (cleanStep rooted) ("" :: es) [] = fold_left (cleanStep rooted) es [].
Proof. reflexivity. Qed.

(** Cleaning is idempotent on element lists. *)
Lemma render_elems (rooted : bool) (es : list string) :
  canonical rooted es -> elems (render rooted es) = es.
Proof.
  intros Hc. unfold elems. rewrite (render_IsAbs _ _ Hc).
  pose proof (canonical_noSlash _ _ Hc) as Hns.
  unfold render. destruct rooted.
  - change ("/" +:+ Strs.Join es "/") with ("" +:+ "/" +:+ Strs.Join es "/").
    rewrite SplitSlash_app. simpl SplitSlash at 1. simpl app.
    rewrite fold_skip_empty. destruct es as [|x l]; [reflexivity|].
    rewrite SplitSlash_Join by (auto; discriminate). now apply fold_canonical.
  - destruct es as [|x l]; [reflexivity|].
    rewrite SplitSlash_Join by (auto; discriminate). now apply fold_canonical.
Qed.

Lemma Clean_IsAbs (p : string) : IsAbs (Clean p) = IsAbs p.
Proof. apply render_IsAbs, elems_canonical. Qed.

Lemma Clean_elems (p : string) : elems (Clean p) = elems p.
Proof. unfold Clean. apply render_elems, elems_canonical. Qed.

Lemma Clean_nonempty (p : string) : Clean p <> "".
Proof.
  pose proof (elems_canonical p) as Hc. unfold Clean, render.
  destruct (IsAbs p); [discriminate|].
  destruct (elems p) as [|x l]; [discriminate|].
  destruct (canonical_head _ _ _ Hc eq_refl) as [Hx _].
  intros H. destruct l as [|y l]; [simpl in H; congruence|].
  rewrite Join_head in H by discriminate. destruct x; [congruence|discriminate].
Qed.

Lemma stripElems_app (d rest : list string) : stripElems d (d ++ rest) = Some rest.
Proof. induction d as [|x d IH]; simpl; [reflexivity|]. now rewrite String.eqb_refl. Qed.

Lemma render_no_dots (es : list string) :
  canonical false es -> HasPrefix (render false es) ".." = false -> Forall normal es.
Proof.
  intros (k & ns & -> & Hns & _) Hp. destruct k as [|k]; [exact Hns|].
  exfalso. simpl in Hp. destruct (repeat ".." k ++ ns) as [|y l].
  - discriminate.
  - discriminate.
Qed.

(** Joining a directory with proper elements appends them. *)
Lemma elems_join_normals (t : string) (es : list string) :
  t <> "" -> Forall normal es ->
  elems (t +:+ "/" +:+ render false es) = elems t ++ es.
Proof.
  intros Ht Hes. unfold elems.
  rewrite IsAbs_app by assumption. rewrite SplitSlash_app, fold_left_app.
  destruct es as [|x l].
  - simpl. now rewrite app_nil_r.
  - unfold render. rewrite SplitSlash_Join.
    + rewrite fold_normals by assumption. now rewrite rev_app_distr, rev_involutive.
    + discriminate.
    + eapply Forall_impl; [exact Hes|]. intros e (_ & _ & _ & H). exact H.
Qed.

Lemma Join_skip (l : list string) : Join ("" :: l) = Join l.
Proof. reflexivity. Qed.

Lemma Join_cons (x : string) (l : list string) :
  x <> "" -> Join (x :: l) = Clean (Strs.Join (x :: l) "/").
Proof. intros Hx. unfold Join; fold Join. now apply String.eqb_neq in Hx as ->. Qed.

(** The guard of [extractZipEntry] keeps the target below the
    directory: a cleaned name that is neither absolute nor begins with
    [..] joins to a path inside it. *)
Lemma guard_inside (t name : string) :
  HasPrefix (Clean name) ".." = false -> IsAbs (Clean name) = false ->
  inside t (Join [t; Clean name]) = true.
Proof.
  intros Hdots Habs.
  pose proof (elems_canonical name) as Hc.
  rewrite Clean_IsAbs in Habs. rewrite Habs in Hc.
  assert (Hrender : Clean name = render false (elems name)).
  { unfold Clean. now rewrite Habs. }
  rewrite Hrender in Hdots. pose proof (render_no_dots _ Hc Hdots) as Hnorm.
  assert (Hhead : match elems name with
                  | x :: _ => negb (String.eqb x "..")
                  | [] => true
                  end = true).
  { destruct (elems name) as [|x l]; [reflexivity|].
    inversion Hnorm; subst. now rewrite normal_not_dots. }
  unfold inside.
  destruct (String.eqb_spec t "") as [->|Ht].
  - rewrite Join_skip, Join_cons by apply Clean_nonempty.
    cbn [Strs.Join]. rewrite Clean_IsAbs, Clean_elems, Clean_IsAbs, Clean_elems, Habs.
    exact Hhead.
  - rewrite Join_cons by assumption.
    cbn [Strs.Join]. rewrite Clean_IsAbs, Clean_elems.
    rewrite IsAbs_app by assumption. rewrite Bool.eqb_reflx. cbn [andb].
    rewrite Hrender, elems_join_normals, stripElems_app by assumption.
    exact Hhead.
Qed.


End FilepathFacts.

(** ** Credentials and commit ids *)
Module ServerFacts.
Import OS Config Server.

Lemma xorFold_zero (x y : string) (v : N) :
  String.length x = String.length y ->
  (xorFold x y v = 0%N <-> v = 0%N /\ x = y).
Proof.
  revert y v. induction x as [|a x IH]; intros [|b y] v Hlen; simpl in *;
    try discriminate.
  - intuition.
  - injection Hlen as Hlen. rewrite (IH y _ Hlen).
    rewrite N.lor_eq_0_iff, N.lxor_eq_0_iff. split.
    + intros [[Hv Hab] ->]. split; [exact Hv|].
      f_equal. rewrite <- (ascii_N_embedding a), <- (ascii_N_embedding b).
      now rewrite Hab.
    + intros [Hv Heq]. injection Heq as -> ->. auto.
Qed.

Lemma ConstantTimeCompare_eq (x y : string) :
  ConstantTimeCompare x y = 1%Z <-> x = y.
Proof.
  unfold ConstantTimeCompare.
  destruct (Nat.eqb_spec (String.length x) (String.length y)) as [Hl|Hl].
  - destruct (N.eqb_spec (xorFold x y 0) 0) as [H0|H0].
    + apply (xorFold_zero x y 0 Hl) in H0 as [_ ->]. tauto.
    + split; [discriminate|]. intros ->. exfalso. apply H0.
      apply xorFold_zero; auto.
  - split; [discriminate|]. intros ->. congruence.
Qed.

Lemma anyAdminKey_In (key : string) (keys : list string) :
  anyAdminKey key keys = true <-> In key keys.
Proof.
  induction keys as [|k keys IH]; simpl; [split; [discriminate|tauto]|].
  destruct (Z.eqb_spec (ConstantTimeCompare key k) 1) as [H|H].
  - apply ConstantTimeCompare_eq in H. subst. tauto.
  - rewrite IH. split; [tauto|]. intros [->|Hin]; [|exact Hin].
    exfalso. apply H. now apply ConstantTimeCompare_eq.
Qed.

(** The named site of a request, when the form parses and has one. *)
Definition namedSite (c : Request) : option string :=
  match form c with
  | Some f => head (formValue f "site")
  | None => None
  end.

Definition withKey (c : Request) (key : string) : Request :=
  {| form := form c; headers := <["X-Shipyard-Key" := key]> (headers c) |}.

(** C10: on the site-scoped routes the site is looked up before any
    credential is compared: a request that names an unknown site is
    answered 404 [site_not_found] whatever key it carries, and a request
    is let through only when the site exists and the key is the site's
    [api_key] or one of the admin keys. *)
Theorem C10_site_lookup_precedes_credentials (cfg : Config) (c : Request) (site : string) :
  routeAuth "POST" "/deploy/frontend" = Some PerSite /\
  routeAuth "POST" "/deploy/backend" = Some PerSite /\
  (namedSite c = Some site -> Site cfg !! site = None ->
     forall key, middleware PerSite cfg (withKey c key)
                 = Reply (errorJSON StatusNotFound "site_not_found")) /\
  (namedSite c = Some site ->
     (middleware PerSite cfg c = Next <->
      exists sc, Site cfg !! site = Some sc /\
                 Get c "X-Shipyard-Key" <> "" /\
                 (Get c "X-Shipyard-Key" = APIKey sc \/
                  In (Get c "X-Shipyard-Key") (AdminKeys cfg)))).
Proof.
  split; [reflexivity|]. split; [reflexivity|]. split.
  - intros Hs Hnone key. unfold namedSite in Hs. simpl. unfold SiteAuth. simpl.
    destruct (form c) as [f|]; [|discriminate].
    destruct (formValue f "site") as [|s0 l]; [discriminate|].
    injection Hs as ->. rewrite Hnone. reflexivity.
  - intros Hs. unfold namedSite in Hs. simpl. unfold SiteAuth.
    destruct (form c) as [f|]; [|discriminate].
    destruct (formValue f "site") as [|s0 l]; [discriminate|].
    injection Hs as ->.
    destruct (Site cfg !! site) as [sc|] eqn:Hsite.
    + destruct (String.eqb_spec (Get c "X-Shipyard-Key") "") as [He|He].
      * split; [discriminate|]. intros (sc' & _ & Hne & _). contradiction.
      * destruct (Z.eqb_spec (ConstantTimeCompare (Get c "X-Shipyard-Key") (APIKey sc)) 1)
          as [Hk|Hk].
        -- apply ConstantTimeCompare_eq in Hk. split; [|reflexivity].
           intros _. exists sc. auto.
        -- destruct (anyAdminKey (Get c "X-Shipyard-Key") (AdminKeys cfg)) eqn:Ha.
           ++ apply anyAdminKey_In in Ha. split; [|reflexivity].
              intros _. exists sc. auto.
           ++ split; [discriminate|]. intros (sc' & Hsc & _ & [Hk'|Hin]).
              ** injection Hsc as <-. exfalso. apply Hk.
                 now apply ConstantTimeCompare_eq.
              ** apply anyAdminKey_In in Hin. congruence.
    + split; [discriminate|]. intros (sc & Hsc & _). discriminate.
Qed.

(** *** Commit ids *)

Definition lowerHexDigits : string := "0123456789abcdef".

(** A commit id in the words of the interface: the literal [latest], or
    7 to 40 lowercase hexadecimal characters. *)
Definition isCommitId (s : string) : Prop :=
  s = "latest" \/
  (7 <= String.length s <= 40 /\
   Forall (fun c => In c (list_ascii_of_string lowerHexDigits)) (list_ascii_of_string s)).

Lemma matchRepeat_spec (cls : ascii -> bool) (s : string) (lo hi : nat) :
  matchRepeat cls lo hi s = true <->
  (lo <= String.length s <= hi /\
   Forall (fun c => cls c = true) (list_ascii_of_string s)).
Proof.
  revert lo hi. induction s as [|c s IH]; intros lo hi; simpl.
  - destruct lo as [|lo]; simpl.
    + split; [intros _; split; [lia|constructor]|intros _; reflexivity].
    + split; [discriminate|]. intros [H _]. lia.
  - destruct hi as [|hi].
    + split; [discriminate|]. intros [H _]. lia.
    + rewrite andb_true_iff, IH, Forall_cons. split.
      * intros (Hc & Hlen & Hall). repeat split; auto; lia.
      * intros (Hlen & Hc & Hall). repeat split; auto; lia.
Qed.

Lemma hexClass_digits (c : ascii) :
  hexClass c = true <-> In c (list_ascii_of_string lowerHexDigits).
Proof.
  assert (H : hexClass c = existsb (Ascii.eqb c) (list_ascii_of_string lowerHexDigits)).
  { destruct c as [[] [] [] [] [] [] [] []]; vm_compute; reflexivity. }
  rewrite H, existsb_exists. split.
  - intros (x & Hin & Heq). apply Ascii.eqb_eq in Heq. now subst.
  - intros Hin. exists c. split; [exact Hin|apply Ascii.eqb_refl].
Qed.

Lemma isValidCommitHash_spec (h : string) :
  isValidCommitHash h = true <-> isCommitId h.
Proof.
  unfold isValidCommitHash, isCommitId, commitHashRegex.
  rewrite orb_true_iff, String.eqb_eq, matchRepeat_spec.
  split; (intros [H|[Hlen Hall]]; [left; exact H|right; split; [exact Hlen|]]);
    (eapply Forall_impl; [exact Hall|]); intros c; apply hexClass_digits.
Qed.

Definition commitOf (c : Request) : option string :=
  match form c with
  | Some f => head (formValue f "commit")
  | None => None
  end.

(** [update_latest] as the frontend handler reads it. *)
Definition wantsLatest (f : Form) : bool :=
  match formValue f "update_latest" with
  | v :: _ => String.eqb v "true" || String.eqb v "1"
  | [] => false
  end.

(** The proxy configuration a deploy request carries: the non-empty
    form field, else the non-empty uploaded part, else none. *)
Inductive suppliedConfig (f : Form) : option string -> Prop :=
| InField (v : string) (rest : list string) :
    formValue f "nginx_config" = v :: rest -> v <> "" ->
    suppliedConfig f (Some v)
| InPart (nf : Upload) (rest : list Upload) (bytes : string) :
    head (formValue f "nginx_config") = None \/ head (formValue f "nginx_config") = Some "" ->
    formFile f "nginx_config" = nf :: rest -> content nf = Some bytes -> bytes <> "" ->
    suppliedConfig f (Some bytes)
| NotGiven :
    head (formValue f "nginx_config") = None \/ head (formValue f "nginx_config") = Some "" ->
    formFile f "nginx_config" = [] ->
    suppliedConfig f None.

(** Take a handler apart, innermost test first. *)
Ltac atomic x :=
  lazymatch x with
  | context [match _ with _ => _ end] => fail
  | context [if _ then _ else _] => fail
  | _ => idtac
  end.

Ltac leaf_tags :=
  cbv zeta;
  repeat match goal with
         | |- context [match ?x with _ => _ end] => atomic x; destruct x
         | |- context [if ?b then _ else _] => atomic b; destruct b
         end;
  try (cbv [ret]; simpl; discriminate).

(** C7: a commit id is accepted exactly when it is the literal [latest]
    or 7 to 40 lowercase hexadecimal characters.  On both deploy routes
    a request that passes the site check and carries any other commit
    id is answered 400, and nothing has been touched.  A request with
    an accepted id is never answered [invalid_commit_hash], and when it
    is complete (a site of the right kind, an artifact that opens, a
    proxy configuration that renders) it is handed to the deployer
    with that id: the handler leaves the world the deployer leaves,
    and answers 200 exactly when the deployer reports success. *)
Theorem C7_commit_id_accepted_iff_latest_or_hex (h : string) :
  (isValidCommitHash h = true <-> isCommitId h) /\
  (isValidCommitHash h = false ->
   forall cfg fd bd tmpl render (c : Request) (w : OS.World),
     commitOf c = Some h -> middleware PerSite cfg c = Next ->
     (status (DeployFrontend cfg fd tmpl render c w).1 = 400%Z /\
      (DeployFrontend cfg fd tmpl render c w).2 = w) /\
     (status (DeployBackend cfg bd c w).1 = 400%Z /\
      (DeployBackend cfg bd c w).2 = w)) /\
  (isValidCommitHash h = true ->
   forall cfg fd bd tmpl render (c : Request) (w : OS.World),
     commitOf c = Some h ->
     errorTag (DeployFrontend cfg fd tmpl render c w).1 <> Some "invalid_commit_hash"%string /\
     errorTag (DeployBackend cfg bd c w).1 <> Some "invalid_commit_hash"%string) /\
  (isValidCommitHash h = true ->
   forall cfg (c : Request) (w : OS.World) f site sc art src,
     form c = Some f ->
     head (formValue f "site") = Some site -> head (formValue f "commit") = Some h ->
     Site cfg !! site = Some sc ->
     head (formFile f "artifact") = Some art -> content art = Some src ->
     (forall fd tmpl render given conf,
         IsBackendOnly sc = false ->
         suppliedConfig f given ->
         match given with
         | Some text => render text site cfg
         | None => tmpl site (FrontendRoot sc)
         end = inr conf ->
         let run := fd site h src conf (wantsLatest f) w in
         (DeployFrontend cfg fd tmpl render c w).2 = run.2 /\
         (status (DeployFrontend cfg fd tmpl render c w).1 = 200%Z <->
          exists msg, run.1 = (true, msg, None))) /\
     (forall bd b,
         Backend sc = Some b ->
         let run := bd site h src
                       match formValue f "binary_name" with
                       | v :: _ => v
                       | [] => BinaryName b
                       end w in
         (DeployBackend cfg bd c w).2 = run.2 /\
         (status (DeployBackend cfg bd c w).1 = 200%Z <-> run.1 = None))).
Proof.
  split; [apply isValidCommitHash_spec|]. split; [|split].
  - intros Hbad cfg fd bd tmpl render c w Hc Hauth.
    unfold commitOf in Hc. simpl in Hauth. unfold SiteAuth in Hauth.
    unfold DeployFrontend, DeployBackend.
    destruct (form c) as [f|]; [|discriminate].
    destruct (formValue f "site") as [|siteName l]; [discriminate|].
    destruct (formValue f "commit") as [|h' l']; [discriminate|].
    injection Hc as ->.
    destruct (Site cfg !! siteName) as [site|]; [|discriminate].
    rewrite Hbad. simpl.
    split.
    + destruct (IsBackendOnly site); split; reflexivity.
    + destruct (Backend site); split; reflexivity.
  - intros Hok cfg fd bd tmpl render c w Hc.
    unfold commitOf in Hc. unfold DeployFrontend, DeployBackend.
    destruct (form c) as [f|]; [|discriminate].
    destruct (formValue f "commit") as [|h' l']; [discriminate|].
    injection Hc as ->.
    destruct (formValue f "site") as [|siteName l]; [split; discriminate|].
    destruct (Site cfg !! siteName) as [site|]; [|split; discriminate].
    rewrite Hok. cbn [negb]. split.
    + destruct (IsBackendOnly site); [discriminate|].
      destruct (formFile f "artifact") as [|art arts]; [discriminate|].
      leaf_tags.
      all: match goal with |- context [bind ?m ?k ?w0] =>
             unfold bind; destruct (m w0) as [[[ok msg] err] w1] end;
        destruct ok, err; cbv [ret]; simpl; discriminate.
    + destruct (Backend site); [|discriminate].
      leaf_tags.
      all: match goal with |- context [bind ?m ?k ?w0] =>
             unfold bind; destruct (m w0) as [err w1] end;
        destruct err; cbv [ret]; simpl; discriminate.
  - intros Hok cfg c w f site sc art src Hf Hs Hh Hsite Hart Hsrc. split.
    + intros fd tmpl render given conf Hfront Hgiven Hconf run.
      unfold DeployFrontend. rewrite Hf.
      destruct (formValue f "site") as [|s0 l]; [discriminate|]. injection Hs as ->.
      destruct (formValue f "commit") as [|h0 l0]; [discriminate|]. injection Hh as ->.
      rewrite Hsite, Hfront, Hok. cbn [negb].
      destruct (formFile f "artifact") as [|a0 arts]; [discriminate|]. injection Hart as ->.
      unfold wantsLatest in run. cbv zeta.
      assert (Hrun : forall (k : bool * string * option string -> M Response),
                 (forall out w1, (k out w1).2 = w1 /\
                                 (status (k out w1).1 = 200%Z <->
                                  exists msg, out = (true, msg, None))) ->
                 (bind (fd site h src conf
                           match formValue f "update_latest" with
                           | v :: _ => String.eqb v "true" || String.eqb v "1"
                           | [] => false
                           end) k w).2 = run.2 /\
                 (status (bind (fd site h src conf
                                   match formValue f "update_latest" with
                                   | v :: _ => String.eqb v "true" || String.eqb v "1"
                                   | [] => false
                                   end) k w).1 = 200%Z <->
                  exists msg, run.1 = (true, msg, None))).
      { intros k Hk. unfold bind. subst run.
        destruct (fd site h src conf _ w) as [out w1]. apply Hk. }
      assert (Hreply : forall (upd : bool) (out : bool * string * option string) w1,
                 (match out with
                  | (_, _, Some err) =>
                      ret (errorDetail StatusInternalServerError "deployment_failed" err)
                  | (false, nginxErr, None) =>
                      ret {| status := StatusUnprocessableEntity;
                             body := [("status", JStr "partially_deployed");
                                      ("error", JStr "nginx_validation_failed");
                                      ("detail", JStr nginxErr);
                                      ("commit_deployed", JBool true);
                                      ("nginx_reloaded", JBool false);
                                      ("latest_updated", JBool upd);
                                      ("site", JStr site);
                                      ("commit", JStr h)] |}
                  | (true, _, None) =>
                      ret {| status := StatusOK;
                             body := [("status", JStr "deployed");
                                      ("site", JStr site);
                                      ("commit", JStr h);
                                      ("path", JStr (FrontendRoot sc ++ "/" ++ h));
                                      ("nginx_reloaded", JBool true);
                                      ("latest_updated", JBool upd)] |}
                  end w1).2 = w1 /\
                 (status (match out with
                  | (_, _, Some err) =>
                      ret (errorDetail StatusInternalServerError "deployment_failed" err)
                  | (false, nginxErr, None) =>
                      ret {| status := StatusUnprocessableEntity;
                             body := [("status", JStr "partially_deployed");
                                      ("error", JStr "nginx_validation_failed");
                                      ("detail", JStr nginxErr);
                                      ("commit_deployed", JBool true);
                                      ("nginx_reloaded", JBool false);
                                      ("latest_updated", JBool upd);
                                      ("site", JStr site);
                                      ("commit", JStr h)] |}
                  | (true, _, None) =>
                      ret {| status := StatusOK;
                             body := [("status", JStr "deployed");
                                      ("site", JStr site);
                                      ("commit", JStr h);
                                      ("path", JStr (FrontendRoot sc ++ "/" ++ h));
                                      ("nginx_reloaded", JBool true);
                                      ("latest_updated", JBool upd)] |}
                  end w1).1 = 200%Z <-> exists msg, out = (true, msg, None))).
      { intros upd [[[] msg] [e|]] w1; cbv [ret]; simpl; (split; [reflexivity|]);
          (split; [try discriminate; eauto|intros [m H]; try discriminate H; reflexivity]). }
      destruct Hgiven as [v rest Hv Hne|nf rest bytes Hv Hfile Hbytes Hne|Hv Hfile].
      * rewrite Hv. apply String.eqb_neq in Hne. rewrite Hne. cbn [negb].
        rewrite Hne, Hconf, Hsrc. apply Hrun. intros out w1. apply Hreply.
      * apply String.eqb_neq in Hne.
        destruct (formValue f "nginx_config") as [|v vs];
          [|destruct Hv as [Hv|Hv]; [discriminate|injection Hv as ->]; cbn [String.eqb negb]];
          rewrite Hfile, Hbytes, Hne, Hne, Hconf, Hsrc; apply Hrun; intros out w1; apply Hreply.
      * destruct (formValue f "nginx_config") as [|v vs];
          [|destruct Hv as [Hv|Hv]; [discriminate|injection Hv as ->]; cbn [String.eqb negb]];
          rewrite Hfile; cbn [String.eqb]; rewrite Hconf, Hsrc; apply Hrun;
          intros out w1; apply Hreply.
    + intros bd b Hb run. unfold DeployBackend. rewrite Hf.
      destruct (formValue f "site") as [|s0 l]; [discriminate|]. injection Hs as ->.
      destruct (formValue f "commit") as [|h0 l0]; [discriminate|]. injection Hh as ->.
      rewrite Hsite, Hb, Hok. cbn [negb].
      destruct (formFile f "artifact") as [|a0 arts]; [discriminate|]. injection Hart as ->.
      rewrite Hsrc. cbv zeta. unfold bind. subst run.
      destruct (bd site h src _ w) as [[e|] w1]; cbv [ret]; simpl;
        (split; [reflexivity|]); split; intros H;
        first [reflexivity | discriminate H | (vm_compute in H; discriminate H)].
Qed.


Example commit_id_samples :
  map isValidCommitHash
      ["abc1234"; "abcdef1234567890"; "abcdef1234567890abcdef1234567890abcdef12";
       "latest"; "abc123"; "ABC1234"; "abcdefg";
       "abc12345678901234567890123456789012345678901"; ""; "abc-123"]
  = [true; true; true; true; false; false; false; false; false; false].
Proof. reflexivity. Qed.

End ServerFacts.

(** ** Facts about the file-system model *)
Module OSFacts.
Import Strs OS Sys.

Lemma resolve_final (n : nat) (fs : FS) (p q : string) :
  resolve n fs p = Some q -> isSymlink (fs !! q) = false.
Proof.
  revert p. induction n as [|n IH]; intros p; simpl.
  - destruct (fs !! p) as [[]|] eqn:E; intros H; try discriminate;
      injection H as <-; rewrite E; reflexivity.
  - destruct (fs !! p) as [[]|] eqn:E; intros H;
      try (injection H as <-; rewrite E; reflexivity).
    eapply IH; eauto.
Qed.

Lemma resolve_plain (n : nat) (fs : FS) (p : string) :
  isSymlink (fs !! p) = false -> resolve n fs p = Some p.
Proof. destruct n; simpl; destruct (fs !! p) as [[]|]; simpl; congruence. Qed.

(** [MkdirAll] only ever adds directories at names that were free. *)
Lemma mkdirChain_lookup (l : list string) (fs fs' : FS) (q : string) :
  mkdirChain fs l = inr fs' ->
  fs' !! q = fs !! q \/ (fs !! q = None /\ fs' !! q = Some Directory).
Proof.
  revert fs. induction l as [|a l IH]; intros fs H; simpl in H.
  - injection H as <-. auto.
  - destruct (Stat fs a) as [[]|]; try discriminate; [eauto|].
    destruct (fs !! a) eqn:Ea; [discriminate|].
    destruct (IH _ H) as [Hq|[Hq1 Hq2]].
    + destruct (decide (a = q)) as [->|Hne].
      * rewrite lookup_insert_eq in Hq. auto.
      * rewrite lookup_insert_ne in Hq by done. auto.
    + destruct (decide (a = q)) as [->|Hne].
      * rewrite lookup_insert_eq in Hq1. discriminate.
      * rewrite lookup_insert_ne in Hq1 by done. auto.
Qed.

Lemma mkdirAll_lookup (fs fs' : FS) (p q : string) :
  mkdirAll fs p = inr fs' ->
  fs' !! q = fs !! q \/ (fs !! q = None /\ fs' !! q = Some Directory).
Proof.
  unfold mkdirAll. destruct (Stat fs p) as [[]|]; try discriminate.
  - intros H. injection H as <-. auto.
  - apply mkdirChain_lookup.
Qed.

(** Writing a file touches one name, which afterwards holds the data,
    and that name did not hold a link. *)
Lemma writeFile_inv (fs fs' : FS) (p data : string) (x : bool) :
  writeFile fs p data x = inr fs' ->
  exists q m, resolve maxLinks fs p = Some q /\ isSymlink (fs !! q) = false /\
              fs' = <[q := File data m]> fs.
Proof.
  unfold writeFile. destruct (resolve maxLinks fs p) as [q|] eqn:Hr; [|discriminate].
  pose proof (resolve_final _ _ _ _ Hr) as Hq.
  destruct (fs !! q) as [[d m| |t]|] eqn:E; intros H; try discriminate;
    injection H as <-; exists q; eexists; rewrite E; auto.
Qed.

Lemma writeFile_symlinks (fs fs' : FS) (p data : string) (x : bool) (k t : string) :
  writeFile fs p data x = inr fs' ->
  (fs' !! k = Some (Link t) <-> fs !! k = Some (Link t)).
Proof.
  intros H. apply writeFile_inv in H as (q & m & _ & Hq & ->).
  destruct (decide (q = k)) as [->|Hne].
  - rewrite lookup_insert_eq. split; [discriminate|].
    intros E. rewrite E in Hq. discriminate.
  - rewrite lookup_insert_ne by done. tauto.
Qed.

Lemma mkdirAll_symlinks (fs fs' : FS) (p k t : string) :
  mkdirAll fs p = inr fs' ->
  (fs' !! k = Some (Link t) <-> fs !! k = Some (Link t)).
Proof.
  intros H. destruct (mkdirAll_lookup _ _ _ k H) as [->|[E1 E2]]; [tauto|].
  rewrite E1, E2. split; discriminate.
Qed.

Lemma writeFile_plain (fs fs' : FS) (p data : string) (x : bool) :
  isSymlink (fs !! p) = false -> writeFile fs p data x = inr fs' ->
  exists m, fs' = <[p := File data m]> fs.
Proof.
  intros Hp H. apply writeFile_inv in H as (q & m & Hr & _ & ->).
  rewrite (resolve_plain _ _ _ Hp) in Hr. injection Hr as <-. eauto.
Qed.

Lemma mkdirAll_plain (fs fs' : FS) (p k : string) :
  mkdirAll fs p = inr fs' -> isSymlink (fs !! k) = false -> isSymlink (fs' !! k) = false.
Proof.
  intros H Hk. destruct (mkdirAll_lookup _ _ _ k H) as [->|[_ ->]]; auto.
Qed.

End OSFacts.

(** ** Running monadic programs symbolically *)
Module SysFacts.
Import Strs OS Sys.
Local Open Scope list_scope.

Lemma step_inv (f : FS -> string + FS) (ev : bool -> event) (w w' : World)
      (r : option string) :
  step f ev w = (r, w') ->
  (exists e, f (disk w) = inl e /\ r = Some e /\
             w' = {| disk := disk w; trace := trace w ++ [ev false] |}) \/
  (exists fs', f (disk w) = inr fs' /\ r = None /\
               w' = {| disk := fs'; trace := trace w ++ [ev true] |}).
Proof.
  unfold step. destruct (f (disk w)) as [e|fs']; intros H; injection H as <- <-;
    [left|right]; eauto 10.
Qed.

Ltac step_case H :=
  unfold MkdirAll, WriteFile, Remove, RemoveAll, Sys.Symlink, Rename in H;
  apply step_inv in H as [(?e & ?Hf & -> & ->)|(?fs & ?Hf & -> & ->)];
  simpl in *.

Lemma bind_assoc {A B C} (m : M A) (k1 : A -> M B) (k : B -> M C) (w : World) :
  bind (bind m k1) k w = bind m (fun a => bind (k1 a) k) w.
Proof. unfold bind. destruct (m w). reflexivity. Qed.

Lemma bind_ret {A B} (a : A) (k : A -> M B) (w : World) : bind (ret a) k w = k a w.
Proof. reflexivity. Qed.

Lemma bind_run {A B} (m : M A) (k : A -> M B) (w w1 : World) (a : A) :
  m w = (a, w1) -> bind m k w = k a w1.
Proof. unfold bind. now intros ->. Qed.

(** Run a first action that computes. *)
Ltac run_bind H :=
  match type of H with
  | bind ?m ?k ?w = _ => rewrite (bind_run m k w _ _ eq_refl) in H
  end.

(** Peel the first action off the program in the goal. *)
Ltac mnorm :=
  repeat first [rewrite bind_assoc | rewrite bind_ret | progress cbn [fst snd negb]].

Ltac exec_case H :=
  unfold Exec in H; injection H as <- <-; simpl in *.

Ltac mstep :=
  mnorm;
  match goal with
  | |- context [bind ?m ?k ?w] =>
      let H := fresh "Hstep" in
      unfold bind at 1; destruct (m w) as [? ?] eqn:H
  end.

(** Hook: unfold the command names of the package under study. *)
Ltac unfold_cmds H := idtac.

Ltac inlog :=
  repeat match goal with
         | H : In _ (_ :: _) |- _ => destruct H as [H|H]; [try congruence|]
         | H : In _ [] |- _ => destruct H
         | H : _ \/ _ |- _ =>
             destruct H as [H|H]; [try (unfold_cmds H; congruence)|]
         | H : False |- _ => destruct H
         end.

Ltac done_run :=
  let H := fresh in let Hin := fresh in
  intros H Hin; cbv [ret] in H; injection H as <- <-; simpl in Hin; inlog.

Lemma remove_inv (fs fs' : FS) (p : string) :
  remove fs p = inr fs' -> fs' = delete p fs.
Proof.
  unfold remove. destruct (fs !! p) as [[]|]; try discriminate;
    try (destruct (hasChildren fs p); try discriminate); congruence.
Qed.

Lemma remove_link (fs : FS) (p t : string) :
  fs !! p = Some (Link t) -> remove fs p = inr (delete p fs).
Proof. unfold remove. intros ->. reflexivity. Qed.

Lemma symlink_inv (fs fs' : FS) (t l : string) :
  symlink fs t l = inr fs' -> fs' = <[l := Link t]> fs.
Proof. unfold symlink. destruct (fs !! l); congruence. Qed.

Ltac at_index Hi :=
  repeat match type of Hi with
         | (_ :: _) !! ?i = Some _ => destruct i as [|i]; simpl in Hi; try discriminate
         | [] !! _ = Some _ => discriminate
         end.

End SysFacts.

(** ** The proxy configurator's transaction *)
Module NginxFacts.
Import Strs OS Sys Config Nginx OSFacts SysFacts.
Local Open Scope list_scope.

(** A subprocess that leaves the disk as it found it. *)
Definition readOnly (env : Env) (argv : list string) : Prop :=
  forall fs, after (spawn env argv fs) = fs.

Ltac unfold_cmds H ::= unfold testCmd, reloadCmd in H.

Section Facts.
Variable env : Env.
Variable GenerateOverrideConf : Config -> string.
Variable GenerateHTTPOnlyConfig : string -> string.

(** C1: when the validator reports the configuration invalid, the
    site-deploy operation returns [(false, message)] and no error; it
    has made the staging directory, written [available/<site>.conf] and
    [override.conf], run the validator, and nothing else: no link is
    made or replaced under [enabled/], the proxy is not reloaded.  With
    a validator that leaves the disk alone, the links at
    [enabled/<site>.conf] after the call are those before it, and the
    staged file holds the new configuration. *)
Theorem C1_invalid_config_is_staged_not_enabled
        (cfg : Config) (siteName conf : string) (fs : FS)
        (res : bool * string * option string) (w' : World) (out : string) :
  DeploySiteConfigRaw env GenerateOverrideConf cfg siteName conf (fresh fs) = (res, w') ->
  In (EvExec (testCmd cfg) false out) (trace w') ->
  res = (false, TrimSpace out, None) /\
  trace w' = [EvMkdirAll (SitesAvailable (Nginx cfg)) true;
              EvWrite (availablePath cfg siteName) conf true;
              EvWrite (OverrideConf (Nginx cfg)) (GenerateOverrideConf cfg) true;
              EvExec (testCmd cfg) false out] /\
  (readOnly env (testCmd cfg) ->
   (forall t, disk w' !! enabledPath cfg siteName = Some (Link t) <->
              fs !! enabledPath cfg siteName = Some (Link t)) /\
   (availablePath cfg siteName <> OverrideConf (Nginx cfg) ->
    isSymlink (fs !! availablePath cfg siteName) = false ->
    isSymlink (fs !! OverrideConf (Nginx cfg)) = false ->
    exists m, disk w' !! availablePath cfg siteName = Some (File conf m))).
Proof using Type.
  clear GenerateHTTPOnlyConfig.
  unfold DeploySiteConfigRaw. destruct (Site cfg !! siteName) as [sc|] eqn:Hsite.
  2:{ intros H. injection H as <- <-. simpl. tauto. }
  mstep. step_case Hstep; [done_run|].
  mstep. step_case Hstep; [done_run|].
  mstep. step_case Hstep; [done_run|].
  unfold ValidateAndGetError. mstep. exec_case Hstep.
  destruct (exit_ok _) eqn:Hv; mnorm.
  - (* the validator accepted: its log entry is not a failure *)
    unfold symlinkSiteConfig. rewrite Hsite.
    mstep. step_case Hstep; [done_run|].
    mstep. mstep. step_case Hstep; step_case Hstep0; try done_run.
    all: mstep; exec_case Hstep;
      destruct (exit_ok (spawn env (reloadCmd cfg) _)); done_run.
  - intros H Hin. injection H as <- <-. simpl in Hin. inlog.
    injection Hin as <-.
    split; [reflexivity|]. split; [reflexivity|].
    intros Hro. simpl. rewrite Hro. split.
    + intros t. rewrite (writeFile_symlinks _ _ _ _ _ _ t Hf1).
      rewrite (writeFile_symlinks _ _ _ _ _ _ t Hf0).
      apply (mkdirAll_symlinks _ _ _ _ t Hf).
    + intros Hne Ha Ho.
      apply (writeFile_plain _ _ _ _ _ (mkdirAll_plain _ _ _ _ Hf Ha)) in Hf0 as [m ->].
      apply writeFile_plain in Hf1 as [m' ->].
      * exists m. rewrite lookup_insert_ne by congruence. apply lookup_insert_eq.
      * rewrite lookup_insert_ne by congruence. eapply mkdirAll_plain; eauto.
Qed.

(** Every link that was made in the log comes after a validator run
    that accepted the configuration. *)
Definition validatedBeforeLinking (cfg : Config) (tr : list event) : Prop :=
  forall i t l, tr !! i = Some (EvSymlink t l true) ->
  exists j out, j < i /\ tr !! j = Some (EvExec (testCmd cfg) true out).

(** Every validator run in the log comes directly after the link
    [enabled/<site>.conf] was made. *)
Definition linkedBeforeValidating (cfg : Config) (site : string) (tr : list event) : Prop :=
  forall ok out, In (EvExec (testCmd cfg) ok out) tr ->
  exists k, tr !! k = Some (EvSymlink (availablePath cfg site) (enabledPath cfg site) true) /\
            tr !! S k = Some (EvExec (testCmd cfg) ok out).

(** C8, as the code has it: the site-deploy operation runs the
    validator, and sees it accept, before it makes or replaces the link
    under [enabled/]; the HTTP-only deployment makes the link first and
    validates directly afterwards, whatever the validator then says,
    and when the validator rejects it calls remove on the link and on
    the staged file and returns the validator's message.  Where the
    nginx commands leave the disk alone, [enabled/<site>.conf] is
    absent after such a rejection, and after either operation succeeds
    it is a link to [available/<site>.conf]. *)
Theorem C8_enabled_links_and_validation_order
        (cfg : Config) (site conf : string) (fs : FS) :
  (forall res w',
      DeploySiteConfigRaw env GenerateOverrideConf cfg site conf (fresh fs) = (res, w') ->
      validatedBeforeLinking cfg (trace w') /\
      (readOnly env (reloadCmd cfg) -> res = (true, "", None) ->
       disk w' !! enabledPath cfg site = Some (Link (availablePath cfg site)))) /\
  (forall r w',
      DeployHTTPOnlyConfig env GenerateHTTPOnlyConfig cfg site (fresh fs) = (r, w') ->
      linkedBeforeValidating cfg site (trace w') /\
      (r = None -> exists out, In (EvExec (testCmd cfg) true out) (trace w')) /\
      (forall out, In (EvExec (testCmd cfg) false out) (trace w') ->
       r = Some ("nginx validation failed: " +:+ TrimSpace out) /\
       (exists b0 b1 b2,
           trace w' = [EvMkdirAll (SitesAvailable (Nginx cfg)) true;
                       EvMkdirAll (SitesEnabled (Nginx cfg)) true;
                       EvWrite (availablePath cfg site) (GenerateHTTPOnlyConfig site) true;
                       EvRemove (enabledPath cfg site) b0;
                       EvSymlink (availablePath cfg site) (enabledPath cfg site) true;
                       EvExec (testCmd cfg) false out;
                       EvRemove (enabledPath cfg site) b1;
                       EvRemove (availablePath cfg site) b2]) /\
       (readOnly env (testCmd cfg) -> disk w' !! enabledPath cfg site = None)) /\
      (readOnly env (testCmd cfg) -> readOnly env (reloadCmd cfg) -> r = None ->
       disk w' !! enabledPath cfg site = Some (Link (availablePath cfg site)))).
Proof using Type.
  split.
  - intros res w'. unfold DeploySiteConfigRaw.
    destruct (Site cfg !! site) as [sc|] eqn:Hsite.
    2:{ intros H. injection H as <- <-. split; [|discriminate].
        intros i t l Hi. destruct i; discriminate. }
    assert (Hfin : forall (tr : list event) (r : bool * string * option string) w0,
               (forall i t l, tr !! i = Some (EvSymlink t l true) -> False) ->
               r <> (true, "", None) ->
               ret r {| disk := w0; trace := tr |} = (res, w') ->
               validatedBeforeLinking cfg (trace w') /\
               (readOnly env (reloadCmd cfg) -> res = (true, "", None) ->
                disk w' !! enabledPath cfg site = Some (Link (availablePath cfg site)))).
    { intros tr r w0 Hno Hne H. injection H as <- <-. split; [|intros _; contradiction].
      intros i t l Hi. destruct (Hno _ _ _ Hi). }
    mstep. step_case Hstep.
    { apply Hfin; [|discriminate]. intros i t l Hi. at_index Hi. }
    mstep. step_case Hstep.
    { apply Hfin; [|discriminate]. intros i t l Hi. at_index Hi. }
    mstep. step_case Hstep.
    { apply Hfin; [|discriminate]. intros i t l Hi. at_index Hi. }
    unfold ValidateAndGetError. mstep. exec_case Hstep.
    destruct (exit_ok _) eqn:Hv; mnorm.
    2:{ apply Hfin; [|discriminate]. intros i t l Hi. at_index Hi. }
    unfold symlinkSiteConfig. rewrite Hsite.
    mstep. step_case Hstep.
    { apply Hfin; [|discriminate]. intros i t l Hi. at_index Hi. }
    mstep. mstep.
    assert (Hlinked : forall a b out last (b0 : bool),
               validatedBeforeLinking cfg
                 [EvMkdirAll a true; EvWrite b conf true;
                  EvWrite (OverrideConf (Nginx cfg)) (GenerateOverrideConf cfg) true;
                  EvExec (testCmd cfg) true out;
                  EvMkdirAll (SitesEnabled (Nginx cfg)) true;
                  EvRemove (enabledPath cfg site) b0;
                  EvSymlink (availablePath cfg site) (enabledPath cfg site) true;
                  last]).
    { intros a b out last b0 i t l Hi. at_index Hi; (exists 3, out; split; [lia|reflexivity]). }
    step_case Hstep; step_case Hstep0;
      try (apply Hfin; [|discriminate]; intros i t l Hi; at_index Hi; fail).
    all: mstep; exec_case Hstep;
      destruct (exit_ok (spawn env (reloadCmd cfg) _));
      intros H; cbv [ret] in H; injection H as <- <-; simpl;
      (split; [apply Hlinked|]); intros Hr; try discriminate; intros _;
      rewrite Hr; apply symlink_inv in Hf4; subst; apply lookup_insert_eq.
  - intros r w'. unfold DeployHTTPOnlyConfig.
    assert (Hfin : forall (tr : list event) (e : string) w0,
               (forall ok out, ~ In (EvExec (testCmd cfg) ok out) tr) ->
               ret (Some e) {| disk := w0; trace := tr |} = (r, w') ->
               linkedBeforeValidating cfg site (trace w') /\
               (r = None -> exists out, In (EvExec (testCmd cfg) true out) (trace w')) /\
               (forall out, In (EvExec (testCmd cfg) false out) (trace w') ->
                r = Some ("nginx validation failed: " +:+ TrimSpace out) /\
                (exists b0 b1 b2,
                    trace w' = [EvMkdirAll (SitesAvailable (Nginx cfg)) true;
                                EvMkdirAll (SitesEnabled (Nginx cfg)) true;
                                EvWrite (availablePath cfg site) (GenerateHTTPOnlyConfig site) true;
                                EvRemove (enabledPath cfg site) b0;
                                EvSymlink (availablePath cfg site) (enabledPath cfg site) true;
                                EvExec (testCmd cfg) false out;
                                EvRemove (enabledPath cfg site) b1;
                                EvRemove (availablePath cfg site) b2]) /\
                (readOnly env (testCmd cfg) -> disk w' !! enabledPath cfg site = None)) /\
               (readOnly env (testCmd cfg) -> readOnly env (reloadCmd cfg) -> r = None ->
                disk w' !! enabledPath cfg site = Some (Link (availablePath cfg site)))).
    { intros tr e w0 Hno H. injection H as <- <-. cbn [trace].
      split; [intros ok out Hin; destruct (Hno _ _ Hin)|].
      split; [discriminate|].
      split; [intros out Hin; destruct (Hno _ _ Hin)|discriminate]. }
    mstep. step_case Hstep.
    { apply Hfin. intros ok out Hin. simpl in Hin. inlog. }
    mstep. step_case Hstep.
    { apply Hfin. intros ok out Hin. simpl in Hin. inlog. }
    mstep. step_case Hstep.
    { apply Hfin. intros ok out Hin. simpl in Hin. inlog. }
    mstep. mstep.
    step_case Hstep; step_case Hstep0;
      try (apply Hfin; intros ok out Hin; simpl in Hin; inlog; fail).
    all: unfold ValidateAndGetError; mstep; exec_case Hstep;
      apply symlink_inv in Hf3; subst;
      destruct (exit_ok (spawn env (testCmd cfg) _)) eqn:Hv; mnorm.
    all: try (mstep; exec_case Hstep;
              destruct (exit_ok (spawn env (reloadCmd cfg) _));
              intros H; cbv [ret] in H; injection H as <- <-; cbn [disk trace];
              (split; [intros ok out Hin; simpl in Hin; inlog; injection Hin as <- <-;
                       exists 4; split; reflexivity|]);
              (split; [intros _; eexists; simpl; eauto 10|]);
              (split; [intros out Hin; simpl in Hin; inlog; congruence|]);
              intros Ht Hr Hnil; try discriminate Hnil;
              rewrite Hr, Ht; apply lookup_insert_eq).
    all: clear Hfin; mstep; step_case Hstep; mstep; step_case Hstep;
      intros H; cbv [ret] in H; injection H as <- <-; cbn [disk trace];
      (split; [intros ok out Hin; simpl in Hin; inlog; injection Hin as <- <-;
               exists 4; split; reflexivity|]);
      (split; [discriminate|]);
      (split; [|discriminate]);
      intros out Hin; simpl in Hin; inlog; injection Hin as <-;
      (split; [reflexivity|]); (split; [eauto|]); intros Ht.
    all: rewrite Ht in *;
      match goal with
      | H : remove (<[?p := Link ?t]> ?f) ?p = _ |- _ =>
          erewrite remove_link in H by apply lookup_insert_eq;
          first [discriminate H | injection H as <-]
      end;
      match goal with
      | H : remove (delete _ _) _ = inl _ |- _ => apply lookup_delete_eq
      | H : remove (delete _ _) _ = inr _ |- _ =>
          apply remove_inv in H; subst; apply lookup_delete_None; right;
          apply lookup_delete_eq
      end.
Qed.

End Facts.
End NginxFacts.

(** ** A concrete host, for running the embedding on examples *)
Module Scenario.
Import Strs OS Sys Config.

Definition nginx0 : NginxConfig :=
  {| BinaryPath := "/usr/local/sbin/nginx";
     MainConfPath := "/usr/local/etc/nginx/nginx.conf";
     SitesAvailable := "/usr/local/etc/nginx/sites-available";
     SitesEnabled := "/usr/local/etc/nginx/sites-enabled";
     OverrideConf := "/usr/local/etc/nginx/override.conf" |}.

Definition site0 : SiteConfig :=
  {| FrontendRoot := "/var/www/a.example.com"; APIKey := "sk-site-0123";
     OverrideIPs := []; Backend := None; SSLEnabled := false |}.

Definition backend0 : BackendConfig :=
  {| JailName := "b-example-com"; JailIP := "127.0.1.1"; ListenPort := 8080;
     ProxyPath := "/api"; BinaryName := "app" |}.

Definition site1 : SiteConfig :=
  {| FrontendRoot := ""; APIKey := "sk-site-4567";
     OverrideIPs := []; Backend := Some backend0; SSLEnabled := false |}.

Definition cfgWith (threshold : Z) : Config :=
  {| Server := {| ListenAddr := "0.0.0.0:8443"; LogFile := ""; LogLevel := "";
                  TLSCert := ""; TLSKey := "" |};
     Nginx := nginx0;
     Jail := {| BaseDir := "/var/jails"; JailConfPath := "/etc/jail.conf";
                FreeBSDVersion := "14.3-RELEASE"; TarballCache := "";
                IPBase := "127.0.1" |};
     Health := {| PollInterval := 15; FailureThreshold := threshold;
                  HealthPath := "/health" |};
     Self := {| SelfBinaryPath := "/usr/local/bin/shipyard";
                PidFile := "/var/run/shipyard.pid";
                ConfigDir := "/usr/local/etc/shipyard" |};
     AdminKeys := ["sk-admin-1"];
     Site := <["a.example.com" := site0]> (<["b.example.com" := site1]> ∅);
     path := "/usr/local/etc/shipyard/shipyard.toml" |}.

Definition cfg0 : Config := cfgWith 3.

(** [%q] on a name of letters, digits, dots and hyphens: the name
    between double quotes. *)
Definition quoted (s : string) : string :=
  String (ascii_of_nat 34) (s ++ String (ascii_of_nat 34) "").

(** Every subprocess exits zero, prints nothing and leaves the disk alone. *)
Definition envOK : Env :=
  {| spawn := fun _ fs => Outcome true "" false fs |}.

(** As [envOK], but [nginx -t] rejects the configuration. *)
Definition envBadConf : Env :=
  {| spawn := fun argv fs =>
       match argv with
       | [_; "-t"] => Outcome false "nginx: [emerg] unexpected end of file
" false fs
       | _ => Outcome true "" false fs
       end |}.

Definition override0 (_ : Config) : string := "# MANAGED BY SHIPYARD".
Definition httpOnly0 (domain : string) : string := "server { listen 80; server_name " ++ domain ++ "; }".

End Scenario.

Module NginxExamples.
Import Strs OS Sys Config Nginx NginxFacts Scenario.
Local Open Scope list_scope.

Definition badDeploy :=
  DeploySiteConfigRaw envBadConf override0 cfg0 "a.example.com" "server {" (fresh ∅).

Lemma C1_witness :
  badDeploy.1 = (false, "nginx: [emerg] unexpected end of file", None) /\
  trace badDeploy.2 =
    [EvMkdirAll "/usr/local/etc/nginx/sites-available" true;
     EvWrite "/usr/local/etc/nginx/sites-available/a.example.com.conf" "server {" true;
     EvWrite "/usr/local/etc/nginx/override.conf" "# MANAGED BY SHIPYARD" true;
     EvExec ["/usr/local/sbin/nginx"; "-t"] false "nginx: [emerg] unexpected end of file
"].
Proof.
  pose proof (C1_invalid_config_is_staged_not_enabled envBadConf override0 cfg0
                "a.example.com" "server {" ∅ badDeploy.1 badDeploy.2
                "nginx: [emerg] unexpected end of file
") as H.
  destruct H as (H1 & H2 & _).
  - exact (surjective_pairing badDeploy).
  - vm_compute. auto 10.
  - split; [exact H1 | exact H2].
Defined.

Definition goodDeploy :=
  DeploySiteConfigRaw envOK override0 cfg0 "a.example.com" "server { }" (fresh ∅).

Definition bootstrapDeploy :=
  DeployHTTPOnlyConfig envOK httpOnly0 cfg0 "c.example.com" (fresh ∅).

Definition failedBootstrap :=
  DeployHTTPOnlyConfig envBadConf httpOnly0 cfg0 "c.example.com" (fresh ∅).

Lemma C8_witness :
  (validatedBeforeLinking cfg0 (trace goodDeploy.2) /\
   disk goodDeploy.2 !! "/usr/local/etc/nginx/sites-enabled/a.example.com.conf"
   = Some (Link "/usr/local/etc/nginx/sites-available/a.example.com.conf")) /\
  (linkedBeforeValidating cfg0 "c.example.com" (trace bootstrapDeploy.2) /\
   disk bootstrapDeploy.2 !! "/usr/local/etc/nginx/sites-enabled/c.example.com.conf"
   = Some (Link "/usr/local/etc/nginx/sites-available/c.example.com.conf")) /\
  (linkedBeforeValidating cfg0 "c.example.com" (trace failedBootstrap.2) /\
   failedBootstrap.1
   = Some "nginx validation failed: nginx: [emerg] unexpected end of file" /\
   disk failedBootstrap.2 !! "/usr/local/etc/nginx/sites-enabled/c.example.com.conf" = None).
Proof.
  destruct (C8_enabled_links_and_validation_order envOK override0 httpOnly0 cfg0
              "a.example.com" "server { }" ∅) as [H1 _].
  destruct (C8_enabled_links_and_validation_order envOK override0 httpOnly0 cfg0
              "c.example.com" "" ∅) as [_ H2].
  destruct (C8_enabled_links_and_validation_order envBadConf override0 httpOnly0 cfg0
              "c.example.com" "" ∅) as [_ H3].
  specialize (H1 _ _ (surjective_pairing goodDeploy)) as [Ha Hb].
  specialize (H2 _ _ (surjective_pairing bootstrapDeploy)) as (Hc & _ & _ & Hd).
  specialize (H3 _ _ (surjective_pairing failedBootstrap)) as (He & _ & Hf & _).
  destruct (Hf "nginx: [emerg] unexpected end of file
") as (Hr & _ & Hgone); [vm_compute; auto 10|].
  split; [split; [exact Ha | apply Hb; [intros fs; reflexivity | vm_compute; reflexivity]]|].
  split; [split; [exact Hc | apply Hd; [intros fs; reflexivity | intros fs; reflexivity
                                       | vm_compute; reflexivity]]|].
  split; [exact He|]. split; [rewrite Hr; vm_compute; reflexivity|].
  apply Hgone. intros fs. reflexivity.
Defined.

(** C8 fails as stated: the HTTP-only bootstrap deployment makes the
    link under [enabled/] before the validator has run. *)
Lemma C8_http_only_links_before_validating :
  trace bootstrapDeploy.2 !! 4
  = Some (EvSymlink "/usr/local/etc/nginx/sites-available/c.example.com.conf"
                    "/usr/local/etc/nginx/sites-enabled/c.example.com.conf" true) /\
  trace bootstrapDeploy.2 !! 5 = Some (EvExec ["/usr/local/sbin/nginx"; "-t"] true "") /\
  ~ validatedBeforeLinking cfg0 (trace bootstrapDeploy.2).
Proof.
  assert (Hlink : trace bootstrapDeploy.2 !! 4
          = Some (EvSymlink "/usr/local/etc/nginx/sites-available/c.example.com.conf"
                            "/usr/local/etc/nginx/sites-enabled/c.example.com.conf" true))
    by (vm_compute; reflexivity).
  split; [exact Hlink|]. split; [vm_compute; reflexivity|].
  intros H. destruct (H 4 _ _ Hlink) as (j & out & Hj & Hev).
  vm_compute in Hev.
  do 4 (destruct j as [|j]; [discriminate Hev|]). lia.
Qed.

End NginxExamples.

(** ** The health monitor *)
Module HealthFacts.
Import Config Health.
Local Open Scope list_scope.
Local Open Scope Z_scope.

Section Tick.
Variable cfg : Config.
Variable httpGet : string -> option Z.
Variable now : Z.

Abbreviation threshold := (FailureThreshold (Health cfg)).
Abbreviation tick := (checkAllServices cfg httpGet now).
Abbreviation once := (checkOne cfg httpGet now).

(** What one visit of a site with a backend does to its record. *)
Definition visited (before : option ServiceStatus) (site : SiteConfig)
           (after : ServiceStatus) (restarted : bool) : Prop :=
  Healthy after = checkService cfg httpGet site /\
  match before with
  | None => ConsecutiveFailures after = 0 /\ restarted = false
  | Some st =>
      if checkService cfg httpGet site
      then ConsecutiveFailures after = 0 /\ restarted = false
      else if wrapInt (ConsecutiveFailures st + 1) >=? threshold
           then ConsecutiveFailures after = 0 /\ restarted = true
           else ConsecutiveFailures after = wrapInt (ConsecutiveFailures st + 1) /\
                restarted = false
  end.

Lemma checkOne_other (m : Monitor) (name other : string) (site : SiteConfig) :
  other <> name ->
  serviceStatus (once m other site) !! name = serviceStatus m !! name.
Proof.
  intros Hne. unfold checkOne.
  destruct (Backend site); [|reflexivity].
  destruct (serviceStatus m !! other);
    repeat (match goal with |- context [if ?b then _ else _] => destruct b end);
    simpl; rewrite lookup_insert_ne by done; reflexivity.
Qed.

Lemma checkOne_restarts (m : Monitor) (name : string) (site : SiteConfig) :
  exists extra, restarts (once m name site) = restarts m ++ extra.
Proof.
  unfold checkOne, Restart.
  destruct (Backend site); [|exists []; now rewrite app_nil_r].
  destruct (serviceStatus m !! name);
    repeat (match goal with
            | |- context [if ?b then _ else _] => destruct b
            | |- context [match ?x with Some _ => _ | None => _ end] => destruct x
            end);
    simpl; first [exists []; now rewrite app_nil_r | eexists; reflexivity].
Qed.

Lemma tick_other (order : list (string * SiteConfig)) (m : Monitor) (name : string) :
  ~ In name (map fst order) ->
  serviceStatus (tick order m) !! name = serviceStatus m !! name.
Proof.
  revert m. induction order as [|[k v] order IH]; intros m Hnot; simpl; [reflexivity|].
  simpl in Hnot. rewrite IH by tauto. apply checkOne_other. tauto.
Qed.

Lemma tick_restarts (order : list (string * SiteConfig)) (m : Monitor) :
  exists extra, restarts (tick order m) = restarts m ++ extra.
Proof.
  revert m. induction order as [|[k v] order IH]; intros m; simpl.
  - exists []. now rewrite app_nil_r.
  - destruct (IH (once m k v)) as [e1 ->].
    destruct (checkOne_restarts m k v) as [e2 ->].
    exists (e2 ++ e1). now rewrite app_assoc.
Qed.

Lemma checkOne_visit (m : Monitor) (name : string) (site : SiteConfig) :
  Site cfg !! name = Some site -> Backend site <> None ->
  exists st restarted,
    serviceStatus (once m name site) !! name = Some st /\
    visited (serviceStatus m !! name) site st restarted /\
    restarts (once m name site)
    = restarts m ++ (if restarted then [Service.serviceName name] else []).
Proof.
  intros Hsite Hb. unfold checkOne, visited, Restart. rewrite Hsite.
  destruct (Backend site) as [b|] eqn:Eb; [|contradiction].
  destruct (serviceStatus m !! name) as [st|].
  - destruct (checkService cfg httpGet site) eqn:Eh; simpl.
    + eexists; exists false; rewrite lookup_insert_eq, app_nil_r; simpl; auto.
    + destruct (wrapInt (ConsecutiveFailures st + 1) >=? threshold) eqn:Et.
      * eexists; exists true; simpl; rewrite lookup_insert_eq; simpl; auto.
      * eexists; exists false; simpl; rewrite lookup_insert_eq, app_nil_r; simpl; auto.
  - eexists; exists false; simpl; rewrite lookup_insert_eq, app_nil_r; simpl; auto.
Qed.

Lemma visited_below (before : option ServiceStatus) (site : SiteConfig)
      (st : ServiceStatus) (restarted : bool) :
  1 <= threshold -> visited before site st restarted ->
  ConsecutiveFailures st < threshold.
Proof.
  intros Hthr [_ Hv]. destruct before as [old|].
  - destruct (checkService cfg httpGet site); [lia|].
    destruct (wrapInt (ConsecutiveFailures old + 1) >=? threshold) eqn:Et; [lia|].
    destruct Hv as [-> _]. lia.
  - lia.
Qed.

Lemma tick_app (l1 l2 : list (string * SiteConfig)) (m : Monitor) :
  tick (l1 ++ l2) m = tick l2 (tick l1 m).
Proof. apply fold_left_app. Qed.

(** C9, as the code has it.  In one tick over the site map (in any
    order) every site with a backend ends with a status record.  A
    site seen for the first time gets a record with zero failures; for
    a site with a record, a successful probe resets
    [consecutive_failures] to 0, a failed probe increments it, and when
    the incremented count reaches the threshold the service is
    restarted and the count reset to 0.  If the configured threshold is
    at least 1, the count after the tick is strictly below it. *)
Theorem C9_tick_keeps_failures_below_threshold
        (order : list (string * SiteConfig)) (m : Monitor)
        (name : string) (site : SiteConfig) :
  order ≡ₚ map_to_list (Site cfg) ->
  Site cfg !! name = Some site -> Backend site <> None ->
  exists st restarted pre post,
    serviceStatus (tick order m) !! name = Some st /\
    visited (serviceStatus m !! name) site st restarted /\
    restarts (tick order m)
    = restarts m ++ pre ++ (if restarted then [Service.serviceName name] else []) ++ post /\
    (1 <= threshold -> ConsecutiveFailures st < threshold).
Proof using Type.
  intros Hperm Hsite Hb.
  assert (Hin : (name, site) ∈ order).
  { rewrite Hperm. now apply elem_of_map_to_list. }
  assert (Hnd : NoDup (order.*1)).
  { rewrite Hperm. apply NoDup_fst_map_to_list. }
  apply list_elem_of_split in Hin as (l1 & l2 & ->).
  rewrite fmap_app, fmap_cons in Hnd. simpl in Hnd.
  apply NoDup_app in Hnd as (Hnd1 & Hdisj & Hnd2).
  apply NoDup_cons in Hnd2 as [Hnot2 _].
  assert (Hnot1 : name ∉ l1.*1).
  { intros Hc. apply (Hdisj _ Hc). left. }
  rewrite tick_app. simpl.
  rewrite list_elem_of_In in Hnot1, Hnot2.
  destruct (checkOne_visit (tick l1 m) name site Hsite Hb)
    as (st & restarted & Hst & Hvis & Hres).
  rewrite (tick_other l1 m name Hnot1) in Hvis.
  destruct (tick_restarts l1 m) as [pre Hpre].
  destruct (tick_restarts l2 (once (tick l1 m) name site)) as [post Hpost].
  exists st, restarted, pre, post.
  split; [rewrite tick_other by exact Hnot2; exact Hst|].
  split; [exact Hvis|]. split.
  - rewrite Hpost, Hres, Hpre. now rewrite <- !app_assoc.
  - intros Hthr. eapply visited_below; eauto.
Qed.

End Tick.
End HealthFacts.

Module HealthExamples.
Import Config Health HealthFacts Scenario.
Local Open Scope Z_scope.

Definition allUp (_ : string) : option Z := Some 200.
Definition allDown (_ : string) : option Z := None.
Definition idle : Monitor := {| serviceStatus := ∅; restarts := [] |}.
Definition sites0 : list (string * SiteConfig) := map_to_list (Site cfg0).

(** Three failing ticks after the first sighting, threshold 3. *)
Definition afterOutage : Monitor :=
  checkAllServices cfg0 allDown 4 sites0
    (checkAllServices cfg0 allDown 3 sites0
       (checkAllServices cfg0 allDown 2 sites0
          (checkAllServices cfg0 allDown 1 sites0 idle))).

Example outage_restarts_once :
  restarts afterOutage = ["b_example_com"] /\
  ConsecutiveFailures <$> serviceStatus afterOutage !! "b.example.com" = Some 0.
Proof. vm_compute. split; reflexivity. Qed.

(** The first probe of a site only creates its record: a failure is
    not counted yet. *)
Example first_probe_is_not_counted :
  let m := checkAllServices cfg0 allDown 1 sites0 idle in
  (fun st => (ConsecutiveFailures st, Healthy st)) <$> serviceStatus m !! "b.example.com"
  = Some (0, false) /\ restarts m = [].
Proof. vm_compute. split; reflexivity. Qed.

(** The first sighting and two failed probes: the record of the
    backend stands at two failures, one below the threshold of 3. *)
Definition worn : Monitor :=
  checkAllServices cfg0 allDown 3 sites0
    (checkAllServices cfg0 allDown 2 sites0
       (checkAllServices cfg0 allDown 1 sites0 idle)).

(** The site as the first tick leaves it: a record with no failure. *)
Definition sighted : Monitor := checkAllServices cfg0 allDown 1 sites0 idle.

(** A failed probe of a site with a record is counted; the failed
    probe that reaches the threshold restarts the service and puts the
    count back to 0. *)
Lemma C9_witness :
  (exists st,
      serviceStatus (checkAllServices cfg0 allDown 2 sites0 sighted) !! "b.example.com"
      = Some st /\
      Healthy st = false /\ ConsecutiveFailures st = 1 /\ ConsecutiveFailures st < 3) /\
  (ConsecutiveFailures <$> serviceStatus worn !! "b.example.com" = Some 2) /\
  exists st pre post,
    serviceStatus (checkAllServices cfg0 allDown 4 sites0 worn) !! "b.example.com" = Some st /\
    Healthy st = false /\ ConsecutiveFailures st = 0 /\
    restarts (checkAllServices cfg0 allDown 4 sites0 worn)
    = (restarts worn ++ pre ++ ["b_example_com"%string] ++ post)%list /\
    ConsecutiveFailures st < 3.
Proof.
  split; [|split; [vm_compute; reflexivity|]].
  - destruct (C9_tick_keeps_failures_below_threshold cfg0 allDown 2 sites0 sighted
                "b.example.com" site1) as (st & r & pre & post & H1 & Hv & _ & H2).
    + reflexivity.
    + vm_compute. reflexivity.
    + discriminate.
    + exists st. vm_compute in Hv. destruct Hv as (Hh & Hc & _).
      split; [exact H1|]. split; [exact Hh|]. split; [exact Hc|].
      apply H2. vm_compute. discriminate.
  - destruct (C9_tick_keeps_failures_below_threshold cfg0 allDown 4 sites0 worn
                "b.example.com" site1) as (st & r & pre & post & H1 & Hv & Hr & H2).
    + reflexivity.
    + vm_compute. reflexivity.
    + discriminate.
    + exists st, pre, post. vm_compute in Hv. destruct Hv as (Hh & Hc & ->).
      split; [exact H1|]. split; [exact Hh|]. split; [exact Hc|].
      split; [exact Hr|]. apply H2. vm_compute. discriminate.
Defined.

(** C9 fails as stated: nothing in the code defaults the threshold, and
    with a configured threshold of 0 a healthy site ends the tick with
    a count of 0, which is not strictly below the threshold. *)
Lemma C9_zero_threshold_not_below :
  let m := checkAllServices (cfgWith 0) allUp 1 (map_to_list (Site (cfgWith 0))) idle in
  ConsecutiveFailures <$> serviceStatus m !! "b.example.com" = Some 0 /\
  FailureThreshold (Health (cfgWith 0)) = 0 /\
  ~ (0 < FailureThreshold (Health (cfgWith 0))).
Proof. vm_compute. split; [reflexivity|]. split; [reflexivity|]. discriminate. Qed.

End HealthExamples.

(** ** The self-updater *)
Module UpdateFacts.
Import Strs OS Sys Update OSFacts SysFacts.
Local Open Scope list_scope.

Lemma append_length (p s : string) :
  String.length (p +:+ s) = String.length p + String.length s.
Proof. induction p as [|c p IH]; simpl; [reflexivity|]. now rewrite IH. Qed.

Lemma append_ne (p s : string) : s <> "" -> p +:+ s <> p.
Proof.
  intros Hs Heq. apply (f_equal String.length) in Heq.
  rewrite append_length in Heq. destruct s; [congruence|simpl in Heq; lia].
Qed.

Lemma append_inj (p a b : string) : p +:+ a = p +:+ b -> a = b.
Proof. induction p as [|c p IH]; simpl; intros H; [exact H|]. injection H as H. auto. Qed.

Lemma Stat_plain (fs : FS) (p : string) :
  isSymlink (fs !! p) = false -> Stat fs p = fs !! p.
Proof. intros H. unfold Stat. now rewrite (resolve_plain _ _ _ H). Qed.

(** Renaming a file or a link moves the one node. *)
Lemma rename_file (fs fs' : FS) (a b : string) (n : node) :
  fs !! a = Some n -> n <> Directory -> a <> b ->
  rename fs a b = inr fs' -> fs' = <[b := n]> (delete a fs).
Proof.
  intros Ha Hn Hab. unfold rename. rewrite Ha.
  destruct (String.eqb_spec a b) as [->|_]; [contradiction|].
  destruct n as [d m| |t]; [|contradiction|];
    destruct (fs !! b) as [[]|]; intros H; try discriminate; congruence.
Qed.

Ltac stat_case H := unfold StatM, LstatM in H; injection H as <- <-; simpl in *.

Ltac mstep_with tac :=
  mnorm;
  match goal with
  | |- context [bind ?m ?k ?w] =>
      let H := fresh "Hstep" in
      unfold bind at 1; destruct (m w) as [? ?] eqn:H; tac H
  end.

(** Run a branch that can only end in an error to its end. *)
Ltac dead_end :=
  repeat (mstep_with ltac:(fun H => first [step_case H | stat_case H]));
  mnorm; let H := fresh in intros H; cbv [ret] in H; congruence.

Section Facts.
Variable env : Env.
Variable P : string.

Abbreviation Pnew := (P +:+ ".new").
Abbreviation Pold := (P +:+ ".old").

(** The probe of the uploaded binary leaves the three paths alone. *)
Definition probeSpares (q : string) : Prop :=
  forall fs0, after (spawn env [Pnew; "version"] fs0) !! q = fs0 !! q.

Lemma paths_distinct : P <> Pnew /\ P <> Pold /\ Pnew <> Pold.
Proof.
  repeat split.
  - intros H. symmetry in H. revert H. now apply append_ne.
  - intros H. symmetry in H. revert H. now apply append_ne.
  - intros H. apply append_inj in H. discriminate.
Qed.

Lemma Update_success (data bytes : string) (mode : bool) (fs : FS) (w1 : World) :
  Update env P data (fresh fs) = (None, w1) ->
  probeSpares P -> probeSpares Pnew -> probeSpares Pold ->
  fs !! P = Some (File bytes mode) ->
  isSymlink (fs !! Pnew) = false ->
  disk w1 !! P = Some (File data true) /\
  disk w1 !! Pold = Some (File bytes mode) /\
  disk w1 !! Pnew = None.
Proof using Type.
  destruct paths_distinct as (Hpn & Hpo & Hno).
  intros HU HqP HqN HqO HP HN. revert HU.
  unfold Update, writeNewBinary.
  mstep. step_case Hstep; [dead_end|].
  mstep. step_case Hstep; [dead_end|].
  pose proof (mkdirAll_plain _ _ _ Pnew Hf HN) as HN0.
  destruct (writeFile_plain _ _ _ _ _ HN0 Hf0) as [m ->]. clear Hf0.
  assert (HP0 : fs0 !! P = Some (File bytes mode)).
  { destruct (mkdirAll_lookup _ _ _ P Hf) as [->|[E _]]; congruence. }
  assert (Hstat : Stat (<[Pnew:=File data m]> fs0) Pnew = Some (File data m)).
  { rewrite Stat_plain; rewrite lookup_insert_eq; reflexivity. }
  unfold validateBinary. mstep. stat_case Hstep. rewrite Hstat.
  destruct m; [|dead_end].
  mstep. unfold ExecTimeout in Hstep. injection Hstep as <- <-. simpl.
  set (fs1 := <[Pnew:=File data true]> fs0).
  set (o := spawn env [Pnew; "version"] fs1).
  destruct (slow o); [dead_end|]. destruct (exit_ok o); [|dead_end].
  assert (H2P : after o !! P = Some (File bytes mode)).
  { unfold o. rewrite HqP. unfold fs1. now rewrite lookup_insert_ne. }
  assert (H2N : after o !! Pnew = Some (File data true)).
  { unfold o. rewrite HqN. unfold fs1. now rewrite lookup_insert_eq. }
  generalize dependent (after o). intros fs2 H2P H2N.
  unfold atomicReplace.
  assert (H3 : forall fs3, (fs3 = fs2 \/ fs3 = delete Pold fs2) ->
               fs3 !! P = Some (File bytes mode) /\ fs3 !! Pnew = Some (File data true)).
  { intros fs3 [->| ->]; [auto|]. rewrite !lookup_delete_ne by congruence. auto. }
  assert (Hgo : forall fs3 tr,
             fs3 !! P = Some (File bytes mode) -> fs3 !! Pnew = Some (File data true) ->
             (let* err :=
                (let* err := Rename P Pold in
                 match err with
                 | Some e => ret (Some (wrap "backup current binary" e))
                 | None =>
                     let* err := Rename Pnew P in
                     match err with
                     | Some e =>
                         let* restoreErr := Rename Pold P in
                         match restoreErr with
                         | Some re => ret (Some ("rename failed (" +:+ e +:+
                                                 ") and restore failed (" +:+ re +:+ ")"))
                         | None => ret (Some (wrap "rename new binary" e))
                         end
                     | None => ret None
                     end
                 end) in
              match err with
              | Some e => let* _ := Remove Pnew in ret (Some (wrap "atomic replace" e))
              | None => ret None
              end) {| disk := fs3; trace := tr |} = (None, w1) ->
             disk w1 !! P = Some (File data true) /\
             disk w1 !! Pold = Some (File bytes mode) /\ disk w1 !! Pnew = None).
  { clear. intros fs3 tr H3P H3N. destruct paths_distinct as (Hpn & Hpo & Hno).
    mstep. step_case Hstep; [dead_end|].
    apply (rename_file _ _ _ _ _ H3P) in Hf; [subst|discriminate|exact Hpo].
    mstep. step_case Hstep; [dead_end|].
    apply (rename_file _ _ _ _ (File data true)) in Hf; [subst|..|congruence].
    2:{ rewrite lookup_insert_ne, lookup_delete_ne by congruence. exact H3N. }
    2:{ discriminate. }
    mnorm. intros H. cbv [ret] in H. injection H as <-. simpl.
    rewrite lookup_insert_eq. split; [reflexivity|]. split.
    - rewrite lookup_insert_ne, lookup_delete_ne, lookup_insert_eq by congruence.
      reflexivity.
    - rewrite lookup_insert_ne by congruence. apply lookup_delete_eq. }
  mstep. step_case Hstep.
  - destruct (H3 fs2 (or_introl eq_refl)). now apply Hgo.
  - apply remove_inv in Hf0. destruct (H3 _ (or_intror Hf0)). now apply Hgo.
Qed.

Lemma Rollback_success (data bytes : string) (mode x : bool) (w1 w2 : World) :
  Rollback P w1 = (None, w2) ->
  disk w1 !! P = Some (File data x) ->
  disk w1 !! Pold = Some (File bytes mode) ->
  disk w1 !! Pnew = None ->
  disk w2 !! P = Some (File bytes mode) /\
  disk w2 !! Pnew = None /\ disk w2 !! Pold = None.
Proof using Type.
  clear env. destruct paths_distinct as (Hpn & Hpo & Hno).
  intros HR HP HO HN. revert HR. unfold Rollback.
  destruct w1 as [fs tr]. simpl in *.
  mstep. stat_case Hstep.
  rewrite Stat_plain by (rewrite HO; reflexivity). rewrite HO.
  mstep. step_case Hstep.
  2:{ unfold remove in Hf. rewrite HN in Hf. discriminate. }
  mstep. step_case Hstep; [dead_end|].
  apply (rename_file _ _ _ _ _ HP) in Hf0; [subst|discriminate|exact Hpn].
  mstep. step_case Hstep; [dead_end|].
  apply (rename_file _ _ _ _ (File bytes mode)) in Hf0; [subst|..|congruence].
  2:{ rewrite lookup_insert_ne, lookup_delete_ne by congruence. exact HO. }
  2:{ discriminate. }
  mstep. step_case Hstep.
  { unfold remove in Hf0.
    rewrite lookup_insert_ne, lookup_delete_ne, lookup_insert_eq in Hf0 by congruence.
    discriminate. }
  apply remove_inv in Hf0. subst.
  intros H. cbv [ret] in H. injection H as <-. simpl.
  split; [|split].
  - rewrite lookup_delete_ne, lookup_insert_eq by congruence. reflexivity.
  - apply lookup_delete_eq.
  - rewrite lookup_delete_ne, lookup_insert_ne, lookup_delete_eq by congruence.
    reflexivity.
Qed.

(** C3: a successful update followed at once by a successful rollback
    puts the pre-update file back at [P], bytes and mode, and leaves
    no [P.new] (nor [P.old]) behind.  The probe of the new binary is
    taken to leave the three paths alone, and [P.new] not to be a link
    when the update starts. *)
Theorem C3_update_then_rollback_restores_binary
        (data bytes : string) (mode : bool) (fs : FS) (w1 w2 : World) :
  Update env P data (fresh fs) = (None, w1) ->
  Rollback P w1 = (None, w2) ->
  probeSpares P -> probeSpares Pnew -> probeSpares Pold ->
  fs !! P = Some (File bytes mode) ->
  isSymlink (fs !! Pnew) = false ->
  disk w2 !! P = Some (File bytes mode) /\
  disk w2 !! Pnew = None /\ disk w2 !! Pold = None.
Proof using Type.
  intros HU HR HqP HqN HqO HP HN.
  destruct (Update_success _ _ _ _ _ HU HqP HqN HqO HP HN) as (H1 & H2 & H3).
  eapply Rollback_success; eauto.
Qed.

(** Run every remaining branch to its end and look for the sought
    event in the log. *)
Ltac not_in_log Hin :=
  repeat (mstep_with ltac:(fun H => first [step_case H | stat_case H]));
  mnorm; let H := fresh in
  intros H; cbv [ret] in H; injection H as <- <-; simpl in Hin; inlog.

(** C4: when the probe of the uploaded binary fails (non-zero exit, or
    still running at the ten-second deadline), [Update] returns an
    error, [P.new] is gone, and whatever was at [P] and at [P.old]
    is still there: the call wrote [P.new], ran the probe and removed
    [P.new], nothing else.  The probe is taken to leave the three paths
    alone, and [P.new] not to be a link when the update starts. *)
Theorem C4_failed_probe_discards_new_binary
        (data : string) (fs : FS) (r : option string) (w' : World) (out : string) :
  Update env P data (fresh fs) = (r, w') ->
  In (EvExec [Pnew; "version"] false out) (trace w') ->
  probeSpares P -> probeSpares Pnew -> probeSpares Pold ->
  isSymlink (fs !! Pnew) = false ->
  (exists e, r = Some (wrap "validate binary" e)) /\
  trace w' = [EvMkdirAll (Filepath.Dir Pnew) true; EvWrite Pnew data true;
              EvExec [Pnew; "version"] false out; EvRemove Pnew true] /\
  disk w' !! Pnew = None /\
  (forall n, fs !! P = Some n -> disk w' !! P = Some n) /\
  (forall n, fs !! Pold = Some n -> disk w' !! Pold = Some n).
Proof using Type.
  destruct paths_distinct as (Hpn & Hpo & Hno).
  intros HU Hin HqP HqN HqO HN. revert HU.
  unfold Update, writeNewBinary.
  mstep. step_case Hstep; [not_in_log Hin|].
  mstep. step_case Hstep; [not_in_log Hin|].
  pose proof (mkdirAll_plain _ _ _ Pnew Hf HN) as HN0.
  destruct (writeFile_plain _ _ _ _ _ HN0 Hf0) as [m ->]. clear Hf0.
  assert (Hkeep : forall q n, q <> Pnew -> fs !! q = Some n ->
                    (<[Pnew:=File data m]> fs0) !! q = Some n).
  { intros q n Hq Hn. rewrite lookup_insert_ne by congruence.
    destruct (mkdirAll_lookup _ _ _ q Hf) as [->|[E _]]; congruence. }
  assert (Hstat : Stat (<[Pnew:=File data m]> fs0) Pnew = Some (File data m)).
  { rewrite Stat_plain; rewrite lookup_insert_eq; reflexivity. }
  unfold validateBinary. mstep. stat_case Hstep. rewrite Hstat.
  destruct m; [|not_in_log Hin].
  mstep. unfold ExecTimeout in Hstep. injection Hstep as <- <-. simpl.
  set (fs1 := <[Pnew:=File data true]> fs0) in *.
  set (o := spawn env [Pnew; "version"] fs1).
  assert (Hfail : forall e tr,
             tr = [EvMkdirAll (Filepath.Dir Pnew) true; EvWrite Pnew data true;
                   EvExec [Pnew; "version"] false (output o)] ->
             (let* err := ret (Some e) in
              match err with
              | Some e0 => let* _ := Remove Pnew in ret (Some (wrap "validate binary" e0))
              | None =>
                  let* err1 := atomicReplace P Pnew Pold in
                  match err1 with
                  | Some e0 => let* _ := Remove Pnew in ret (Some (wrap "atomic replace" e0))
                  | None => ret None
                  end
              end) {| disk := after o; trace := tr |} = (r, w') ->
             (exists e, r = Some (wrap "validate binary" e)) /\
             trace w' = [EvMkdirAll (Filepath.Dir Pnew) true; EvWrite Pnew data true;
                         EvExec [Pnew; "version"] false out; EvRemove Pnew true] /\
             disk w' !! Pnew = None /\
             (forall n, fs !! P = Some n -> disk w' !! P = Some n) /\
             (forall n, fs !! Pold = Some n -> disk w' !! Pold = Some n)).
  { intros e tr ->. mstep.
    assert (HaN : after o !! Pnew = Some (File data true)).
    { unfold o. rewrite HqN. apply lookup_insert_eq. }
    unfold Remove, step in Hstep. cbn beta iota delta [disk trace] in Hstep.
    unfold remove in Hstep. rewrite HaN in Hstep. injection Hstep as <- <-.
    intros H. cbv [ret] in H. injection H as <- <-. simpl in Hin |- *. inlog.
    injection Hin as <-.
    split; [eauto|]. split; [reflexivity|]. split; [apply lookup_delete_eq|].
    split; intros n Hn; rewrite lookup_delete_ne by congruence; unfold o.
    - rewrite HqP. apply Hkeep; congruence.
    - rewrite HqO. apply Hkeep; congruence. }
  destruct (slow o) eqn:Hslow.
  { rewrite andb_false_r. now apply Hfail. }
  destruct (exit_ok o) eqn:Hok.
  2:{ now apply Hfail. }
  unfold atomicReplace. simpl andb. not_in_log Hin.
Qed.

End Facts.
End UpdateFacts.


Module UpdateExamples.
Import Strs OS Sys Update UpdateFacts Scenario.
Local Open Scope list_scope.

Definition self : string := "/usr/local/bin/shipyard".
Definition installed : FS := <[self := File "v1" true]> (<["/usr/local/bin" := Directory]> ∅).

(** The uploaded binary exits non-zero on [version]. *)
Definition envBrokenBinary : Env :=
  {| spawn := fun argv fs =>
       match argv with
       | [_; "version"] => Outcome false "" false fs
       | _ => Outcome true "" false fs
       end |}.

Definition updated : World := (Update envOK self "v2" (fresh installed)).2.
Definition rolledBack : World := (Rollback self updated).2.

Example update_installs_and_backs_up :
  disk updated !! self = Some (File "v2" true) /\
  disk updated !! (self ++ ".old")%string = Some (File "v1" true).
Proof. vm_compute. split; reflexivity. Qed.

Lemma C3_witness :
  disk rolledBack !! self = Some (File "v1" true) /\
  disk rolledBack !! "/usr/local/bin/shipyard.new" = None /\
  disk rolledBack !! "/usr/local/bin/shipyard.old" = None.
Proof.
  apply (C3_update_then_rollback_restores_binary envOK self "v2" "v1" true
           installed updated rolledBack).
  - vm_compute. reflexivity.
  - vm_compute. reflexivity.
  - intros fs0. reflexivity.
  - intros fs0. reflexivity.
  - intros fs0. reflexivity.
  - vm_compute. reflexivity.
  - vm_compute. reflexivity.
Defined.

Definition rejected := Update envBrokenBinary self "junk" (fresh installed).

Lemma C4_witness :
  (exists e, rejected.1 = Some (wrap "validate binary" e)) /\
  trace rejected.2 =
    [EvMkdirAll "/usr/local/bin" true;
     EvWrite "/usr/local/bin/shipyard.new" "junk" true;
     EvExec ["/usr/local/bin/shipyard.new"; "version"] false "";
     EvRemove "/usr/local/bin/shipyard.new" true] /\
  disk rejected.2 !! "/usr/local/bin/shipyard.new" = None /\
  disk rejected.2 !! self = Some (File "v1" true).
Proof.
  destruct (C4_failed_probe_discards_new_binary envBrokenBinary self "junk" installed
              rejected.1 rejected.2 "") as (H1 & H2 & H3 & H4 & _).
  - exact (surjective_pairing rejected).
  - vm_compute. auto 10.
  - intros fs0. reflexivity.
  - intros fs0. reflexivity.
  - intros fs0. reflexivity.
  - vm_compute. reflexivity.
  - split; [exact H1|]. split; [exact H2|]. split; [exact H3|].
    apply H4. vm_compute. reflexivity.
Defined.

End UpdateExamples.

(** ** Site creation and the TLS bootstrap *)
Module SiteCreateFacts.
Import Strs OS Sys Config Nginx Ssl Registry Server OSFacts SysFacts NginxFacts.
Local Open Scope list_scope.

Ltac unfold_cmds H ::= unfold testCmd, reloadCmd, certbotCmd in H.

Ltac stat_case H := unfold StatM, LstatM in H; injection H as <- <-; simpl in *.



Section Facts.
Variable env : Env.
Variable GenerateHTTPOnlyConfig : string -> string.
Variable cfg : Config.
Variable domain : string.

Abbreviation avail := (availablePath cfg domain).
Abbreviation enabled := (enabledPath cfg domain).
Abbreviation acmeDir := (Filepath.Join [AcmeWebroot; ".well-known"; "acme-challenge"]).










End Facts.

Section Tail.
Variable env : Env.
Variable encode : Config -> string.
Variable quote : string -> string.
Variable GenerateOverrideConf : Config -> string.





End Tail.
Section Create.
Variable env : Env.
Variable encode : Config -> string.
Variable quote : string -> string.
Variable GenerateOverrideConf : Config -> string.
Variable GenerateHTTPOnlyConfig : string -> string.
Variable GenerateBackendProxyConfig : string -> Z -> string -> string.
Variable GenerateBackendProxyConfigHTTPS : string -> Z -> string -> string -> string -> string.
Variable GenerateSiteCombinedConfig : string -> string -> Z -> string -> string.
Variable GenerateSiteCombinedConfigHTTPS :
  string -> string -> Z -> string -> string -> string -> string.
Variable NextJailIP : Config -> string.
Variable GenerateAPIKey : option string.

Abbreviation create :=
  (SiteCreate env encode quote GenerateOverrideConf GenerateHTTPOnlyConfig
     GenerateBackendProxyConfig GenerateBackendProxyConfigHTTPS
     GenerateSiteCombinedConfig GenerateSiteCombinedConfigHTTPS
     NextJailIP GenerateAPIKey).






End Create.
End SiteCreateFacts.
Module SiteCreateExamples.
Import Strs OS Sys Config Ssl Nginx Server SiteCreateFacts NginxFacts Scenario.
Local Open Scope list_scope.

(** The ACME client cannot complete the challenge; everything else
    exits zero; no subprocess touches the disk. *)
Definition envAcmeDown : Env :=
  {| spawn := fun argv fs =>
       match argv with
       | "certbot" :: _ => Outcome false "Challenge failed for domain c.example.com" false fs
       | _ => Outcome true "" false fs
       end |}.

Definition wanted : SiteCreateRequest :=
  {| Domain := "c.example.com"; ReqFrontendRoot := ""; ReqSSLEnabled := true;
     WithBackend := false; BackendPort := 0; ReqProxyPath := "" |}.

Definition refused : Response * Config * World :=
  SiteCreate envAcmeDown (fun _ => "# shipyard.toml") quoted override0 httpOnly0
             (fun _ _ _ => "") (fun _ _ _ _ _ => "") (fun _ _ _ _ => "")
             (fun _ _ _ _ _ _ => "") (fun _ => "127.0.1.2") (Some "sk-site-89ab")
             cfg0 (Some wanted) (fresh ∅).

Lemma eta3 {A B C : Type} (x : A * B * C) : x = (x.1.1, x.1.2, x.2).
Proof. destruct x as [[a b] c]. reflexivity. Qed.

Example acme_failure_response :
  status refused.1.1 = StatusInternalServerError /\
  disk refused.2 !! "/usr/local/etc/nginx/sites-enabled/c.example.com.conf" = None /\
  disk refused.2 !! "/usr/local/etc/nginx/sites-available/c.example.com.conf" = None.
Proof. vm_compute. repeat split; reflexivity. Qed.


End SiteCreateExamples.

(** ** Frontend deployment: the [latest] pointer *)
Module DeployFacts.
Import Strs OS Sys Config Deploy Server FilepathFacts OSFacts SysFacts.
Local Open Scope list_scope.

Definition latestPath (root : string) : string := Filepath.Join [root; "latest"].
Definition tmpPath (root : string) : string := Filepath.Join [root; "latest.tmp"].








Lemma elems_Join_normal (root x : string) :
  normal x -> Filepath.elems (Filepath.Join [root; x]) = Filepath.elems root ++ [x].
Proof.
  intros Hx. destruct (String.eqb_spec root "") as [->|Hr].
  - rewrite Join_skip, Join_cons by apply Hx. cbn [Strs.Join]. rewrite Clean_elems.
    unfold Filepath.elems. rewrite SplitSlash_single by apply Hx.
    rewrite (fold_normals _ [x]) by (constructor; [assumption|constructor]). reflexivity.
  - rewrite Join_cons by assumption. cbn [Strs.Join]. rewrite Clean_elems.
    apply (elems_join_normals root [x] Hr). constructor; [assumption|constructor].
Qed.

Lemma tmp_not_latest (root : string) : tmpPath root <> latestPath root.
Proof.
  unfold tmpPath, latestPath. intros E. apply (f_equal Filepath.elems) in E.
  rewrite !elems_Join_normal in E by (repeat split; discriminate).
  apply app_inv_head in E. discriminate.
Qed.



(** *** The commit directory during the promotion *)

(** The pieces between the slashes of a cleaned path under [root]. *)
Definition base (root : string) : list string :=
  (if Filepath.IsAbs root then [""] else []) ++ Filepath.elems root.












Definition indexPath (root commit sub : string) : string :=
  Filepath.Join [Filepath.Join [Filepath.Join [root; commit]; sub]; "index.html"].







(** ** Frontend deployment: unpacking the archive *)

(** The test of [extractZipEntry]: the cleaned name begins with [..],
    is absolute, or the joined target has no relative path from the
    directory or one that begins with [..]. *)
Definition offending (targetDir : string) (f : ZipEntry) : bool :=
  let cleanPath := Filepath.Clean (Name f) in
  HasPrefix cleanPath ".." || Filepath.IsAbs cleanPath ||
  match Filepath.Rel targetDir (Filepath.Join [targetDir; cleanPath]) with
  | None => true
  | Some rel => HasPrefix rel ".."
  end.

(** A node that is as it was, or a directory made where nothing was. *)
Definition grown (before after : option node) : Prop :=
  after = before \/ (before = None /\ after = Some Directory).

Definition noLinksInside (targetDir : string) (fs : FS) : Prop :=
  forall k t, fs !! k = Some (Link t) -> Filepath.inside targetDir k = false.

(** What unpacking may do: make directories, and write files at paths
    inside the directory. *)
Definition unpacks (targetDir : string) (e : event) : Prop :=
  match e with
  | EvMkdirAll _ _ => True
  | EvWrite p _ _ => Filepath.inside targetDir p = true
  | _ => False
  end.

Lemma grown_refl (a : option node) : grown a a.
Proof. now left. Qed.

Lemma grown_trans (a b c : option node) : grown a b -> grown b c -> grown a c.
Proof.
  unfold grown. intros [->|[-> ->]] [->|[E ->]]; auto; discriminate.
Qed.

Lemma MkdirAll_spec (p : string) (w w' : World) (r : option string) :
  MkdirAll p w = (r, w') ->
  (exists ok, trace w' = trace w ++ [EvMkdirAll p ok]) /\
  (forall k, grown (disk w !! k) (disk w' !! k)) /\
  (forall k t, disk w' !! k = Some (Link t) <-> disk w !! k = Some (Link t)).
Proof.
  intros H. unfold MkdirAll in H. apply step_inv in H as [(e & Hf & -> & ->)|(fs' & Hf & -> & ->)];
    cbn [disk trace].
  - split; [eauto|]. split; [intros k; apply grown_refl|tauto].
  - split; [eauto|]. split.
    + intros k. destruct (mkdirAll_lookup _ _ _ k Hf) as [E|[E1 E2]]; [now left|now right].
    + intros k t. now apply mkdirAll_symlinks with (p := p).
Qed.

Lemma WriteFile_spec (p data : string) (x : bool) (w w' : World) (r : option string) :
  WriteFile p data x w = (r, w') -> isSymlink (disk w !! p) = false ->
  (exists ok, trace w' = trace w ++ [EvWrite p data ok]) /\
  (forall k, k <> p -> disk w' !! k = disk w !! k) /\
  (forall k t, disk w' !! k = Some (Link t) <-> disk w !! k = Some (Link t)).
Proof.
  intros H Hp. unfold WriteFile in H.
  apply step_inv in H as [(e & Hf & -> & ->)|(fs' & Hf & -> & ->)]; cbn [disk trace].
  - split; [eauto|]. split; [reflexivity|tauto].
  - split; [eauto|]. split.
    + intros k Hk. destruct (writeFile_plain _ _ _ _ _ Hp Hf) as [m ->].
      now rewrite lookup_insert_ne.
    + intros k t. now apply writeFile_symlinks with (p := p) (data := data) (x := x).
Qed.

Lemma not_offending_inside (targetDir : string) (f : ZipEntry) :
  offending targetDir f = false ->
  Filepath.inside targetDir (Filepath.Join [targetDir; Filepath.Clean (Name f)]) = true.
Proof.
  unfold offending. intros H.
  apply orb_false_iff in H as [H _]. apply orb_false_iff in H as [Hdots Habs].
  now apply guard_inside.
Qed.

(** One entry: an offending one is refused before anything is done; any
    other touches the disk only inside the directory, apart from making
    directories that were missing. *)
Lemma extractZipEntry_spec (f : ZipEntry) (targetDir : string) (w w' : World)
      (r : option string) :
  extractZipEntry f targetDir w = (r, w') ->
  noLinksInside targetDir (disk w) ->
  noLinksInside targetDir (disk w') /\
  (forall k, Filepath.inside targetDir k = false -> grown (disk w !! k) (disk w' !! k)) /\
  (exists evs, trace w' = trace w ++ evs /\ Forall (unpacks targetDir) evs) /\
  (offending targetDir f = true -> r = Some (zipSlip (Name f)) /\ w' = w).
Proof.
  intros Hrun Hlinks.
  assert (Hrefuse : forall e : string,
             ret (Some e) w = (r, w') -> e = zipSlip (Name f) ->
             noLinksInside targetDir (disk w') /\
             (forall k, Filepath.inside targetDir k = false ->
                        grown (disk w !! k) (disk w' !! k)) /\
             (exists evs, trace w' = trace w ++ evs /\ Forall (unpacks targetDir) evs) /\
             (offending targetDir f = true -> r = Some (zipSlip (Name f)) /\ w' = w)).
  { intros e H ->. cbv [ret] in H. injection H as <- <-.
    split; [exact Hlinks|]. split; [intros k _; apply grown_refl|].
    split; [exists []; split; [now rewrite app_nil_r|constructor]|]. auto. }
  pose proof (not_offending_inside targetDir f) as Hinside.
  unfold extractZipEntry in Hrun. unfold offending in *.
  destruct (HasPrefix (Filepath.Clean (Name f)) ".." || Filepath.IsAbs (Filepath.Clean (Name f)));
    [now apply (Hrefuse _ Hrun)|].
  cbn [orb] in *.
  destruct (Filepath.Rel targetDir (Filepath.Join [targetDir; Filepath.Clean (Name f)]))
    as [rel|]; [|now apply (Hrefuse _ Hrun)].
  destruct (HasPrefix rel ".."); [now apply (Hrefuse _ Hrun)|].
  specialize (Hinside eq_refl).
  set (fullPath := Filepath.Join [targetDir; Filepath.Clean (Name f)]) in *.
  assert (Hlast : forall (w1 : World) (q : option string) (evs : list event),
             ret q w1 = (r, w') ->
             noLinksInside targetDir (disk w1) ->
             (forall k, Filepath.inside targetDir k = false ->
                        grown (disk w !! k) (disk w1 !! k)) ->
             trace w1 = trace w ++ evs -> Forall (unpacks targetDir) evs ->
             noLinksInside targetDir (disk w') /\
             (forall k, Filepath.inside targetDir k = false ->
                        grown (disk w !! k) (disk w' !! k)) /\
             (exists evs, trace w' = trace w ++ evs /\ Forall (unpacks targetDir) evs) /\
             (false = true -> r = Some (zipSlip (Name f)) /\ w' = w)).
  { intros w1 q evs H H1 H2 H3 H4. cbv [ret] in H. injection H as <- <-.
    split; [exact H1|]. split; [exact H2|]. split; [eauto|discriminate]. }
  assert (Hmk : forall (p : string) (w1 : World) (e : option string),
             MkdirAll p w = (e, w1) ->
             noLinksInside targetDir (disk w1) /\
             (forall k, Filepath.inside targetDir k = false ->
                        grown (disk w !! k) (disk w1 !! k)) /\
             exists ok, trace w1 = trace w ++ [EvMkdirAll p ok]).
  { intros p w1 e H. apply MkdirAll_spec in H as (Hev & Hgrow & Hsame).
    split; [|split; [intros k _; apply Hgrow|exact Hev]].
    intros k t Hk. apply Hsame in Hk. now apply (Hlinks k t). }
  destruct (IsDir f).
  - unfold bind in Hrun. destruct (MkdirAll fullPath w) as [e w1] eqn:Hstep.
    destruct (Hmk _ _ _ Hstep) as (H1 & H2 & ok & H3).
    destruct e; apply (Hlast _ _ _ Hrun H1 H2 H3); repeat constructor.
  - unfold bind at 1 in Hrun.
    destruct (MkdirAll (Filepath.Dir fullPath) w) as [e w1] eqn:Hstep.
    destruct (Hmk _ _ _ Hstep) as (H1 & H2 & ok & H3).
    destruct e as [e|]; [apply (Hlast _ _ _ Hrun H1 H2 H3); repeat constructor|].
    assert (Hwr : forall (data : string) (w2 : World) (e : option string),
               WriteFile fullPath data false w1 = (e, w2) ->
               noLinksInside targetDir (disk w2) /\
               (forall k, Filepath.inside targetDir k = false ->
                          grown (disk w !! k) (disk w2 !! k)) /\
               exists ok', trace w2 = trace w ++ [EvMkdirAll (Filepath.Dir fullPath) ok;
                                                  EvWrite fullPath data ok']).
    { intros data w2 e H.
      assert (Hplain : isSymlink (disk w1 !! fullPath) = false).
      { destruct (disk w1 !! fullPath) as [[]|] eqn:E; try reflexivity.
        apply H1 in E. congruence. }
      apply (WriteFile_spec _ _ _ _ _ _) in H as ([ok' Hev] & Hother & Hsame); [|exact Hplain].
      split; [|split].
      - intros k t Hk. apply Hsame in Hk. now apply (H1 k t).
      - intros k Hk. rewrite Hother by congruence. now apply H2.
      - exists ok'. rewrite Hev, H3, <- app_assoc. reflexivity. }
    destruct (Payload f) as [|written|data].
    + apply (Hlast _ _ _ Hrun H1 H2 H3); repeat constructor.
    + unfold bind in Hrun. destruct (WriteFile fullPath written false w1) as [e w2] eqn:Hw.
      destruct (Hwr _ _ _ Hw) as (H1' & H2' & ok' & H3').
      destruct e; apply (Hlast _ _ _ Hrun H1' H2' H3'); repeat constructor; exact Hinside.
    + unfold bind in Hrun. destruct (WriteFile fullPath data false w1) as [e w2] eqn:Hw.
      destruct (Hwr _ _ _ Hw) as (H1' & H2' & ok' & H3').
      destruct e; apply (Hlast _ _ _ Hrun H1' H2' H3'); repeat constructor; exact Hinside.
Qed.

(** The loop: it stays inside the directory, and it cannot get past an
    offending entry. *)
Lemma extractEntries_spec (files : list ZipEntry) (targetDir : string) (w w' : World)
      (r : option string) :
  extractEntries files targetDir w = (r, w') ->
  noLinksInside targetDir (disk w) ->
  noLinksInside targetDir (disk w') /\
  (forall k, Filepath.inside targetDir k = false -> grown (disk w !! k) (disk w' !! k)) /\
  (exists evs, trace w' = trace w ++ evs /\ Forall (unpacks targetDir) evs) /\
  (r = None -> Forall (fun f => offending targetDir f = false) files).
Proof.
  revert w. induction files as [|f rest IH]; intros w Hrun Hlinks; cbn [extractEntries] in Hrun.
  - cbv [ret] in Hrun. injection Hrun as <- <-.
    split; [exact Hlinks|]. split; [intros k _; apply grown_refl|].
    split; [exists []; split; [now rewrite app_nil_r|constructor]|constructor].
  - unfold bind in Hrun. destruct (extractZipEntry f targetDir w) as [e w1] eqn:Hentry.
    destruct (extractZipEntry_spec _ _ _ _ _ Hentry Hlinks)
      as (H1 & H2 & (evs & H3 & H4) & H5).
    destruct e as [e|].
    + cbv [ret] in Hrun. injection Hrun as <- <-.
      split; [exact H1|]. split; [exact H2|]. split; [eauto|discriminate].
    + destruct (IH _ Hrun H1) as (H1' & H2' & (evs' & H3' & H4') & H5').
      split; [exact H1'|]. split; [|split].
      * intros k Hk. eapply grown_trans; [apply H2|apply H2']; exact Hk.
      * exists (evs ++ evs'). split; [now rewrite H3', H3, app_assoc|].
        apply Forall_app. split; assumption.
      * intros Hr. constructor; [|now apply H5'].
        destruct (offending targetDir f) eqn:E; [|reflexivity].
        destruct (H5 eq_refl) as [? _]. discriminate.
Qed.

Lemma extractZipEntry_refuses (f : ZipEntry) (targetDir : string) (w w' : World)
      (r : option string) :
  extractZipEntry f targetDir w = (r, w') -> offending targetDir f = true ->
  r = Some (zipSlip (Name f)) /\ w' = w.
Proof.
  unfold extractZipEntry, offending.
  destruct (HasPrefix _ ".." || Filepath.IsAbs _);
    [cbv [ret]; intros H; injection H as <- <-; auto|].
  cbn [orb].
  destruct (Filepath.Rel _ _) as [rel|];
    [|cbv [ret]; intros H; injection H as <- <-; auto].
  intros H Hf. rewrite Hf in H. cbv [ret] in H. injection H as <- <-. auto.
Qed.

(** When the entries in front of an offending one unpack without error,
    the loop stops at it with the zip-slip error and does no more. *)
Lemma extractEntries_stops (pre post : list ZipEntry) (f : ZipEntry) (targetDir : string)
      (w w1 : World) :
  extractEntries pre targetDir w = (None, w1) ->
  offending targetDir f = true ->
  extractEntries (pre ++ f :: post) targetDir w = (Some (zipSlip (Name f)), w1).
Proof.
  revert w. induction pre as [|g pre IH]; intros w Hpre Hf.
  - cbv [extractEntries ret] in Hpre. injection Hpre as <-.
    cbn [app extractEntries]. unfold bind.
    destruct (extractZipEntry f targetDir w) as [e w2] eqn:Hentry.
    destruct (extractZipEntry_refuses _ _ _ _ _ Hentry Hf) as [-> ->]. reflexivity.
  - cbn [app extractEntries] in *. unfold bind in *.
    destruct (extractZipEntry g targetDir w) as [e w2].
    destruct e as [e|]; [discriminate|]. now apply IH.
Qed.

(** The loop never gets past an offending entry. *)
Lemma extractEntries_fails (files : list ZipEntry) (targetDir : string) (w w' : World)
      (r : option string) :
  extractEntries files targetDir w = (r, w') ->
  Exists (fun f => offending targetDir f = true) files -> exists e, r = Some e.
Proof.
  revert w. induction files as [|f rest IH]; intros w Hrun Hex.
  - inversion Hex.
  - cbn [extractEntries] in Hrun. unfold bind in Hrun.
    destruct (extractZipEntry f targetDir w) as [e w1] eqn:Hentry.
    destruct e as [e|]; [cbv [ret] in Hrun; injection Hrun as <- <-; eauto|].
    inversion Hex as [? ? Hf|? ? Hrest]; subst.
    + destruct (extractZipEntry_refuses _ _ _ _ _ Hentry Hf) as [? _]. discriminate.
    + now apply (IH w1).
Qed.

(** C2, as the code has it.  Extraction of an archive that contains an
    offending entry (cleaned name absolute or beginning with [..], or
    joined target without a relative path below the directory) always
    fails.  The error is [zip slip detected: <name>] for an offending
    entry whenever the entries in front of it unpack without error, and
    then nothing is done for it or after it; an earlier entry that fails
    to unpack stops the extraction with its own error.  With no
    symbolic link at or below the directory beforehand, every file
    write is issued at a path inside the directory, and every path
    outside it is as it was, or a directory made where nothing was. *)
Theorem C2_zip_slip_refused_and_contained
        (files : list ZipEntry) (targetDir : string) (fs : FS)
        (r : option string) (w' : World) :
  extractZip (Some files) targetDir (fresh fs) = (r, w') ->
  Exists (fun f => offending targetDir f = true) files ->
  (exists e, r = Some e) /\
  (forall pre f post w1,
      files = pre ++ f :: post -> offending targetDir f = true ->
      extractEntries pre targetDir (fresh fs) = (None, w1) ->
      r = Some ("zip slip detected: " +:+ Name f)%string /\ w' = w1) /\
  (noLinksInside targetDir fs ->
   Forall (unpacks targetDir) (trace w') /\
   forall k, Filepath.inside targetDir k = false -> grown (fs !! k) (disk w' !! k)).
Proof.
  cbn [extractZip]. intros Hrun Hex.
  split; [now apply (extractEntries_fails _ _ _ _ _ Hrun)|]. split.
  - intros pre f post w1 -> Hf Hpre.
    rewrite (extractEntries_stops _ post _ _ _ _ Hpre Hf) in Hrun.
    injection Hrun as <- <-. auto.
  - intros Hlinks.
    destruct (extractEntries_spec _ _ _ _ _ Hrun Hlinks) as (_ & Hgrow & (evs & Htr & Hev) & _).
    split; [now rewrite Htr|exact Hgrow].
Qed.

End DeployFacts.

Module DeployExamples.
Import Strs OS Sys Config Deploy DeployFacts Scenario.
Local Open Scope list_scope.

Example rel_samples :
  map (fun bt => Filepath.Rel (fst bt) (snd bt))
      [("a/b", "a/b"); ("ab/cd", "ab/cde"); ("a/b", "a/b/c/d"); ("a/b/c", "a/c/d");
       ("a/b/c/d", "a/b"); ("/a/b", "/a/b/c"); (".", "a/b"); ("..", "a"); ("a", "/a");
       ("/", "/a"); ("../../a/b", "../../a/b/c/d")]
  = [Some "."; Some "../cde"; Some "c/d"; Some "../../c/d"; Some "../.."; Some "c";
     Some "a/b"; None; None; Some "a"; Some "c/d"]%string.
Proof. vm_compute. reflexivity. Qed.

Definition file (name data : string) : ZipEntry :=
  {| Name := name; IsDir := false; Payload := Intact data |}.

Definition deploy0 :=
  Deploy envOK cfg0 override0 (fun c _ _ _ => c) "User-agent: *"
         (fun _ _ _ _ => "") (fun _ _ _ _ _ _ => "").

Definition built : list ZipEntry :=
  [file "dist/index.html" "<html>"; file "dist/app.js" "js"].

Definition shipped : World :=
  (deploy0 "a.example.com" "deadbee" (Some built) "server { }" true (fresh ∅)).2.

Example build_subdir_detected :
  disk shipped !! "/var/www/a.example.com/latest" = Some (Link "deadbee/dist") /\
  disk shipped !! "/var/www/a.example.com/deadbee/dist/index.html"
  = Some (File "<html>" false) /\
  disk shipped !! "/var/www/a.example.com/latest.tmp" = None.
Proof. vm_compute. repeat split; reflexivity. Qed.

Definition slipped :=
  deploy0 "a.example.com" "deadbee" (Some [file "../etc/passwd" "x"]) "server { }" true
          (fresh ∅).

Example zip_slip_rejected :
  slipped.1 = (false, "", Some "extract zip: zip slip detected: ../etc/passwd")%string.
Proof. vm_compute. reflexivity. Qed.

(** A commit unpacked with two candidate sub-directories, next to the
    pointer of the previous deployment. *)
Definition www : string := "/var/www/a.example.com".
Definition unpacked : FS :=
  <[(www ++ "/cafe123/public/index.html")%string := File "<p>" false]>
    (<[(www ++ "/cafe123/build/index.html")%string := File "<b>" false]>
       (<[(www ++ "/latest")%string := Link "deadbee/dist"]> ∅)).

Definition promotion := updateLatestSymlink www "cafe123" (fresh unpacked).

Example build_wins_over_public :
  promotion.1 = None /\
  disk promotion.2 !! (www ++ "/latest")%string = Some (Link "cafe123/build") /\
  trace promotion.2 =
    [EvRemove (www ++ "/latest.tmp")%string false;
     EvSymlink "cafe123/build" (www ++ "/latest.tmp")%string true;
     EvRename (www ++ "/latest.tmp")%string (www ++ "/latest")%string true].
Proof. vm_compute. repeat split; reflexivity. Qed.





(** The same through the deployer: the upload is reported as deployed,
    and nothing of it is left on disk. *)
Example deploy_under_the_id_latest :
  let run := deploy0 "a.example.com" "latest" (Some built) "server { }" true (fresh ∅) in
  run.1 = (true, "", None) /\
  disk run.2 !! (www ++ "/latest")%string = Some (Link "latest") /\
  disk run.2 !! (www ++ "/latest/dist/index.html")%string = None.
Proof. vm_compute. repeat split; reflexivity. Qed.

(** An archive whose second entry cannot be unpacked, in front of an
    entry that climbs out of the commit directory. *)
Definition commitDir0 : string := "/var/www/a.example.com/deadbee".
Definition masked : list ZipEntry :=
  [file "a" "1"; file "a/b" "2"; file "../x" "3"].

Example the_last_entry_offends :
  map (offending commitDir0) masked = [false; false; true].
Proof. vm_compute. reflexivity. Qed.

Example deploy_of_masked :
  (deploy0 "a.example.com" "deadbee" (Some masked) "server { }" true (fresh ∅)).1
  = (false, "",
     Some "extract zip: mkdir parent: mkdir /var/www/a.example.com/deadbee/a: not a directory")%string.
Proof. vm_compute. reflexivity. Qed.

(** C2 fails as stated: this archive contains an entry that climbs out
    of the commit directory, and its extraction fails with the error of
    the entry in front of it, which does not mention zip slip. *)
Lemma C2_earlier_failure_hides_zip_slip :
  let run := extractZip (Some masked) commitDir0 (fresh ∅) in
  Exists (fun f => offending commitDir0 f = true) masked /\
  run.1 = Some "mkdir parent: mkdir /var/www/a.example.com/deadbee/a: not a directory"%string /\
  (fun e => Contains e "zip slip") <$> run.1 = Some false.
Proof.
  cbv zeta. split; [|vm_compute; split; reflexivity].
  apply Exists_cons_tl, Exists_cons_tl, Exists_cons_hd. vm_compute. reflexivity.
Qed.

Definition climbing : list ZipEntry := [file "index.html" "<html>"; file "../x" "3"].
Definition unpack := extractZip (Some climbing) commitDir0 (fresh ∅).

Lemma C2_witness :
  unpack.1 = Some "zip slip detected: ../x"%string /\
  trace unpack.2 = [EvMkdirAll commitDir0 true;
                    EvWrite (commitDir0 ++ "/index.html")%string "<html>" true] /\
  Forall (unpacks commitDir0) (trace unpack.2) /\
  grown ((∅ : FS) !! "/var/www/a.example.com/x"%string)
        (disk unpack.2 !! "/var/www/a.example.com/x"%string).
Proof.
  destruct (C2_zip_slip_refused_and_contained climbing commitDir0 ∅ unpack.1 unpack.2)
    as (_ & Hslip & Hin).
  - exact (surjective_pairing unpack).
  - apply Exists_cons_tl, Exists_cons_hd. vm_compute. reflexivity.
  - destruct (Hslip [file "index.html" "<html>"] (file "../x" "3") []
                    (extractEntries [file "index.html" "<html>"] commitDir0 (fresh ∅)).2)
      as [Hr Hw].
    + reflexivity.
    + vm_compute. reflexivity.
    + vm_compute. reflexivity.
    + split; [exact Hr|]. split; [rewrite Hw; vm_compute; reflexivity|].
      destruct Hin as [Hev Hout].
      * intros k t Hk. rewrite lookup_empty in Hk. discriminate.
      * split; [exact Hev|]. apply Hout. vm_compute. reflexivity.
Defined.

End DeployExamples.

(** ** The HTTP surface: credentials and refusals *)
Module ApiFacts.
Import Strs OS Sys Config Server ServerFacts FilepathFacts.
Local Open Scope list_scope.

(** The admin routes let a request through exactly when its key is
    one of the admin keys; a missing key is answered 401
    [missing_auth], any other key 401 [invalid_key].  A site key that is
    not an admin key is of no use there. *)
Theorem AdminAuth_passes_exactly_admin_keys (cfg : Config) (c : Request) :
  (AdminAuth cfg c = Next <->
   Get c "X-Shipyard-Key" <> "" /\ In (Get c "X-Shipyard-Key") (AdminKeys cfg)) /\
  (forall r, AdminAuth cfg c = Reply r ->
             status r = 401%Z /\
             errorTag r = Some (if String.eqb (Get c "X-Shipyard-Key") ""
                                then "missing_auth" else "invalid_key")%string) /\
  Forall (fun route => routeAuth (fst route) (snd route) = Some Admin)
         [("GET", "/sites"); ("POST", "/site/create"); ("POST", "/site/init");
          ("POST", "/site/destroy"); ("GET", "/site/logs"); ("GET", "/nginx/example");
          ("POST", "/deploy/self")]%string.
Proof.
  unfold AdminAuth. split; [|split].
  - destruct (String.eqb_spec (Get c "X-Shipyard-Key") "") as [He|He].
    + split; [discriminate|]. intros [H _]. contradiction.
    + destruct (anyAdminKey _ _) eqn:Ha.
      * apply anyAdminKey_In in Ha. tauto.
      * split; [discriminate|]. intros [_ Hin]. apply anyAdminKey_In in Hin. congruence.
  - intros r. destruct (String.eqb (Get c "X-Shipyard-Key") "").
    + intros H. injection H as <-. split; reflexivity.
    + destruct (anyAdminKey _ _); [discriminate|].
      intros H. injection H as <-. split; reflexivity.
  - repeat constructor.
Qed.

(** Run a handler's decision tree down to its leaves. *)
Ltac leaves :=
  repeat match goal with
         | |- context [match ?x with _ => _ end] => destruct x
         | |- context [if ?b then _ else _] => destruct b
         end.

Ltac untouched :=
  let H := fresh in
  intros H; cbv [ret] in H; injection H as <- <-; reflexivity.

Section Handlers.
Variable cfg : Config.
Variable frontendDeploy :
  string -> string -> string -> string -> bool -> M (bool * string * option string).
Variable backendDeploy : string -> string -> string -> string -> M (option string).
Variable nginxDefaultTmpl : string -> string -> string + string.
Variable RenderUserConfig : string -> string -> Config -> string + string.

(** A deploy request that is answered 400 or 404 never reached the
    deployer: nothing was touched. *)
Theorem refused_deploys_touch_nothing (c : Request) (w : World) :
  (forall r w',
      DeployFrontend cfg frontendDeploy nginxDefaultTmpl RenderUserConfig c w = (r, w') ->
      status r = 400%Z \/ status r = 404%Z -> w' = w) /\
  (forall r w',
      DeployBackend cfg backendDeploy c w = (r, w') ->
      status r = 400%Z \/ status r = 404%Z -> w' = w).
Proof using Type.
  split; intros r w' H Hs; revert H.
  - unfold DeployFrontend. leaves; try untouched.
    all: unfold bind;
      match goal with |- context [frontendDeploy ?a ?b ?x ?y ?z ?w0] =>
        destruct (frontendDeploy a b x y z w0) as [[[ok msg] err] w1] end;
      cbv beta iota; destruct ok, err; cbv beta iota delta [ret];
      intros H; injection H as <- <-; simpl in Hs; destruct Hs; discriminate.
  - unfold DeployBackend. leaves; try untouched.
    all: unfold bind;
      match goal with |- context [backendDeploy ?a ?b ?x ?y ?w0] =>
        destruct (backendDeploy a b x y w0) as [err w1] end;
      cbv beta iota; destruct err; cbv beta iota delta [ret];
      intros H; injection H as <- <-; simpl in Hs; destruct Hs; discriminate.
Qed.

End Handlers.

(** *** Domains *)

Lemma domainInner_not_slash (c : ascii) :
  domainInner c = true -> negb (Ascii.eqb c "/") = true.
Proof. destruct c as [[] [] [] [] [] [] [] []]; vm_compute; congruence. Qed.

Lemma domainEdge_inner (c : ascii) : domainEdge c = true -> domainInner c = true.
Proof. unfold domainInner. now intros ->. Qed.

Lemma domainEdge_not_dot (c : ascii) : domainEdge c = true -> c <> "."%char.
Proof. intros H ->. vm_compute in H. discriminate. Qed.

Lemma domainTail_noSlash (s : string) : domainTail s = true -> noSlash s = true.
Proof.
  induction s as [|c s IH]; [discriminate|]. cbn [domainTail noSlash].
  destruct s as [|c' s'].
  - intros H. now rewrite (domainInner_not_slash _ (domainEdge_inner _ H)).
  - intros H. apply andb_true_iff in H as [Hc Hs].
    now rewrite (domainInner_not_slash _ Hc), IH.
Qed.

Lemma validDomain_path (domain : string) :
  validDomain domain = true ->
  normal domain /\
  Filepath.Join ["/var/www"; domain] = ("/var/www/" +:+ domain)%string.
Proof.
  intros Hv.
  assert (Hn : normal domain).
  { destruct domain as [|c s]; [discriminate|]. cbn [validDomain] in Hv.
    apply andb_true_iff in Hv as [Hc Hs].
    pose proof (domainEdge_not_dot _ Hc) as Hdot.
    repeat split; try discriminate.
    - intros E. injection E as E _. contradiction.
    - intros E. injection E as E _. contradiction.
    - cbn [noSlash]. now rewrite (domainInner_not_slash _ (domainEdge_inner _ Hc)),
                                  (domainTail_noSlash _ Hs). }
  split; [exact Hn|].
  rewrite Join_cons by discriminate. cbn [Strs.Join]. unfold Filepath.Clean.
  assert (He : Filepath.elems ("/var/www" +:+ "/" +:+ domain) = ["var"; "www"; domain]%string).
  { apply (elems_join_normals "/var/www" [domain]); [discriminate|].
    constructor; [assumption|constructor]. }
  rewrite He. reflexivity.
Qed.

(** An accepted domain is one proper path element: it is not empty, it
    is neither [.] nor [..], and it holds no slash, so the directory
    made for it lies directly under [/var/www]. *)
Theorem valid_domain_is_one_path_element (domain : string) :
  validDomain domain = true ->
  normal domain /\
  Filepath.Join ["/var/www"; domain] = ("/var/www/" +:+ domain)%string.
Proof. apply validDomain_path. Qed.

End ApiFacts.

(** ** Self-update: what a caller can rely on *)
Module UpdateMore.
Import Strs OS Sys Config Update Server OSFacts SysFacts UpdateFacts.
Local Open Scope list_scope.

Lemma Contains_skip (a s sub : string) :
  Contains s sub = true -> Contains (a +:+ s) sub = true.
Proof.
  intros H. induction a as [|x a IH]; [exact H|].
  change (Contains (String x (a +:+ s)) sub = true).
  cbn [Contains]. rewrite IH. apply orb_true_r.
Qed.

(** The error of a failed restore names it. *)
Lemma restore_failed_visible (ctx e re : string) :
  Contains (wrap ctx ("rename failed (" +:+ e +:+ ") and restore failed (" +:+ re +:+ ")"))
           "restore failed" = true.
Proof.
  unfold wrap. do 4 apply Contains_skip.
  change (") and restore failed (" +:+ re +:+ ")")%string
    with (") and " +:+ "restore failed" +:+ " (" +:+ re +:+ ")")%string.
  apply Contains_skip, StrsFacts.Contains_prefix, StrsFacts.HasPrefix_app.
Qed.

Section Facts.
Variable env : Env.
Variable P : string.

Abbreviation Pnew := (P +:+ ".new").
Abbreviation Pold := (P +:+ ".old").

(** A successful update leaves the uploaded bytes at [P], executable,
    and the file that was there before at [P.old], where [HasBackup]
    finds it; [P.new] is gone. *)
Theorem update_installs_and_keeps_backup
        (data bytes : string) (mode : bool) (fs : FS) (w1 : World) :
  Update env P data (fresh fs) = (None, w1) ->
  probeSpares env P P -> probeSpares env P Pnew -> probeSpares env P Pold ->
  fs !! P = Some (File bytes mode) ->
  isSymlink (fs !! Pnew) = false ->
  disk w1 !! P = Some (File data true) /\
  disk w1 !! Pold = Some (File bytes mode) /\
  disk w1 !! Pnew = None /\
  (HasBackup P w1).1 = true.
Proof using Type.
  intros HU HqP HqN HqO HP HN.
  destruct (Update_success env P _ _ _ _ _ HU HqP HqN HqO HP HN) as (H1 & H2 & H3).
  split; [exact H1|]. split; [exact H2|]. split; [exact H3|].
  unfold HasBackup, bind, StatM, ret. simpl.
  rewrite Stat_plain by (rewrite H2; reflexivity). now rewrite H2.
Qed.

(** [Rollback] refuses with [no backup found] exactly when [HasBackup]
    says there is none, and then it has touched nothing. *)
Theorem rollback_needs_backup (w : World) :
  ((HasBackup P w).1 = false <->
   Rollback P w = (Some ("no backup found at " +:+ Pold)%string, w)) /\
  (forall r w', Rollback P w = (r, w') -> (HasBackup P w).1 = false -> w' = w).
Proof using Type.
  clear env.
  assert (Hiff : (HasBackup P w).1 = false <->
                 Rollback P w = (Some ("no backup found at " +:+ Pold)%string, w)).
  { unfold HasBackup, Rollback, bind, StatM, ret. cbn [fst].
    destruct (Stat (disk w) Pold) as [n|] eqn:Hs.
    - split; [discriminate|]. cbv beta iota.
      unfold Remove, Rename, step.
      repeat (match goal with
              | |- context [match ?x with inl _ => _ | inr _ => _ end] => destruct x
              end; cbv beta iota); cbn [fst snd]; intros H; discriminate.
    - split; reflexivity. }
  split; [exact Hiff|]. intros r w' Hr Hb. apply Hiff in Hb. congruence.
Qed.

(** An update that fails after the new binary was written, in the
    validation or in the replacement, leaves the running binary as it
    was, and its last step is the removal of [P.new], which is gone
    when that removal succeeds.  This covers a replacement whose second
    rename fails and whose rename back succeeds; the one failure the
    updater cannot undo, where the rename back fails too and the error
    says [restore failed], is excluded.  The probe is taken to leave
    [P] alone. *)
Theorem failed_update_keeps_binary
        (data bytes : string) (mode : bool) (fs : FS) (e : string) (w' : World) :
  Update env P data (fresh fs) = (Some e, w') ->
  probeSpares env P P ->
  fs !! P = Some (File bytes mode) ->
  isSymlink (fs !! Pnew) = false ->
  HasPrefix e "write new binary: " = false ->
  Contains e "restore failed" = false ->
  disk w' !! P = Some (File bytes mode) /\
  exists pre ok, trace w' = pre ++ [EvRemove Pnew ok] /\
                 (ok = true -> disk w' !! Pnew = None).
Proof using Type.
  destruct (paths_distinct P) as (Hpn & Hpo & Hno).
  intros HU HqP HP HN Hpre Hrestore. revert HU.
  unfold Update, writeNewBinary.
  assert (Hwrite : forall (x : string) (w0 : World),
             ret (Some (wrap "write new binary" x)) w0 = (Some e, w') ->
             disk w' !! P = Some (File bytes mode) /\
             exists pre ok, trace w' = pre ++ [EvRemove Pnew ok] /\
                            (ok = true -> disk w' !! Pnew = None)).
  { intros x w0 H. cbv [ret] in H. injection H as <- <-. discriminate. }
  mstep. step_case Hstep; [mnorm; apply Hwrite|].
  mstep. step_case Hstep; [mnorm; apply Hwrite|].
  pose proof (mkdirAll_plain _ _ _ Pnew Hf HN) as HN0.
  destruct (writeFile_plain _ _ _ _ _ HN0 Hf0) as [m ->]. clear Hf0.
  assert (HP0 : fs0 !! P = Some (File bytes mode)).
  { destruct (mkdirAll_lookup _ _ _ P Hf) as [->|[E _]]; congruence. }
  assert (Hstat : Stat (<[Pnew:=File data m]> fs0) Pnew = Some (File data m)).
  { rewrite Stat_plain; rewrite lookup_insert_eq; reflexivity. }
  (* The clean-up on a disk that holds [P] as it was. *)
  assert (Hundo : forall (fs1 : FS) (tr : list event) (x : string),
             fs1 !! P = Some (File bytes mode) ->
             (let* _ := Remove Pnew in ret (Some x)) {| disk := fs1; trace := tr |}
             = (Some e, w') ->
             disk w' !! P = Some (File bytes mode) /\
             exists pre ok, trace w' = pre ++ [EvRemove Pnew ok] /\
                            (ok = true -> disk w' !! Pnew = None)).
  { intros fs1 tr x H1 H. unfold bind in H.
    destruct (Remove Pnew {| disk := fs1; trace := tr |}) as [r0 w0] eqn:Hrm.
    cbv [ret] in H. injection H as _ <-. step_case Hrm.
    - split; [exact H1|]. exists tr, false. split; [reflexivity|discriminate].
    - apply remove_inv in Hf0 as ->. rewrite lookup_delete_ne by congruence.
      split; [exact H1|]. exists tr, true. split; [reflexivity|].
      intros _. apply lookup_delete_eq. }
  unfold validateBinary. mstep. stat_case Hstep. rewrite Hstat.
  destruct m.
  2:{ mnorm. apply Hundo. now rewrite lookup_insert_ne by congruence. }
  mstep. unfold ExecTimeout in Hstep. injection Hstep as <- <-. simpl.
  set (fs1 := <[Pnew:=File data true]> fs0) in *.
  set (o := spawn env [Pnew; "version"] fs1).
  assert (H2P : after o !! P = Some (File bytes mode)).
  { unfold o. rewrite HqP. unfold fs1. now rewrite lookup_insert_ne. }
  generalize dependent (after o). intros fs2 H2P.
  destruct (slow o); [mnorm; apply Hundo; eauto|].
  destruct (exit_ok o); [|mnorm; apply Hundo; eauto].
  unfold atomicReplace. mnorm.
  match goal with
  | |- context [bind (Remove Pold) ?k ?w] =>
      unfold bind at 1; destruct (Remove Pold w) as [r0 w0] eqn:Hstep
  end.
  assert (H3P : disk w0 !! P = Some (File bytes mode)).
  { step_case Hstep; [auto|]. apply remove_inv in Hf0. subst.
    now rewrite lookup_delete_ne by congruence. }
  clear Hstep. destruct w0 as [fs3 tr3]. cbn [disk] in H3P.
  (* the backup *)
  mstep. step_case Hstep.
  { mnorm. apply Hundo; eauto. }
  apply (rename_file _ _ _ _ _ H3P) in Hf0; [subst|discriminate|exact Hpo].
  (* the replacement *)
  mstep. step_case Hstep.
  2:{ mnorm. intros H. cbv [ret] in H. discriminate. }
  (* it failed: the backup is moved back *)
  mstep. step_case Hstep.
  { mnorm. intros H. exfalso. unfold bind in H.
    destruct (Remove Pnew _) as [r1 w1]. cbv [ret] in H. injection H as <- _.
    rewrite restore_failed_visible in Hrestore. discriminate. }
  apply (rename_file _ _ _ _ (File bytes mode)) in Hf1;
    [subst|now rewrite lookup_insert_eq|discriminate|congruence].
  mnorm. apply Hundo. apply lookup_insert_eq.
Qed.
End Facts.

(** The self-update route: an empty body is refused before anything is
    touched; the restart is triggered exactly when the answer is 200;
    and a 200 means that the body is installed at the configured binary
    path, executable, with the previous binary kept at [.old]. *)
Theorem self_deploy_restarts_only_after_install
        (env : Env) (cfg : Config) (payload bytes : string) (mode : bool) (fs : FS)
        (r : Response) (restart : bool) (w' : World) :
  let P := SelfBinaryPath (Self cfg) in
  DeploySelf env cfg payload (fresh fs) = ((r, restart), w') ->
  (payload = ""%string -> status r = 400%Z /\ w' = fresh fs) /\
  (restart = true <-> status r = 200%Z) /\
  (probeSpares env P P -> probeSpares env P (P +:+ ".new") ->
   probeSpares env P (P +:+ ".old") ->
   fs !! P = Some (File bytes mode) -> isSymlink (fs !! (P +:+ ".new")) = false ->
   status r = 200%Z ->
   disk w' !! P = Some (File payload true) /\
   disk w' !! (P +:+ ".old") = Some (File bytes mode)).
Proof.
  intros P Hrun. unfold DeploySelf in Hrun. fold P in Hrun.
  destruct payload as [|c payload].
  { cbv [ret] in Hrun. cbn in Hrun. injection Hrun as <- <- <-.
    split; [auto|]. split; [split; discriminate|discriminate]. }
  cbn [String.length Nat.eqb] in Hrun. unfold bind in Hrun.
  destruct (Update env P (String c payload) (fresh fs)) as [err w1] eqn:HU.
  destruct err as [e|]; cbv [ret] in Hrun; injection Hrun as <- <- <-.
  - split; [discriminate|]. split; [split; discriminate|discriminate].
  - split; [discriminate|]. split; [split; reflexivity|].
    intros HqP HqN HqO HP HN _.
    destruct (Update_success env P _ _ _ _ _ HU HqP HqN HqO HP HN) as (H1 & H2 & _).
    auto.
Qed.

End UpdateMore.

(** ** Certificates *)
Module SslFacts.
Import Strs OS Sys Config Ssl OSFacts SysFacts.
Local Open Scope list_scope.

Lemma HasValidCert_pure (domain : string) (w : World) :
  HasValidCert domain w
  = (match Stat (disk w) (fst (CertPaths domain)), Stat (disk w) (snd (CertPaths domain)) with
     | Some _, Some _ => true
     | _, _ => false
     end, w).
Proof. reflexivity. Qed.

(** [ObtainCert] reports success only with both certificate files in
    place when it returns; when they are in place beforehand it does
    nothing at all, and otherwise the ACME client is run exactly once,
    after the challenge directory was made. *)
Theorem ObtainCert_succeeds_only_with_certificate
        (env : Env) (domain : string) (w w' : World) (r : option string) :
  ObtainCert env domain w = (r, w') ->
  (r = None -> (HasValidCert domain w').1 = true) /\
  ((HasValidCert domain w).1 = true -> r = None /\ w' = w) /\
  ((HasValidCert domain w).1 = false ->
   trace w' = trace w ++
     [EvMkdirAll (Filepath.Join [AcmeWebroot; ".well-known"; "acme-challenge"]) false] \/
   exists ok out,
     trace w' = trace w ++
       [EvMkdirAll (Filepath.Join [AcmeWebroot; ".well-known"; "acme-challenge"]) true;
        EvExec (certbotCmd domain) ok out]).
Proof.
  pose proof (HasValidCert_pure domain w) as Ew.
  destruct (match Stat (disk w) (CertPaths domain).1 with
            | Some _ => match Stat (disk w) (CertPaths domain).2 with
                        | Some _ => true
                        | None => false
                        end
            | None => false
            end) eqn:Hhave; unfold ObtainCert; unfold bind at 1; rewrite Ew; cbn [fst].
  - intros H. cbv [ret] in H. injection H as <- <-. rewrite Ew. cbn [fst].
    split; [reflexivity|]. split; [auto|discriminate].
  - 
    unfold bind at 1.
    destruct (MkdirAll _ w) as [err w1] eqn:Hmk.
    unfold MkdirAll in Hmk.
    apply step_inv in Hmk as [(e & Hf & -> & ->)|(fs' & Hf & -> & ->)].
    + intros H. cbv [ret] in H. injection H as <- <-. cbn [trace].
      split; [discriminate|]. split; [discriminate|]. auto.
    + unfold bind at 1. unfold Exec. cbn [disk trace].
      set (o := spawn env (certbotCmd domain) fs').
      destruct (exit_ok o) eqn:Hok; cbn [negb].
      * unfold bind. rewrite HasValidCert_pure. cbn [disk].
        destruct (match Stat (after o) (CertPaths domain).1 with
                  | Some _ => match Stat (after o) (CertPaths domain).2 with
                              | Some _ => true
                              | None => false
                              end
                  | None => false
                  end) eqn:Hnow; cbn [negb]; intros H; cbv [ret] in H; injection H as <- <-.
        -- rewrite HasValidCert_pure. cbn [disk fst trace]. rewrite Hnow.
           split; [reflexivity|]. split; [discriminate|]. intros _. right.
           exists true, (output o). now rewrite <- app_assoc.
        -- split; [discriminate|]. split; [discriminate|]. intros _. right.
           exists true, (output o). cbn [trace]. now rewrite <- app_assoc.
      * intros H. cbv [ret] in H. injection H as <- <-.
        split; [discriminate|]. split; [discriminate|]. intros _. right.
        exists false, (output o). cbn [trace]. now rewrite <- app_assoc.
Qed.

End SslFacts.

(** ** The proxy configurator: taking a site out *)
Module NginxRemoval.
Import Strs OS Sys Config Nginx OSFacts SysFacts NginxFacts.
Local Open Scope list_scope.

Section Facts.
Variable env : Env.
Variable GenerateOverrideConf : Config -> string.
Variable cfg : Config.
Variable siteName : string.

Abbreviation avail := (availablePath cfg siteName).
Abbreviation enabled := (enabledPath cfg siteName).
Abbreviation override := (OverrideConf (Nginx cfg)).

(** What follows the two removals in the log, and the result that goes
    with it. *)
Definition afterRemoval (r : option string) (rest : list event) : Prop :=
  (exists e, rest = [EvWrite override (GenerateOverrideConf cfg) false] /\
             r = Some (wrap "write override conf" e)) \/
  (exists out, rest = [EvWrite override (GenerateOverrideConf cfg) true;
                       EvExec (testCmd cfg) false out] /\
               r = Some ("nginx validation after removal: " +:+ TrimSpace out)%string) \/
  (exists out okr outr,
      rest = [EvWrite override (GenerateOverrideConf cfg) true;
              EvExec (testCmd cfg) true out; EvExec (reloadCmd cfg) okr outr] /\
      (r = None <-> okr = true)).

Lemma RemoveSiteConfig_spec (w w' : World) (r : option string) :
  RemoveSiteConfig env GenerateOverrideConf cfg siteName w = (r, w') ->
  (Site cfg !! siteName = None ->
   r = Some ("site not found: " +:+ siteName)%string /\ w' = w) /\
  (is_Some (Site cfg !! siteName) ->
   (exists b1 b2 rest,
       trace w' = trace w ++ [EvRemove enabled b1; EvRemove avail b2] ++ rest /\
       afterRemoval r rest) /\
   (readOnly env (testCmd cfg) -> readOnly env (reloadCmd cfg) ->
    override <> enabled -> override <> avail ->
    isSymlink (disk w !! override) = false ->
    disk w !! enabled <> Some Directory -> disk w !! avail <> Some Directory ->
    disk w' !! enabled = None /\ disk w' !! avail = None)).
Proof using Type.
  unfold RemoveSiteConfig. destruct (Site cfg !! siteName) as [sc|] eqn:Hsite.
  2:{ intros H. cbv [ret] in H. injection H as <- <-.
      split; [auto|]. intros [x Hx]. discriminate. }
  intros Hrun. split; [discriminate|]. intros _. revert Hrun.
  destruct w as [fs tr]. cbn [disk trace].
  unfold bind at 1. destruct (Remove enabled _) as [e1 w1] eqn:H1.
  unfold bind at 1. destruct (Remove avail w1) as [e2 w2] eqn:H2.
  assert (Hgone : fs !! enabled <> Some Directory -> fs !! avail <> Some Directory ->
                  disk w2 !! enabled = None /\ disk w2 !! avail = None /\
                  forall q, q <> enabled -> q <> avail -> disk w2 !! q = fs !! q).
  { intros He Ha. unfold Remove in H1, H2.
    apply step_inv in H1 as [(x1 & Hf1 & -> & ->)|(fs1 & Hf1 & -> & ->)];
      apply step_inv in H2 as [(x2 & Hf2 & -> & ->)|(fs2 & Hf2 & -> & ->)];
      cbn [disk] in *.
    - unfold remove in Hf1, Hf2.
      destruct (fs !! enabled) as [[]|]; try discriminate; try contradiction.
      destruct (fs !! avail) as [[]|]; try discriminate; try contradiction. auto.
    - apply remove_inv in Hf2 as ->. unfold remove in Hf1.
      destruct (fs !! enabled) as [[]|] eqn:E; try discriminate; try contradiction.
      split; [|split].
      + apply lookup_delete_None. now right.
      + apply lookup_delete_eq.
      + intros q _ Hq. rewrite lookup_delete_ne by congruence. reflexivity.
    - apply remove_inv in Hf1 as ->. split; [apply lookup_delete_eq|]. split.
      + unfold remove in Hf2. destruct (decide (enabled = avail)) as [E|E].
        * rewrite <- E. apply lookup_delete_eq.
        * rewrite lookup_delete_ne in Hf2 |- * by done.
          destruct (fs !! avail) as [[]|]; try discriminate; try contradiction. reflexivity.
      + intros q Hq _. rewrite lookup_delete_ne by congruence. reflexivity.
    - apply remove_inv in Hf1 as ->. apply remove_inv in Hf2 as ->.
      split; [|split].
      + apply lookup_delete_None. right. apply lookup_delete_eq.
      + apply lookup_delete_eq.
      + intros q Hq1 Hq2. rewrite !lookup_delete_ne by congruence. reflexivity. }
  assert (Htr : exists b1 b2, trace w2 = tr ++ [EvRemove enabled b1; EvRemove avail b2]).
  { unfold Remove in H1, H2.
    apply step_inv in H1 as [(x1 & Hf1 & -> & ->)|(fs1 & Hf1 & -> & ->)];
      apply step_inv in H2 as [(x2 & Hf2 & -> & ->)|(fs2 & Hf2 & -> & ->)];
      cbn [trace]; do 2 eexists; rewrite <- app_assoc; reflexivity. }
  clear H1 H2. destruct Htr as (b1 & b2 & Htr). destruct w2 as [fs2 tr2].
  cbn [disk trace] in *. subst tr2.
  assert (Hfinish : forall rest (wz : World),
             trace wz = (tr ++ [EvRemove enabled b1; EvRemove avail b2]) ++ rest ->
             afterRemoval r rest ->
             (readOnly env (testCmd cfg) -> readOnly env (reloadCmd cfg) ->
              override <> enabled -> override <> avail ->
              isSymlink (fs !! override) = false ->
              fs !! enabled <> Some Directory -> fs !! avail <> Some Directory ->
              disk wz !! enabled = None /\ disk wz !! avail = None) ->
             wz = w' ->
             (exists b1 b2 rest,
                 trace w' = tr ++ [EvRemove enabled b1; EvRemove avail b2] ++ rest /\
                 afterRemoval r rest) /\
             (readOnly env (testCmd cfg) -> readOnly env (reloadCmd cfg) ->
              override <> enabled -> override <> avail ->
              isSymlink (fs !! override) = false ->
              fs !! enabled <> Some Directory -> fs !! avail <> Some Directory ->
              disk w' !! enabled = None /\ disk w' !! avail = None)).
  { intros rest wz Hz Hafter Hstate <-. split; [|exact Hstate].
    exists b1, b2, rest. rewrite Hz, <- app_assoc. auto. }
  unfold bind at 1. destruct (WriteFile override _ _ _) as [e3 w3] eqn:H3.
  unfold WriteFile in H3.
  apply step_inv in H3 as [(x3 & Hf3 & -> & ->)|(fs3 & Hf3 & -> & ->)]; cbn [disk trace].
  { intros H. cbv [ret] in H. injection H as <- Hw.
    refine (Hfinish [EvWrite override (GenerateOverrideConf cfg) false] _ _ _ _ Hw).
    - reflexivity.
    - left. eauto.
    - intros _ _ _ _ _ He Ha. destruct (Hgone He Ha) as (? & ? & _). auto. }
  assert (Hstate3 : override <> enabled -> override <> avail ->
                    isSymlink (fs !! override) = false ->
                    fs !! enabled <> Some Directory -> fs !! avail <> Some Directory ->
                    fs3 !! enabled = None /\ fs3 !! avail = None).
  { intros Hoe Hoa Hlink He Ha. destruct (Hgone He Ha) as (G1 & G2 & G3).
    assert (Hplain : isSymlink (fs2 !! override) = false) by (rewrite G3; auto).
    destruct (writeFile_plain _ _ _ _ _ Hplain Hf3) as [m ->].
    rewrite !lookup_insert_ne by done. auto. }
  unfold ValidateAndGetError. unfold bind at 1. unfold bind at 1. unfold Exec at 1.
  cbn [disk trace ret fst snd].
  set (o := spawn env (testCmd cfg) fs3).
  destruct (exit_ok o) eqn:Hok; cbn [fst snd negb].
  - unfold bind, Exec. cbn [disk trace].
    set (o2 := spawn env (reloadCmd cfg) (after o)).
    intros H.
    assert (Hw : {| disk := after o2;
                    trace := ((tr ++ [EvRemove enabled b1; EvRemove avail b2]) ++
                              [EvWrite override (GenerateOverrideConf cfg) true]) ++
                             [EvExec (testCmd cfg) true (output o)] ++
                             [EvExec (reloadCmd cfg) (exit_ok o2) (output o2)] |} = w').
    { destruct (exit_ok o2); cbv [ret] in H; injection H as _ <-;
        rewrite <- !app_assoc; reflexivity. }
    refine (Hfinish [EvWrite override (GenerateOverrideConf cfg) true;
                     EvExec (testCmd cfg) true (output o);
                     EvExec (reloadCmd cfg) (exit_ok o2) (output o2)] _ _ _ _ Hw).
    + cbn [trace]. rewrite <- !app_assoc. reflexivity.
    + right. right. exists (output o), (exit_ok o2), (output o2).
      split; [reflexivity|].
      destruct (exit_ok o2); cbv [ret] in H; injection H as <- _; split; congruence.
    + intros Ht Hr. cbn [disk]. unfold o2, o. rewrite Hr, Ht. apply Hstate3.
  - intros H. cbv [ret] in H. injection H as <- Hw.
    refine (Hfinish [EvWrite override (GenerateOverrideConf cfg) true;
                     EvExec (testCmd cfg) false (output o)] _ _ _ _ Hw).
    + cbn [trace]. rewrite <- !app_assoc. reflexivity.
    + right. left. exists (output o). auto.
    + intros Ht _. cbn [disk]. unfold o. rewrite Ht. apply Hstate3.
Qed.

(** [RemoveSiteConfig] for a configured site removes the two proxy
    files first and does not put them back: whatever it returns, they
    are gone.  It then rewrites [override.conf], validates, and reloads
    only a tree the validator accepted; an unknown site is refused
    before anything is touched. *)
Theorem RemoveSiteConfig_removes_before_validating
        (w w' : World) (r : option string) :
  RemoveSiteConfig env GenerateOverrideConf cfg siteName w = (r, w') ->
  (Site cfg !! siteName = None ->
   r = Some ("site not found: " +:+ siteName)%string /\ w' = w) /\
  (is_Some (Site cfg !! siteName) ->
   (exists b1 b2 rest,
       trace w' = trace w ++ [EvRemove enabled b1; EvRemove avail b2] ++ rest /\
       afterRemoval r rest) /\
   (readOnly env (testCmd cfg) -> readOnly env (reloadCmd cfg) ->
    override <> enabled -> override <> avail ->
    isSymlink (disk w !! override) = false ->
    disk w !! enabled <> Some Directory -> disk w !! avail <> Some Directory ->
    disk w' !! enabled = None /\ disk w' !! avail = None)).
Proof using Type. apply RemoveSiteConfig_spec. Qed.

End Facts.
End NginxRemoval.

(** ** Frontend deployment: what a deploy may and may not do *)
Module DeployMore.
Import Strs OS Sys Config Nginx Deploy Server FilepathFacts OSFacts SysFacts NginxFacts DeployFacts.
Local Open Scope list_scope.

(** The events of unpacking an archive: directories made, files
    written. *)
Definition unpackEvent (e : event) : Prop :=
  match e with
  | EvMkdirAll _ _ | EvWrite _ _ _ => True
  | _ => False
  end.

(** The events of a proxy deployment for [site]: nothing is renamed or
    removed recursively, and the one link and the one removal are at
    [enabled/<site>.conf]. *)
Definition proxyStep (cfg : Config) (site : string) (e : event) : Prop :=
  match e with
  | EvRename _ _ _ | EvRemoveAll _ | EvRestart _ => False
  | EvSymlink t l _ => t = availablePath cfg site /\ l = enabledPath cfg site
  | EvRemove p _ => p = enabledPath cfg site
  | _ => True
  end.

Definition quietStep (cfg : Config) (site : string) (e : event) : Prop :=
  unpackEvent e \/ proxyStep cfg site e.

Ltac run_step H :=
  unfold MkdirAll, WriteFile, Remove, RemoveAll, Sys.Symlink, Rename in H;
  apply step_inv in H as [(?e & ?Hf & -> & ->)|(?fs & ?Hf & -> & ->)].

(** Close a branch that ends in [ret]: the log so far, and the events
    in it. *)
Ltac close Hret :=
  let H := fresh in
  intros H; refine (Hret _ _ _ _ _ H);
  [cbn [trace]; rewrite <- ?app_assoc; reflexivity
  |cbn [app]; repeat constructor; auto].

Lemma extractZipEntry_events (f : ZipEntry) (targetDir : string) (w w' : World)
      (r : option string) :
  extractZipEntry f targetDir w = (r, w') ->
  exists evs, trace w' = trace w ++ evs /\ Forall unpackEvent evs.
Proof.
  unfold extractZipEntry.
  assert (Hret : forall (x : option string) (w0 : World) (evs : list event),
             trace w0 = trace w ++ evs -> Forall unpackEvent evs ->
             ret x w0 = (r, w') ->
             exists evs, trace w' = trace w ++ evs /\ Forall unpackEvent evs).
  { intros x w0 evs H1 H2 H. cbv [ret] in H. injection H as <- <-. eauto. }
  assert (Hnil : forall x : option string, ret x w = (r, w') ->
             exists evs, trace w' = trace w ++ evs /\ Forall unpackEvent evs).
  { intros x. apply (Hret x w []); [now rewrite app_nil_r|constructor]. }
  destruct (_ || _); [apply Hnil|].
  destruct (Filepath.Rel _ _) as [rel|]; [|apply Hnil].
  destruct (HasPrefix rel ".."); [apply Hnil|].
  destruct (IsDir f).
  - unfold bind. destruct (MkdirAll _ w) as [e w1] eqn:H1. run_step H1; close Hret.
  - unfold bind at 1. destruct (MkdirAll _ w) as [e w1] eqn:H1. run_step H1; [close Hret|].
    destruct (Payload f) as [|written|data].
    + close Hret.
    + unfold bind. destruct (WriteFile _ written false _) as [e w2] eqn:H2.
      run_step H2; close Hret.
    + unfold bind. destruct (WriteFile _ data false _) as [e w2] eqn:H2.
      run_step H2; close Hret.
Qed.

Lemma extractEntries_events (files : list ZipEntry) (targetDir : string) (w w' : World)
      (r : option string) :
  extractEntries files targetDir w = (r, w') ->
  exists evs, trace w' = trace w ++ evs /\ Forall unpackEvent evs.
Proof.
  revert w. induction files as [|f rest IH]; intros w H; cbn [extractEntries] in H.
  - cbv [ret] in H. injection H as <- <-. exists []. split; [now rewrite app_nil_r|constructor].
  - unfold bind in H. destruct (extractZipEntry f targetDir w) as [e w1] eqn:H1.
    apply extractZipEntry_events in H1 as (evs1 & Ht1 & Hall1).
    destruct e as [e|].
    + cbv [ret] in H. injection H as <- <-. eauto.
    + apply IH in H as (evs2 & Ht2 & Hall2). exists (evs1 ++ evs2).
      split; [now rewrite Ht2, Ht1, app_assoc|]. apply Forall_app. auto.
Qed.

Section Facts.
Variable env : Env.
Variable cfg : Config.
Variable GenerateOverrideConf : Config -> string.
Variable TransformToHTTPS : string -> string -> string -> string -> string.
Variable GenerateRobotsTxt : string.
Variable GenerateSiteCombinedConfig : string -> string -> Z -> string -> string.
Variable GenerateSiteCombinedConfigHTTPS :
  string -> string -> Z -> string -> string -> string -> string.

Lemma DeploySiteConfigRaw_steps (name conf : string) (w w1 : World)
      (r : bool * string * option string) :
  DeploySiteConfigRaw env GenerateOverrideConf cfg name conf w = (r, w1) ->
  exists evs, trace w1 = trace w ++ evs /\ Forall (proxyStep cfg name) evs.
Proof using Type.
  unfold DeploySiteConfigRaw, symlinkSiteConfig.
  assert (Hret : forall (x : bool * string * option string) (w0 : World) (evs : list event),
             trace w0 = trace w ++ evs -> Forall (proxyStep cfg name) evs ->
             ret x w0 = (r, w1) ->
             exists evs, trace w1 = trace w ++ evs /\ Forall (proxyStep cfg name) evs).
  { intros x w0 evs H1 H2 H. cbv [ret] in H. injection H as <- <-. eauto. }
  destruct (Site cfg !! name).
  2:{ apply (Hret _ w []); [now rewrite app_nil_r|constructor]. }
  unfold bind at 1. destruct (MkdirAll _ _) as [e w2] eqn:H1. run_step H1; [close Hret|].
  unfold bind at 1. destruct (WriteFile _ conf _ _) as [e w2] eqn:H2. run_step H2;
    [close Hret|].
  unfold bind at 1. destruct (WriteFile _ _ _ _) as [e w2] eqn:H3. run_step H3;
    [close Hret|].
  unfold ValidateAndGetError. unfold bind at 1. unfold bind at 1. unfold Exec at 1.
  cbn [disk trace ret fst snd].
  destruct (exit_ok _); cbn [fst snd negb]; [|close Hret].
  unfold bind at 1. unfold bind at 1.
  destruct (MkdirAll _ _) as [e w2] eqn:H4. run_step H4; [close Hret|].
  unfold bind at 1. destruct (Remove _ _) as [e w2] eqn:H5.
  run_step H5.
  all: unfold bind at 1; destruct (Sys.Symlink _ _ _) as [e' w3] eqn:H6; run_step H6.
  all: try (close Hret; fail).
  all: unfold bind, Exec; cbn [disk trace ret]; destruct (exit_ok _); close Hret.
Qed.

(** Without [update_latest] a deploy moves no pointer: whatever the
    outcome, it renames nothing and removes nothing recursively, and the
    only link it makes is the proxy's [enabled/<site>.conf]. *)
Theorem deploy_promotes_only_on_request
        (siteName commitHash : string) (archive : option (list ZipEntry))
        (nginxConfig : string) (w w' : World) (res : bool * string * option string) :
  Deploy env cfg GenerateOverrideConf TransformToHTTPS GenerateRobotsTxt
         GenerateSiteCombinedConfig GenerateSiteCombinedConfigHTTPS
         siteName commitHash archive nginxConfig false w = (res, w') ->
  exists evs, trace w' = trace w ++ evs /\ Forall (quietStep cfg siteName) evs.
Proof using Type.
  unfold Deploy.
  assert (Hret : forall (x : bool * string * option string) (w0 : World) (evs : list event),
             trace w0 = trace w ++ evs -> Forall (quietStep cfg siteName) evs ->
             ret x w0 = (res, w') ->
             exists evs, trace w' = trace w ++ evs /\ Forall (quietStep cfg siteName) evs).
  { intros x w0 evs H1 H2 H. cbv [ret] in H. injection H as <- <-. eauto. }
  destruct (Site cfg !! siteName) as [site|].
  2:{ apply (Hret _ w []); [now rewrite app_nil_r|constructor]. }
  unfold bind at 1. destruct (MkdirAll _ w) as [e w1] eqn:H1.
  assert (T1 : exists ok, trace w1 = trace w ++ [EvMkdirAll (Filepath.Join [FrontendRoot site; commitHash]) ok]).
  { run_step H1; cbn [trace]; eauto. }
  destruct T1 as [ok1 T1].
  destruct e as [e|].
  { intros H. refine (Hret _ _ _ T1 _ H). repeat constructor. }
  unfold bind at 1. destruct (extractZip archive _ w1) as [e w2] eqn:H2.
  assert (T2 : exists evs, trace w2 = trace w ++ evs /\ Forall (quietStep cfg siteName) evs).
  { destruct archive as [files|]; cbn [extractZip] in H2.
    - apply extractEntries_events in H2 as (evs & Ht & Hall).
      exists ([EvMkdirAll (Filepath.Join [FrontendRoot site; commitHash]) ok1] ++ evs).
      split; [now rewrite Ht, T1, <- app_assoc|].
      constructor; [now left|]. eapply Forall_impl; [exact Hall|]. intros x Hx. now left.
    - cbv [ret] in H2. injection H2 as _ <-. eexists. split; [exact T1|].
      repeat constructor. }
  clear H1 H2 T1. destruct T2 as (evs2 & T2 & A2).
  destruct e as [e|].
  { intros H. exact (Hret _ _ _ T2 A2 H). }
  unfold bind at 1. unfold StatM at 1. cbv beta iota.
  unfold bind at 1.
  match goal with
  | |- context [match ?s with Some _ => ret None | None => ?wr end w2] =>
      destruct (match s with Some _ => ret None | None => wr end w2) as [e w3] eqn:H3
  end.
  assert (T3 : exists evs, trace w3 = trace w ++ evs /\ Forall (quietStep cfg siteName) evs).
  { destruct (Stat (disk w2) _).
    - cbv [ret] in H3. injection H3 as _ <-. eauto.
    - run_step H3; cbn [trace]; rewrite T2, <- app_assoc; eexists;
        (split; [reflexivity|]); (apply Forall_app; split; [exact A2|]);
        repeat constructor. }
  clear H3 T2 A2. destruct T3 as (evs3 & T3 & A3).
  destruct e as [e|].
  { intros H. exact (Hret _ _ _ T3 A3 H). }
  unfold bind at 1. cbv beta iota. unfold ret at 1. cbv beta iota.
  unfold bind at 1.
  match goal with
  | |- context [let (a, w'0) := ?m w3 in _] => destruct (m w3) as [out w4] eqn:H4
  end.
  assert (T4 : exists evs, trace w4 = trace w ++ evs /\ Forall (quietStep cfg siteName) evs).
  { assert (Hraw : forall conf,
               DeploySiteConfigRaw env GenerateOverrideConf cfg siteName conf w3 = (out, w4) ->
               exists evs, trace w4 = trace w ++ evs /\ Forall (quietStep cfg siteName) evs).
    { intros conf H. apply DeploySiteConfigRaw_steps in H as (evs & Ht & Hall).
      exists (evs3 ++ evs). split; [now rewrite Ht, T3, <- app_assoc|].
      apply Forall_app. split; [exact A3|].
      eapply Forall_impl; [exact Hall|]. intros x Hx. now right. }
    destruct (Backend site) as [b|].
    - eapply Hraw. exact H4.
    - unfold DeploySiteConfig in H4. destruct (Site cfg !! siteName) as [s'|].
      + eapply Hraw. exact H4.
      + cbv [ret] in H4. injection H4 as _ <-. eauto. }
  destruct T4 as (evs4 & T4 & A4).
  destruct out as [[[] msg] [err|]]; intros H; exact (Hret _ _ _ T4 A4 H).
Qed.

End Facts.

(** A promotion that fails leaves the pointer alone: a [latest] link
    still points where it did, and a missing [latest] is still
    missing. *)
Theorem failed_promotion_keeps_latest
        (root commit e : string) (w w' : World) :
  updateLatestSymlink root commit w = (Some e, w') ->
  (forall t, disk w !! latestPath root = Some (Link t) ->
             disk w' !! latestPath root = Some (Link t)) /\
  (disk w !! latestPath root = None -> disk w' !! latestPath root = None).
Proof.
  pose proof (tmp_not_latest root) as Hne.
  intros Hrun. unfold updateLatestSymlink in Hrun.
  fold (latestPath root) (tmpPath root) in Hrun.
  unfold bind at 1 in Hrun. destruct (Remove (tmpPath root) w) as [r1 w1] eqn:H1.
  assert (Hsame : disk w1 !! latestPath root = disk w !! latestPath root).
  { run_step H1; cbn [disk]; [reflexivity|].
    apply remove_inv in Hf as ->. now rewrite lookup_delete_ne. }
  clear H1. run_bind Hrun. unfold Lstat in Hrun.
  assert (Hgo : forall n,
             disk w1 !! latestPath root = n ->
             (forall t, n = Some (Link t) -> disk w' !! latestPath root = Some (Link t)) /\
             (n = None -> disk w' !! latestPath root = None) ->
             (forall t, disk w !! latestPath root = Some (Link t) ->
                        disk w' !! latestPath root = Some (Link t)) /\
             (disk w !! latestPath root = None -> disk w' !! latestPath root = None)).
  { intros n Hn [A B]. rewrite <- Hsame, Hn. auto. }
  assert (Hkeep : forall target,
             (let* err := Sys.Symlink target (tmpPath root) in
              match err with
              | Some e => ret (Some (wrap "create temp symlink" e))
              | None =>
                  let* err := Rename (tmpPath root) (latestPath root) in
                  match err with
                  | Some e =>
                      let* _ := Remove (tmpPath root) in
                      ret (Some (wrap "rename symlink" e))
                  | None => ret None
                  end
              end) w1 = (Some e, w') ->
             disk w1 !! latestPath root <> Some Directory ->
             disk w' !! latestPath root = disk w1 !! latestPath root).
  { intros target H Hdir. unfold bind at 1 in H.
    destruct (Sys.Symlink target (tmpPath root) w1) as [r2 w2] eqn:H2. run_step H2.
    - cbv [ret] in H. injection H as _ <-. reflexivity.
    - apply symlink_inv in Hf as ->. unfold bind at 1 in H.
      destruct (Rename _ _ _) as [r3 w3] eqn:H3. run_step H3; cbn [disk] in *.
      + exfalso. unfold rename in Hf. rewrite lookup_insert_eq in Hf.
        apply String.eqb_neq in Hne as Hb. rewrite Hb in Hf.
        rewrite lookup_insert_ne in Hf by assumption.
        destruct (disk w1 !! latestPath root) as [[]|]; try discriminate. contradiction.
      + cbv [ret] in H. discriminate. }
  destruct (disk w1 !! latestPath root) as [[d x| |t]|] eqn:Hl.
  - apply (Hgo _ eq_refl). split; discriminate.
  - apply (Hgo _ eq_refl). split; discriminate.
  - run_bind Hrun. run_bind Hrun. apply Hkeep in Hrun; [|discriminate].
    apply (Hgo _ eq_refl). split; [|discriminate].
    intros t0 E. injection E as <-. exact Hrun.
  - run_bind Hrun. run_bind Hrun. apply Hkeep in Hrun; [|discriminate].
    apply (Hgo _ eq_refl). split; [discriminate|]. intros _. exact Hrun.
Qed.

End DeployMore.

(** ** Frontend deployment: what unpacking leaves on disk *)
Module UnpackFacts.
Import Strs OS Sys Config Deploy FilepathFacts OSFacts SysFacts DeployFacts.
Local Open Scope list_scope.

(** Where an entry is unpacked to. *)
Definition target (targetDir : string) (f : ZipEntry) : string :=
  Filepath.Join [targetDir; Filepath.Clean (Name f)].

Lemma extractZipEntry_effect (f : ZipEntry) (targetDir : string) (w w' : World) :
  extractZipEntry f targetDir w = (None, w') ->
  noLinksInside targetDir (disk w) ->
  (IsDir f = false ->
   exists data m, Payload f = Intact data /\
                  disk w' !! target targetDir f = Some (File data m)) /\
  (forall k d m, IsDir f = true \/ k <> target targetDir f ->
                 disk w !! k = Some (File d m) -> disk w' !! k = Some (File d m)).
Proof.
  intros Hrun Hlinks. pose proof (not_offending_inside targetDir f) as Hinside.
  unfold extractZipEntry in Hrun. unfold offending in Hinside. fold (target targetDir f) in *.
  destruct (HasPrefix (Filepath.Clean (Name f)) ".." || Filepath.IsAbs (Filepath.Clean (Name f)));
    [discriminate|].
  cbn [orb] in Hinside.
  destruct (Filepath.Rel targetDir (target targetDir f)) as [rel|]; [|discriminate].
  destruct (HasPrefix rel ".."); [discriminate|].
  specialize (Hinside eq_refl).
  assert (Hkeep : forall (p : string) (w1 : World) (e : option string) (k d : string) (m : bool),
             MkdirAll p w = (e, w1) ->
             disk w !! k = Some (File d m) -> disk w1 !! k = Some (File d m)).
  { intros p w1 e k d m H Hk. apply MkdirAll_spec in H as (_ & Hgrow & _).
    destruct (Hgrow k) as [->|[E _]]; congruence. }
  destruct (IsDir f).
  - unfold bind in Hrun. destruct (MkdirAll _ w) as [e w1] eqn:H1.
    destruct e; cbv [ret] in Hrun; [discriminate|]. injection Hrun as <-.
    split; [discriminate|]. intros k d m _. eapply Hkeep; eauto.
  - unfold bind at 1 in Hrun. destruct (MkdirAll _ w) as [e w1] eqn:H1.
    destruct e as [e|]; [cbv [ret] in Hrun; discriminate|].
    assert (Hplain : isSymlink (disk w1 !! target targetDir f) = false).
    { destruct (disk w1 !! target targetDir f) as [[]|] eqn:E; try reflexivity.
      apply MkdirAll_spec in H1 as (_ & _ & Hsame). apply Hsame in E.
      apply Hlinks in E. congruence. }
    destruct (Payload f) as [|written|data]; [cbv [ret] in Hrun; discriminate| |].
    + unfold bind in Hrun. destruct (WriteFile _ written false w1) as [e w2].
      destruct e; cbv [ret] in Hrun; discriminate.
    + unfold bind in Hrun. destruct (WriteFile _ data false w1) as [e w2] eqn:H2.
      destruct e; cbv [ret] in Hrun; [discriminate|]. injection Hrun as <-.
      unfold WriteFile in H2. apply step_inv in H2 as [(x & _ & ? & _)|(fs' & Hf & _ & ->)];
        [discriminate|].
      destruct (writeFile_plain _ _ _ _ _ Hplain Hf) as [m ->]. cbn [disk]. split.
      * intros _. exists data, m. split; [reflexivity|apply lookup_insert_eq].
      * intros k d m' [?|Hk] Hd; [discriminate|].
        rewrite lookup_insert_ne by congruence. eapply Hkeep; eauto.
Qed.

Lemma extractEntries_keeps (files : list ZipEntry) (targetDir : string) (w w' : World)
      (k d : string) (m : bool) :
  extractEntries files targetDir w = (None, w') ->
  noLinksInside targetDir (disk w) ->
  Forall (fun g => IsDir g = true \/ target targetDir g <> k) files ->
  disk w !! k = Some (File d m) -> disk w' !! k = Some (File d m).
Proof.
  revert w. induction files as [|g rest IH]; intros w Hrun Hlinks Hall Hk;
    cbn [extractEntries] in Hrun.
  - cbv [ret] in Hrun. injection Hrun as <-. exact Hk.
  - unfold bind in Hrun. destruct (extractZipEntry g targetDir w) as [e w1] eqn:H1.
    destruct e as [e|]; [cbv [ret] in Hrun; discriminate|].
    inversion Hall as [|? ? Hg Hrest]; subst.
    destruct (extractZipEntry_spec _ _ _ _ _ H1 Hlinks) as (Hlinks1 & _).
    destruct (extractZipEntry_effect _ _ _ _ H1 Hlinks) as [_ Hkeep].
    apply (IH w1 Hrun Hlinks1 Hrest). apply Hkeep; [|exact Hk].
    destruct Hg as [Hg|Hg]; [now left|right; congruence].
Qed.

(** When an archive unpacks without error, every file entry is on disk
    with its bytes at [<dir>/<cleaned name>], unless a later file entry
    of the archive has the same target (the last one wins).  No
    symbolic link is assumed at or below the directory beforehand. *)
Theorem unpacked_files_hold_their_bytes
        (pre post : list ZipEntry) (f : ZipEntry) (targetDir : string) (w w' : World) :
  extractZip (Some (pre ++ f :: post)) targetDir w = (None, w') ->
  noLinksInside targetDir (disk w) ->
  IsDir f = false ->
  Forall (fun g => IsDir g = true \/ target targetDir g <> target targetDir f) post ->
  exists data m, Payload f = Intact data /\
                 disk w' !! target targetDir f = Some (File data m).
Proof.
  cbn [extractZip]. revert w.
  induction pre as [|g pre IH]; intros w Hrun Hlinks Hfile Hpost; cbn [app extractEntries] in Hrun;
    unfold bind in Hrun.
  - destruct (extractZipEntry f targetDir w) as [e w1] eqn:H1.
    destruct e as [e|]; [cbv [ret] in Hrun; discriminate|].
    destruct (extractZipEntry_spec _ _ _ _ _ H1 Hlinks) as (Hlinks1 & _).
    destruct (extractZipEntry_effect _ _ _ _ H1 Hlinks) as [Hhere _].
    destruct (Hhere Hfile) as (data & m & Hp & Hd).
    exists data, m. split; [exact Hp|].
    eapply extractEntries_keeps; eauto.
  - destruct (extractZipEntry g targetDir w) as [e w1] eqn:H1.
    destruct e as [e|]; [cbv [ret] in Hrun; discriminate|].
    destruct (extractZipEntry_spec _ _ _ _ _ H1 Hlinks) as (Hlinks1 & _).
    apply (IH w1); assumption.
Qed.

End UnpackFacts.

(** ** The health monitor: whom it restarts *)
Module HealthMore.
Import Config Health HealthFacts.
Local Open Scope list_scope.
Local Open Scope Z_scope.

Section Tick.
Variable cfg : Config.
Variable httpGet : string -> option Z.
Variable now : Z.

Abbreviation tick := (checkAllServices cfg httpGet now).
Abbreviation once := (checkOne cfg httpGet now).

(** A restart issued for [name]: the site has a backend and its probe
    failed. *)
Definition earned (order : list (string * SiteConfig)) (service : string) : Prop :=
  exists name site,
    In (name, site) order /\ Backend site <> None /\
    checkService cfg httpGet site = false /\ service = Service.serviceName name.

Lemma checkOne_earned (m : Monitor) (name : string) (site : SiteConfig) :
  exists extra,
    restarts (once m name site) = restarts m ++ extra /\
    (extra = [] \/
     (extra = [Service.serviceName name] /\ Backend site <> None /\
      checkService cfg httpGet site = false)).
Proof.
  unfold checkOne, Restart.
  destruct (Backend site) as [b|] eqn:Hb; [|exists []; rewrite app_nil_r; auto].
  destruct (serviceStatus m !! name); [|exists []; rewrite app_nil_r; auto].
  destruct (checkService cfg httpGet site) eqn:Hc; cbn [negb];
    [exists []; rewrite app_nil_r; auto|].
  destruct (_ >=? _); cbn [restarts]; [|exists []; rewrite app_nil_r; auto].
  destruct (Site cfg !! name) as [sc|]; [|exists []; rewrite app_nil_r; auto].
  destruct (Backend sc); [|exists []; rewrite app_nil_r; auto].
  eexists. split; [reflexivity|]. right. split; [reflexivity|]. split; [discriminate|reflexivity].
Qed.

Lemma checkOne_skips (m : Monitor) (name : string) (site : SiteConfig) :
  Backend site = None -> once m name site = m.
Proof. unfold checkOne. now intros ->. Qed.

(** In a tick the monitor restarts only services whose probe has
    just failed, in the order of the visit, and it keeps no record for
    a name that is not a visited site with a backend: a healthy backend
    is never restarted, a frontend-only site is never tracked. *)
Theorem tick_restarts_only_failed_backends
        (order : list (string * SiteConfig)) (m : Monitor) :
  (exists extra,
      restarts (tick order m) = restarts m ++ extra /\ Forall (earned order) extra) /\
  (forall name,
      (forall site, In (name, site) order -> Backend site = None) ->
      serviceStatus (tick order m) !! name = serviceStatus m !! name).
Proof using Type.
  split.
  - revert m. induction order as [|[k v] order IH]; intros m; cbn [checkAllServices fold_left].
    + exists []. split; [now rewrite app_nil_r|constructor].
    + destruct (IH (once m k v)) as (e1 & He1 & Hall1).
      destruct (checkOne_earned m k v) as (e2 & He2 & Hcase).
      exists (e2 ++ e1). unfold checkAllServices in He1. cbn [fst snd].
      split; [now rewrite He1, He2, app_assoc|].
      apply Forall_app. split.
      * destruct Hcase as [->|(-> & Hb & Hc)]; [constructor|].
        repeat constructor. exists k, v. cbn [In]. auto.
      * eapply Forall_impl; [exact Hall1|]. intros s (name & site & Hin & ?).
        exists name, site. cbn [In]. auto.
  - intros name. revert m.
    induction order as [|[k v] order IH]; intros m Hnone; cbn [checkAllServices fold_left];
      [reflexivity|].
    unfold checkAllServices in IH. cbn [fst snd]. rewrite IH.
    + destruct (String.eqb_spec k name) as [->|Hne].
      * rewrite checkOne_skips; [reflexivity|]. apply Hnone. now left.
      * apply checkOne_other. congruence.
    + intros site Hin. apply Hnone. now right.
Qed.

End Tick.
End HealthMore.

(** ** Site creation: refusals and the plain case *)
Module SiteCreateMore.
Import Strs OS Sys Config Registry Ssl Nginx Server FilepathFacts OSFacts SysFacts ApiFacts.
Local Open Scope list_scope.

Section Create.
Variable env : Env.
Variable encode : Config -> string.
Variable quote : string -> string.
Variable GenerateOverrideConf : Config -> string.
Variable GenerateHTTPOnlyConfig : string -> string.
Variable GenerateBackendProxyConfig : string -> Z -> string -> string.
Variable GenerateBackendProxyConfigHTTPS : string -> Z -> string -> string -> string -> string.
Variable GenerateSiteCombinedConfig : string -> string -> Z -> string -> string.
Variable GenerateSiteCombinedConfigHTTPS :
  string -> string -> Z -> string -> string -> string -> string.
Variable NextJailIP : Config -> string.
Variable GenerateAPIKey : option string.

Abbreviation create :=
  (SiteCreate env encode quote GenerateOverrideConf GenerateHTTPOnlyConfig
     GenerateBackendProxyConfig GenerateBackendProxyConfigHTTPS
     GenerateSiteCombinedConfig GenerateSiteCombinedConfigHTTPS
     NextJailIP GenerateAPIKey).

(** A creation request answered 400 or 409 (unparsable body, missing or
    malformed domain, site already there) has changed neither the
    registry nor anything on disk, and has run no command. *)
Theorem refused_creation_changes_nothing
        (cfg : Config) (parsed : option SiteCreateRequest) (w : World)
        (resp : Response) (cfg' : Config) (w' : World) :
  create cfg parsed w = ((resp, cfg'), w') ->
  status resp = 400%Z \/ status resp = 409%Z ->
  cfg' = cfg /\ w' = w.
Proof using Type.
  intros H Hs. revert H. unfold SiteCreate.
  destruct parsed as [req|]; [|intros H; cbv [ret] in H; injection H as <- <- <-; auto].
  destruct (String.eqb (Domain req) "");
    [intros H; cbv [ret] in H; injection H as <- <- <-; auto|].
  destruct (negb (validDomain (Domain req)));
    [intros H; cbv [ret] in H; injection H as <- <- <-; auto|].
  destruct (Site cfg !! Domain req);
    [intros H; cbv [ret] in H; injection H as <- <- <-; auto|].
  destruct GenerateAPIKey as [apiKey|];
    [|intros H; cbv [ret] in H; injection H as <- <- <-;
      exfalso; cbn in Hs; destruct Hs; discriminate].
  (* from here on every answer is 500 or 201 *)
  intros H. exfalso. revert H. unfold bind at 1.
  match goal with
  | |- context [let (a, w'0) := ?m w in _] => destruct (m w) as [sslErr w1] eqn:Hssl
  end.
  assert (Hssl' : forall r, sslErr = Some r -> status r = 500%Z).
  { revert Hssl. destruct (ReqSSLEnabled req).
    - unfold bind at 1. destruct (DeployHTTPOnlyConfig _ _ _ _ _) as [e w2].
      destruct e as [e|]; [intros H r Hr; cbv [ret] in H; injection H as <- _;
                           injection Hr as <-; reflexivity|].
      unfold bind at 1. destruct (ObtainCert _ _ _) as [e w3].
      destruct e as [e|].
      + unfold bind. destruct (RemoveSiteConfigByDomain _ _ _ _) as [x w4].
        intros H r Hr. cbv [ret] in H. injection H as <- _. injection Hr as <-. reflexivity.
      + intros H r Hr. cbv [ret] in H. injection H as <- _. discriminate.
    - intros H r Hr. cbv [ret] in H. injection H as <- _. discriminate. }
  destruct sslErr as [r|].
  { intros H. cbv [ret] in H. injection H as <- _ _.
    rewrite (Hssl' _ eq_refl) in Hs. destruct Hs; discriminate. }
  unfold bind at 1. destruct (AddSite _ _ _ _ _ _) as [[saved c1] w2].
  destruct saved as [e|].
  { intros H. cbv [ret] in H. injection H as <- _ _. cbn in Hs. destruct Hs; discriminate. }
  destruct (WithBackend req).
  - unfold bind. destruct (DeploySiteConfigRaw _ _ _ _ _ _) as [out w3].
    intros H. cbv [ret] in H. injection H as <- _ _. cbn in Hs. destruct Hs; discriminate.
  - intros H. cbv [ret] in H. injection H as <- _ _. cbn in Hs. destruct Hs; discriminate.
Qed.

End Create.

(** Creating a plain site (no certificate, no backend) runs no command
    and writes one file, the registry.  The site is entered under the
    generated key with its root defaulting to [/var/www/<domain>]; the
    answer is 201 when the file was written and 500 [save_failed] when
    not, and in that case the registry in memory holds the site all the
    same. *)
Theorem plain_site_creation_only_writes_registry
        (env : Env) (encode : Config -> string) (quote : string -> string)
        (gen : Config -> string) (http : string -> string)
        (proxy : string -> Z -> string -> string)
        (proxyTLS : string -> Z -> string -> string -> string -> string)
        (comb : string -> string -> Z -> string -> string)
        (combTLS : string -> string -> Z -> string -> string -> string -> string)
        (nextIP : Config -> string) (key : string)
        (cfg : Config) (req : SiteCreateRequest) (w : World)
        (resp : Response) (cfg' : Config) (w' : World) :
  SiteCreate env encode quote gen http proxy proxyTLS comb combTLS nextIP (Some key)
             cfg (Some req) w = ((resp, cfg'), w') ->
  validDomain (Domain req) = true ->
  Site cfg !! Domain req = None ->
  ReqSSLEnabled req = false -> WithBackend req = false ->
  path cfg <> ""%string ->
  Site cfg' = <[Domain req :=
                  {| FrontendRoot := if String.eqb (ReqFrontendRoot req) ""
                                     then ("/var/www/" +:+ Domain req)%string
                                     else ReqFrontendRoot req;
                     APIKey := key; OverrideIPs := []; Backend := None;
                     SSLEnabled := false |}]> (Site cfg) /\
  exists ok,
    trace w' = trace w ++ [EvWrite (path cfg) (encode cfg') ok] /\
    status resp = (if ok then 201 else 500)%Z /\
    (ok = true -> In ("api_key", JStr key) (body resp)).
Proof.
  intros Hrun Hv Hfree Hssl Hback Hpath. unfold SiteCreate in Hrun.
  destruct (validDomain_path _ Hv) as [Hn Hjoin].
  destruct (String.eqb_spec (Domain req) "") as [E|_]; [destruct Hn as [Hn _]; contradiction|].
  rewrite Hv, Hfree, Hssl, Hback in Hrun. cbn [negb andb] in Hrun.
  rewrite Hjoin in Hrun. run_bind Hrun.
  unfold bind, AddSite in Hrun. cbn [Site] in Hrun. rewrite Hfree in Hrun.
  cbn [path Site_set] in Hrun. apply String.eqb_neq in Hpath. rewrite Hpath in Hrun.
  unfold bind in Hrun.
  destruct (WriteFile _ _ _ w) as [e w1] eqn:Hw. unfold WriteFile in Hw.
  apply step_inv in Hw as [(x & _ & -> & ->)|(fs' & _ & -> & ->)];
    cbv [ret] in Hrun; injection Hrun as <- <- <-; cbn [Site Site_set trace].
  - split; [reflexivity|]. exists false. split; [reflexivity|]. split; [reflexivity|discriminate].
  - split; [reflexivity|]. exists true. split; [reflexivity|]. split; [reflexivity|].
    intros _. cbn. auto.
Qed.

End SiteCreateMore.

(** ** The registry: validation, adding and removing sites *)
Module RegistryFacts.
Import Strs OS Sys Config Registry OSFacts SysFacts.
Local Open Scope list_scope.

Section Facts.
Variable encode : Config -> string.
Variable quote : string -> string.

(** What [Validate] asks of one site. *)
Definition usable (site : SiteConfig) : Prop :=
  APIKey site <> ""%string /\ (HasFrontend site = true \/ IsBackendOnly site = true).

Lemma validateSites_None (order : list (string * SiteConfig)) :
  validateSites quote order = None <-> Forall (fun kv => usable (snd kv)) order.
Proof using Type.
  induction order as [|[domain site] rest IH]; cbn [validateSites].
  - split; [constructor|reflexivity].
  - rewrite Forall_cons, <- IH. cbn [snd]. unfold usable, HasFrontend, IsBackendOnly.
    destruct (String.eqb_spec (FrontendRoot site) "") as [Er|Er];
      destruct (Backend site) as [b|]; cbn [andb negb];
      destruct (String.eqb_spec (APIKey site) "") as [Ek|Ek];
      (split;
       [first [discriminate | intros H; split; [split; [assumption|auto]|assumption]]
       |first [intros [[Hk [Hf|Hb]] _]; first [contradiction|discriminate]
              |intros [_ H]; exact H]]).
Qed.

(** A configuration passes [Validate] exactly when the listen address,
    the four nginx paths and the two jail paths are set, there is an
    admin key and at least one site, and every site has an API key and
    either a frontend root or a backend.  The order in which the site
    map is walked does not matter. *)
Theorem Validate_accepts_exactly_usable_configs
        (order : list (string * SiteConfig)) (c : Config) :
  order ≡ₚ map_to_list (Site c) ->
  (Validate quote order c = None <->
   ListenAddr (Server c) <> ""%string /\ AdminKeys c <> [] /\
   BinaryPath (Nginx c) <> ""%string /\ MainConfPath (Nginx c) <> ""%string /\
   SitesAvailable (Nginx c) <> ""%string /\ SitesEnabled (Nginx c) <> ""%string /\
   BaseDir (Jail c) <> ""%string /\ JailConfPath (Jail c) <> ""%string /\
   Site c <> ∅ /\
   forall name site, Site c !! name = Some site -> usable site).
Proof using Type.
  clear encode. intros Hperm. unfold Validate.
  assert (Hsites : validateSites quote order = None <->
                   forall name site, Site c !! name = Some site -> usable site).
  { rewrite validateSites_None, Hperm, Forall_forall. split.
    - intros H name site Hs. apply (H (name, site)). now apply elem_of_map_to_list.
    - intros H [name site] Hin. apply elem_of_map_to_list in Hin. eapply H; eauto. }
  destruct (String.eqb_spec (ListenAddr (Server c)) "") as [E1|E1];
    [split; [discriminate|tauto]|].
  destruct (AdminKeys c) as [|k ks] eqn:Ek; cbn [length Nat.eqb];
    [split; [discriminate|tauto]|].
  destruct (String.eqb_spec (BinaryPath (Nginx c)) "") as [E2|E2];
    [split; [discriminate|tauto]|].
  destruct (String.eqb_spec (MainConfPath (Nginx c)) "") as [E3|E3];
    [split; [discriminate|tauto]|].
  destruct (String.eqb_spec (SitesAvailable (Nginx c)) "") as [E4|E4];
    [split; [discriminate|tauto]|].
  destruct (String.eqb_spec (SitesEnabled (Nginx c)) "") as [E5|E5];
    [split; [discriminate|tauto]|].
  cbn [orb].
  destruct (String.eqb_spec (BaseDir (Jail c)) "") as [E6|E6];
    [split; [discriminate|tauto]|].
  destruct (String.eqb_spec (JailConfPath (Jail c)) "") as [E7|E7];
    [split; [discriminate|tauto]|].
  cbn [orb].
  destruct (Nat.eqb_spec (size (Site c)) 0) as [E8|E8].
  - apply map_size_empty_iff in E8. split; [discriminate|]. tauto.
  - rewrite Hsites. split.
    + intros H. do 8 (split; [first [assumption|discriminate]|]).
      split; [|exact H]. intros E. apply E8. now apply map_size_empty_iff.
    + tauto.
Qed.

Lemma Site_set_twice (c : Config) (m1 m2 : gmap string SiteConfig) :
  Site_set (Site_set c m1) m2 = Site_set c m2.
Proof. reflexivity. Qed.

Lemma Site_set_same (c : Config) : Site_set c (Site c) = c.
Proof. destruct c. reflexivity. Qed.

(** What a mutation of the registry logs: nothing, or one write of the
    registry file with the encoding of the new registry; and its error
    is [nil] exactly when that write succeeded. *)
Definition saved (c' : Config) (e : option string) (evs : list event) : Prop :=
  (evs = [] /\ e <> None) \/
  (exists ok, evs = [EvWrite (path c') (encode c') ok] /\ (e = None <-> ok = true)).

Lemma AddSite_effect (name : string) (site : SiteConfig) (c c' : Config) (w w' : World)
      (e : option string) :
  AddSite encode quote name site c w = ((e, c'), w') ->
  exists evs, trace w' = trace w ++ evs /\
    match Site c !! name with
    | Some _ => c' = c /\ evs = [] /\ e <> None
    | None => c' = Site_set c (<[name := site]> (Site c)) /\ saved c' e evs
    end.
Proof using Type.
  unfold AddSite. destruct (Site c !! name).
  { intros H. cbv [ret] in H. injection H as <- <- <-.
    exists []. rewrite app_nil_r. split; [reflexivity|]. split; [reflexivity|].
    split; [reflexivity|discriminate]. }
  destruct (String.eqb (path _) "").
  { intros H. cbv [ret] in H. injection H as <- <- <-.
    exists []. rewrite app_nil_r. split; [reflexivity|]. split; [reflexivity|].
    left. split; [reflexivity|discriminate]. }
  unfold bind. destruct (WriteFile _ _ _ w) as [err w1] eqn:Hw. unfold WriteFile in Hw.
  apply step_inv in Hw as [(x & _ & -> & ->)|(fs' & _ & -> & ->)];
    intros H; cbv [ret] in H; injection H as <- <- <-; cbn [trace];
    eexists; (split; [reflexivity|]); (split; [reflexivity|]); right;
    eexists; (split; [reflexivity|]); split; congruence.
Qed.

Lemma RemoveSite_effect (name : string) (c c' : Config) (w w' : World) (e : option string) :
  RemoveSite encode quote name c w = ((e, c'), w') ->
  exists evs, trace w' = trace w ++ evs /\
    match Site c !! name with
    | None => c' = c /\ evs = [] /\ e <> None
    | Some _ => c' = Site_set c (delete name (Site c)) /\ saved c' e evs
    end.
Proof using Type.
  unfold RemoveSite. destruct (Site c !! name).
  2:{ intros H. cbv [ret] in H. injection H as <- <- <-.
      exists []. rewrite app_nil_r. split; [reflexivity|]. split; [reflexivity|].
      split; [reflexivity|discriminate]. }
  destruct (String.eqb (path _) "").
  { intros H. cbv [ret] in H. injection H as <- <- <-.
    exists []. rewrite app_nil_r. split; [reflexivity|]. split; [reflexivity|].
    left. split; [reflexivity|discriminate]. }
  unfold bind. destruct (WriteFile _ _ _ w) as [err w1] eqn:Hw. unfold WriteFile in Hw.
  apply step_inv in Hw as [(x & _ & -> & ->)|(fs' & _ & -> & ->)];
    intros H; cbv [ret] in H; injection H as <- <- <-; cbn [trace];
    eexists; (split; [reflexivity|]); (split; [reflexivity|]); right;
    eexists; (split; [reflexivity|]); split; congruence.
Qed.

(** The registry in memory is changed before the file is written: a
    site added under a free name is in the registry that [AddSite]
    hands back, and a removed site is out of the one [RemoveSite] hands
    back, also when the write fails and an error is returned.  A taken
    name, or a missing one, is refused with nothing changed and nothing
    written.  Either call writes the registry file at most once, with
    the encoding of the new registry. *)
Theorem registry_changes_before_it_is_saved
        (name : string) (site : SiteConfig) (c : Config) (w : World) :
  (forall e c' w',
      AddSite encode quote name site c w = ((e, c'), w') ->
      exists evs, trace w' = trace w ++ evs /\
        match Site c !! name with
        | Some _ => c' = c /\ evs = [] /\ e <> None
        | None => Site c' !! name = Some site /\
                  (forall other, other <> name -> Site c' !! other = Site c !! other) /\
                  saved c' e evs
        end) /\
  (forall e c' w',
      RemoveSite encode quote name c w = ((e, c'), w') ->
      exists evs, trace w' = trace w ++ evs /\
        match Site c !! name with
        | None => c' = c /\ evs = [] /\ e <> None
        | Some _ => Site c' !! name = None /\
                    (forall other, other <> name -> Site c' !! other = Site c !! other) /\
                    saved c' e evs
        end).
Proof using Type.
  split; intros e c' w' H.
  - apply AddSite_effect in H as (evs & Ht & H). exists evs. split; [exact Ht|].
    destruct (Site c !! name); [exact H|]. destruct H as [-> Hs]. cbn [Site Site_set].
    split; [apply lookup_insert_eq|]. split; [|exact Hs].
    intros other Hne. now rewrite lookup_insert_ne.
  - apply RemoveSite_effect in H as (evs & Ht & H). exists evs. split; [exact Ht|].
    destruct (Site c !! name); [|exact H]. destruct H as [-> Hs]. cbn [Site Site_set].
    split; [apply lookup_delete_eq|]. split; [|exact Hs].
    intros other Hne. now rewrite lookup_delete_ne.
Qed.

(** Adding a site and removing it again gives back the registry one
    started from, and the last thing written to the registry file is
    its encoding. *)
Theorem AddSite_then_RemoveSite_round_trip
        (name : string) (site : SiteConfig) (c c1 c2 : Config) (w w1 w2 : World)
        (e1 e2 : option string) :
  AddSite encode quote name site c w = ((e1, c1), w1) ->
  RemoveSite encode quote name c1 w1 = ((e2, c2), w2) ->
  Site c !! name = None ->
  c2 = c /\
  (e2 = None ->
   exists evs, trace w2 = trace w ++ evs ++ [EvWrite (path c) (encode c) true]).
Proof using Type.
  intros H1 H2 Hfree.
  apply AddSite_effect in H1 as (evs1 & Ht1 & H1). rewrite Hfree in H1.
  destruct H1 as [-> Hs1].
  apply RemoveSite_effect in H2 as (evs2 & Ht2 & H2).
  cbn [Site Site_set] in H2. rewrite lookup_insert_eq in H2. destruct H2 as [-> Hs2].
  cbn [Site Site_set] in *.
  assert (Hc : Site_set (Site_set c (<[name:=site]> (Site c)))
                        (delete name (<[name:=site]> (Site c))) = c).
  { rewrite Site_set_twice, delete_insert_id by assumption. apply Site_set_same. }
  rewrite Hc in *. split; [reflexivity|]. intros ->.
  destruct Hs2 as [[_ Hne]|(ok & -> & Hok)]; [congruence|].
  destruct Hok as [Hok _]. rewrite (Hok eq_refl) in Ht2.
  exists evs1. rewrite Ht2, Ht1, <- app_assoc. reflexivity.
Qed.

End Facts.
End RegistryFacts.

(** ** Site teardown *)
Module TeardownFacts.
Import Strs OS Sys Config Registry Nginx Service Server OSFacts SysFacts NginxFacts
       NginxRemoval RegistryFacts.
Local Open Scope list_scope.

Lemma Remove_log (p : string) (w : World) :
  exists r b d, Remove p w = (r, {| disk := d; trace := trace w ++ [EvRemove p b] |}).
Proof. unfold Remove, step. destruct (remove (disk w) p); eauto. Qed.

Section Facts.
Variable env : Env.
Variable encode : Config -> string.
Variable quote : string -> string.
Variable GenerateOverrideConf : Config -> string.
Variable potCmd : string.
Variable cfg : Config.

(** The service is stopped and disabled, its rc.d script removed, and
    the pot stopped and destroyed, in this order. *)
Definition backendGone (name : string) (evs : list event) : Prop :=
  exists b1 o1 b2 o2 b3 b4 o4 b5 o5,
    evs = [EvExec ["service"; serviceName name; "stop"]%string b1 o1;
           EvExec ["sysrc"; (serviceName name +:+ "_enable=NO")%string]%string b2 o2;
           EvRemove (ServiceManager.rcdPath name) b3;
           EvExec [potCmd; "stop"; "-p"; Pot.potName name]%string b4 o4;
           EvExec [potCmd; "destroy"; "-p"; Pot.potName name]%string b5 o5].

(** The proxy files of the site are removed, then [override.conf] is
    rewritten and the tree validated and reloaded. *)
Definition proxyGone (name : string) (evs : list event) : Prop :=
  exists b1 b2 rest r,
    evs = [EvRemove (enabledPath cfg name) b1; EvRemove (availablePath cfg name) b2] ++ rest /\
    afterRemoval GenerateOverrideConf cfg r rest.

Lemma backend_teardown (name : string) (site : SiteConfig) (b : BackendConfig) (w : World) :
  Site cfg !! name = Some site -> Backend site = Some b ->
  exists d evs,
    (let* _ := ServiceManager.Stop env cfg name in
     let* _ := ServiceManager.Disable env cfg name in
     let* _ := ServiceManager.RemoveBackendService cfg name in
     let* _ := Pot.Destroy env cfg potCmd name in
     ret tt) w = (tt, {| disk := d; trace := trace w ++ evs |}) /\
    backendGone name evs.
Proof using Type.
  intros Hsite Hb.
  unfold ServiceManager.Stop, ServiceManager.Disable, ServiceManager.onBackend,
    ServiceManager.RemoveBackendService, Pot.Destroy, Pot.Stop,
    ServiceManager.stopService, ServiceManager.disableService.
  rewrite Hsite, Hb. unfold bind, Exec. cbn [disk trace ret].
  match goal with
  | |- context [Remove ?p ?w0] => destruct (Remove_log p w0) as (r & b3 & d & ->)
  end.
  cbn [disk trace ret]. do 2 eexists. split.
  - rewrite <- !app_assoc. cbn [app]. reflexivity.
  - unfold backendGone. do 9 eexists. reflexivity.
Qed.

(** Destroying a configured site always answers 200 and hands back the
    registry without the site, whether or not the steps on the way
    succeeded.  The log is, in this order: for a site with a backend
    the service and pot teardown; the removal of the proxy files with
    the rewrite of [override.conf]; the recursive removal of the
    frontend root when the site has one; the write of the registry
    file.  [config_removed] is true exactly when that write succeeded.
    A request that names no site, or an unknown one, is answered 400 or
    404 and changes nothing. *)
Theorem SiteDestroy_takes_the_site_out
        (c : Request) (w : World) (resp : Response) (cfg' : Config) (w' : World) :
  SiteDestroy env encode quote GenerateOverrideConf potCmd cfg c w = ((resp, cfg'), w') ->
  (status resp = 400%Z \/ status resp = 404%Z -> cfg' = cfg /\ w' = w) /\
  (forall f name site,
      form c = Some f -> head (formValue f "site") = Some name ->
      Site cfg !! name = Some site ->
      status resp = 200%Z /\
      Site cfg' = delete name (Site cfg) /\
      exists pre ngx rm save e,
        trace w' = trace w ++ pre ++ ngx ++ rm ++ save /\
        match Backend site with
        | Some _ => backendGone name pre
        | None => pre = []
        end /\
        proxyGone name ngx /\
        rm = (if HasFrontend site then [EvRemoveAll (FrontendRoot site)] else []) /\
        saved encode cfg' e save /\
        (In ("config_removed"%string, JBool true) (body resp) <-> e = None)).
Proof using Type.
  unfold SiteDestroy. intros Hrun.
  destruct (form c) as [f|].
  2:{ cbv [ret] in Hrun. injection Hrun as <- <- <-. split; [auto|]. discriminate. }
  destruct (formValue f "site") as [|name l] eqn:Hname.
  { cbv [ret] in Hrun. injection Hrun as <- <- <-. split; [auto|].
    intros f0 n s Hf. injection Hf as <-. rewrite Hname. discriminate. }
  destruct (Site cfg !! name) as [site|] eqn:Hsite.
  2:{ cbv [ret] in Hrun. injection Hrun as <- <- <-. split; [auto|].
      intros f0 n s Hf Hn. injection Hf as <-. rewrite Hname in Hn.
      injection Hn as <-. congruence. }
  assert (Hpre : exists d evs,
             (match Backend site with
              | Some _ =>
                  let* _ := ServiceManager.Stop env cfg name in
                  let* _ := ServiceManager.Disable env cfg name in
                  let* _ := ServiceManager.RemoveBackendService cfg name in
                  let* _ := Pot.Destroy env cfg potCmd name in
                  ret tt
              | None => ret tt
              end) w = (tt, {| disk := d; trace := trace w ++ evs |}) /\
             match Backend site with
             | Some _ => backendGone name evs
             | None => evs = []
             end).
  { destruct (Backend site) as [b|] eqn:Hb.
    - eapply backend_teardown; eauto.
    - exists (disk w), []. rewrite app_nil_r. destruct w. auto. }
  destruct Hpre as (d1 & pre & Hpre & Hpre').
  rewrite (bind_run _ _ _ _ _ Hpre) in Hrun.
  unfold bind at 1 in Hrun.
  destruct (RemoveSiteConfig env GenerateOverrideConf cfg name _) as [r2 w2] eqn:Hngx.
  apply RemoveSiteConfig_spec in Hngx as [_ Hngx].
  destruct (Hngx (ex_intro _ site Hsite)) as [(b1 & b2 & rest & Ht2 & Hafter) _]. clear Hngx.
  cbn [trace] in Ht2.
  unfold bind at 1 in Hrun.
  match type of Hrun with
  | context [let (a, w'0) := ?m w2 in _] => destruct (m w2) as [r3 w3] eqn:Hrm
  end.
  assert (Ht3 : trace w3 = trace w2 ++
                  (if HasFrontend site then [EvRemoveAll (FrontendRoot site)] else [])).
  { destruct (HasFrontend site).
    - unfold RemoveAll, step in Hrm. injection Hrm as _ <-. reflexivity.
    - cbv [ret] in Hrm. injection Hrm as _ <-. now rewrite app_nil_r. }
  clear Hrm. unfold bind in Hrun.
  destruct (RemoveSite encode quote name cfg w3) as [[e c1] w4] eqn:Hsave.
  apply RemoveSite_effect in Hsave as (save & Ht4 & Hsave). rewrite Hsite in Hsave.
  destruct Hsave as [-> Hsaved].
  cbv [ret] in Hrun. cbn [fst snd] in Hrun. injection Hrun as <- <- <-.
  split; [intros [?|?]; discriminate|].
  intros f0 n s Hf Hn Hs. injection Hf as <-. rewrite Hname in Hn. injection Hn as <-.
  rewrite Hsite in Hs. injection Hs as <-.
  split; [reflexivity|]. split; [reflexivity|].
  exists pre, ([EvRemove (enabledPath cfg name) b1; EvRemove (availablePath cfg name) b2] ++ rest),
    (if HasFrontend site then [EvRemoveAll (FrontendRoot site)] else []), save, e.
  split; [rewrite Ht4, Ht3, Ht2, <- !app_assoc; reflexivity|].
  split; [exact Hpre'|]. split; [unfold proxyGone; eauto 10|].
  split; [reflexivity|]. split; [exact Hsaved|].
  cbn [body]. destruct e as [e|]; cbn [In]; split.
  - intros [H|[H|[H|[]]]]; discriminate.
  - discriminate.
  - reflexivity.
  - auto.
Qed.

End Facts.
End TeardownFacts.

(** ** Service names *)
Module ServiceFacts.
Import Strs OS Sys Config Service Server FilepathFacts.
Local Open Scope list_scope.

(** Lowercase letters, digits and the underscore. *)
Definition identChar (c : ascii) : bool := domainEdge c || Ascii.eqb c "_".

Fixpoint allChars (p : ascii -> bool) (s : string) : bool :=
  match s with
  | EmptyString => true
  | String c s' => p c && allChars p s'
  end.

Lemma domainTail_inner (s : string) : domainTail s = true -> allChars domainInner s = true.
Proof.
  induction s as [|c s IH]; [discriminate|]. cbn [domainTail allChars].
  destruct s as [|c' s'].
  - intros H. unfold domainInner. now rewrite H.
  - intros H. apply andb_true_iff in H as [Hc Hs]. now rewrite Hc, IH.
Qed.

Lemma validDomain_inner (s : string) : validDomain s = true -> allChars domainInner s = true.
Proof.
  destruct s as [|c s]; [discriminate|]. cbn [validDomain allChars].
  intros H. apply andb_true_iff in H as [Hc Hs].
  unfold domainInner at 1. rewrite Hc. now apply domainTail_inner.
Qed.

Lemma app1 (a : ascii) (s : string) : (String a "" +:+ s)%string = String a s.
Proof. reflexivity. Qed.

Lemma replaceChar_length (from : ascii) (to : ascii) (s : string) :
  String.length (replaceChar from (String to "") s) = String.length s.
Proof.
  induction s as [|c s IH]; [reflexivity|]. cbn [replaceChar].
  destruct (Ascii.eqb c from); rewrite ?app1; cbn [String.length]; now rewrite IH.
Qed.

Lemma inner_cases (c : ascii) :
  domainInner c = true ->
  (c = "."%char \/ c = "-"%char) \/
  (domainEdge c = true /\ Ascii.eqb c "." = false /\ Ascii.eqb c "-" = false).
Proof.
  destruct c as [[] [] [] [] [] [] [] []]; vm_compute; intros H;
    first [discriminate | left; left; reflexivity | left; right; reflexivity | right; auto].
Qed.

Lemma serviceName_chars (s : string) :
  allChars domainInner s = true -> allChars identChar (serviceName s) = true.
Proof.
  unfold serviceName. induction s as [|c s IH]; [reflexivity|].
  cbn [allChars]. intros H. apply andb_true_iff in H as [Hc Hs].
  specialize (IH Hs). cbn [replaceChar].
  destruct (inner_cases c Hc) as [[->| ->]|(He & Hd & Hh)].
  - change (Ascii.eqb "." ".") with true. cbv iota. rewrite app1. cbn [replaceChar].
    change (Ascii.eqb "_" "-") with false. cbv iota. cbn [allChars].
    change (identChar "_") with true. exact IH.
  - change (Ascii.eqb "-" ".") with false. cbv iota. cbn [replaceChar].
    change (Ascii.eqb "-" "-") with true. cbv iota. rewrite app1. cbn [allChars].
    change (identChar "_") with true. exact IH.
  - rewrite Hd. cbn [replaceChar]. rewrite Hh. cbn [allChars].
    unfold identChar at 1. rewrite He. exact IH.
Qed.

Lemma identChar_not_slash (c : ascii) : identChar c = true -> negb (Ascii.eqb c "/") = true.
Proof. destruct c as [[] [] [] [] [] [] [] []]; vm_compute; congruence. Qed.

Lemma identChar_not_dot (c : ascii) : identChar c = true -> c <> "."%char.
Proof. intros H ->. vm_compute in H. discriminate. Qed.

Lemma ident_noSlash (s : string) : allChars identChar s = true -> noSlash s = true.
Proof.
  induction s as [|c s IH]; [reflexivity|]. cbn [allChars noSlash].
  intros H. apply andb_true_iff in H as [Hc Hs].
  now rewrite (identChar_not_slash _ Hc), IH.
Qed.

(** For an accepted domain the rc.d service name is as long as the
    domain and made of lowercase letters, digits and underscores only,
    so the script of the service lies directly in [/usr/local/etc/rc.d]
    under that name. *)
Theorem service_name_of_valid_domain (domain : string) :
  validDomain domain = true ->
  String.length (serviceName domain) = String.length domain /\
  allChars identChar (serviceName domain) = true /\
  ServiceManager.rcdPath domain = ("/usr/local/etc/rc.d/" +:+ serviceName domain)%string.
Proof.
  intros Hv. pose proof (serviceName_chars _ (validDomain_inner _ Hv)) as Hchars.
  assert (Hlen : String.length (serviceName domain) = String.length domain).
  { unfold serviceName. now rewrite !replaceChar_length. }
  split; [exact Hlen|]. split; [exact Hchars|].
  assert (Hn : normal (serviceName domain)).
  { destruct (serviceName domain) as [|c s] eqn:E.
    - destruct domain; [discriminate|]. cbn in Hlen. discriminate.
    - cbn [allChars] in Hchars. apply andb_true_iff in Hchars as [Hc Hs].
      pose proof (identChar_not_dot _ Hc) as Hdot.
      repeat split; try discriminate.
      + intros H. injection H as H _. contradiction.
      + intros H. injection H as H _. contradiction.
      + cbn [noSlash]. now rewrite (identChar_not_slash _ Hc), (ident_noSlash _ Hs). }
  unfold ServiceManager.rcdPath. rewrite Join_cons by discriminate.
  cbn [Strs.Join]. unfold Filepath.Clean.
  assert (He : Filepath.elems ("/usr/local/etc/rc.d" +:+ "/" +:+ serviceName domain)
               = ["usr"; "local"; "etc"; "rc.d"; serviceName domain]%string).
  { apply (elems_join_normals "/usr/local/etc/rc.d" [serviceName domain]); [discriminate|].
    constructor; [assumption|constructor]. }
  rewrite He. reflexivity.
Qed.

End ServiceFacts.

(** ** Jail addresses *)
Module JailIPFacts.
Import Strs OS Sys Config Registry.
Local Open Scope list_scope.
Local Open Scope Z_scope.

Fixpoint noDot (s : string) : bool :=
  match s with
  | EmptyString => true
  | String c s' => negb (Ascii.eqb c ".") && noDot s'
  end.

Lemma afterLastDot_noDot (s : string) : noDot s = true -> afterLastDot s = None.
Proof.
  induction s as [|c s IH]; [reflexivity|]. cbn [noDot afterLastDot].
  intros H. apply andb_true_iff in H as [Hc Hs]. rewrite (IH Hs).
  destruct (Ascii.eqb c "."); [discriminate|reflexivity].
Qed.

Lemma afterLastDot_app (a s : string) :
  noDot s = true -> afterLastDot (a +:+ "." +:+ s) = Some s.
Proof.
  intros Hs. induction a as [|c a IH].
  - change ("" +:+ "." +:+ s)%string with (String "." s). cbn [afterLastDot].
    rewrite (afterLastDot_noDot _ Hs). reflexivity.
  - change (String c a +:+ "." +:+ s)%string with (String c (a +:+ "." +:+ s)).
    cbn [afterLastDot]. now rewrite IH.
Qed.

Section Facts.
Variable scanInt : string -> Z.

(** One round of the loop. *)
Definition seen (maxNum : Z) (kv : string * SiteConfig) : Z :=
  match Backend (snd kv) with
  | Some b =>
      if String.eqb (JailIP b) "" then maxNum
      else match afterLastDot (JailIP b) with
           | Some s => if scanInt s >? maxNum then scanInt s else maxNum
           | None => maxNum
           end
  | None => maxNum
  end.

Lemma seen_ge (m : Z) (kv : string * SiteConfig) : m <= seen m kv.
Proof.
  unfold seen. destruct (Backend (snd kv)); [|lia].
  destruct (String.eqb _ ""); [lia|]. destruct (afterLastDot _); [|lia].
  destruct (Z.gtb_spec (scanInt s) m); lia.
Qed.

Lemma fold_seen_ge (order : list (string * SiteConfig)) (m : Z) :
  m <= fold_left seen order m.
Proof.
  revert m. induction order as [|kv order IH]; intros m; cbn [fold_left]; [lia|].
  pose proof (seen_ge m kv). pose proof (IH (seen m kv)). lia.
Qed.

Lemma fold_seen_covers (order : list (string * SiteConfig)) (m : Z)
      (name : string) (site : SiteConfig) (b : BackendConfig) (s : string) :
  In (name, site) order -> Backend site = Some b ->
  JailIP b <> ""%string -> afterLastDot (JailIP b) = Some s ->
  scanInt s <= fold_left seen order m.
Proof.
  revert m. induction order as [|kv order IH]; intros m Hin Hb Hne Hs; [destruct Hin|].
  cbn [fold_left]. destruct Hin as [->|Hin].
  - pose proof (fold_seen_ge order (seen m (name, site))) as Hge.
    assert (scanInt s <= seen m (name, site)); [|lia].
    unfold seen. cbn [snd]. rewrite Hb.
    apply String.eqb_neq in Hne. rewrite Hne, Hs.
    destruct (Z.gtb_spec (scanInt s) m); lia.
  - now apply IH.
Qed.

(** The address that [NextJailIP] hands out is in use by no configured
    backend.  The next number is taken not to overflow, to print
    without a dot, and to be read back by [Sscanf] as printed. *)
Theorem NextJailIP_is_unused
        (order : list (string * SiteConfig)) (c : Config)
        (name : string) (site : SiteConfig) (b : BackendConfig) :
  let next := wrap64 (maxJailNumber scanInt order + 1) in
  order ≡ₚ map_to_list (Site c) ->
  maxJailNumber scanInt order < next ->
  noDot (pretty next) = true ->
  scanInt (pretty next) = next ->
  Site c !! name = Some site -> Backend site = Some b ->
  JailIP b <> NextJailIP scanInt order c.
Proof using Type.
  intros next Hperm Hover Hdot Hscan Hsite Hb Heq.
  assert (Hin : In (name, site) order).
  { apply list_elem_of_In. rewrite Hperm. now apply elem_of_map_to_list. }
  unfold NextJailIP in Heq. fold next in Heq.
  set (base := if String.eqb (IPBase (Jail c)) "" then "127.0.1"%string else IPBase (Jail c))
    in Heq.
  assert (Hs : afterLastDot (JailIP b) = Some (pretty next)).
  { rewrite Heq. now apply afterLastDot_app. }
  assert (Hne : JailIP b <> ""%string).
  { intros E. rewrite E in Hs. discriminate. }
  pose proof (fold_seen_covers order 0 name site b _ Hin Hb Hne Hs) as Hle.
  rewrite Hscan in Hle. unfold maxJailNumber in Hover. unfold seen in Hle. lia.
Qed.

End Facts.
End JailIPFacts.


Module UpdateMoreExamples.
Import Strs OS Sys Config Update Server UpdateFacts UpdateMore Scenario UpdateExamples.
Local Open Scope list_scope.

Lemma update_installs_and_keeps_backup_witness :
  disk updated !! self = Some (File "v2" true) /\
  disk updated !! (self +:+ ".old")%string = Some (File "v1" true) /\
  disk updated !! (self +:+ ".new")%string = None /\
  (HasBackup self updated).1 = true.
Proof.
  apply (update_installs_and_keeps_backup envOK self "v2" "v1" true installed updated).
  - vm_compute. reflexivity.
  - intros fs0. reflexivity.
  - intros fs0. reflexivity.
  - intros fs0. reflexivity.
  - vm_compute. reflexivity.
  - vm_compute. reflexivity.
Defined.

(** A stale, non-executable [P.new] keeps its mode when it is
    overwritten, so the upload is rejected before it is run. *)
Definition stale : FS := <[(self +:+ ".new")%string := File "partial" false]> installed.
Definition notRun := Update envOK self "v2" (fresh stale).

Example rejected_before_it_is_run :
  notRun.1 = Some "validate binary: binary is not executable"%string /\
  disk notRun.2 !! self = Some (File "v1" true) /\
  disk notRun.2 !! (self +:+ ".new")%string = None.
Proof. vm_compute. repeat split; reflexivity. Qed.

(** The uploaded binary passes the probe and deletes itself while
    doing so: the second rename of the replacement finds nothing to
    move, and the backup is moved back. *)
Definition envVanishing : Env :=
  {| spawn := fun argv fs =>
       match argv with
       | [path; "version"] => Outcome true "" false (delete path fs)
       | _ => Outcome true "" false fs
       end |}.

Definition vanished := Update envVanishing self "v2" (fresh installed).

Lemma failed_update_keeps_binary_witness :
  vanished.1
  = Some ("atomic replace: rename new binary: rename /usr/local/bin/shipyard.new " +:+
          "/usr/local/bin/shipyard: no such file or directory")%string /\
  In (EvRename self (self +:+ ".old")%string true) (trace vanished.2) /\
  In (EvRename (self +:+ ".new")%string self false) (trace vanished.2) /\
  In (EvRename (self +:+ ".old")%string self true) (trace vanished.2) /\
  disk vanished.2 !! self = Some (File "v1" true) /\
  exists pre ok, trace vanished.2 = pre ++ [EvRemove (self +:+ ".new")%string ok] /\
                 (ok = true -> disk vanished.2 !! (self +:+ ".new")%string = None).
Proof.
  split; [vm_compute; reflexivity|].
  split; [vm_compute; auto 10|]. split; [vm_compute; auto 10|]. split; [vm_compute; auto 10|].
  apply (failed_update_keeps_binary envVanishing self "v2" "v1" true installed
           ("atomic replace: rename new binary: rename /usr/local/bin/shipyard.new " +:+
            "/usr/local/bin/shipyard: no such file or directory")%string vanished.2).
  - vm_compute. reflexivity.
  - intros fs0. apply lookup_delete_ne. discriminate.
  - vm_compute. reflexivity.
  - vm_compute. reflexivity.
  - vm_compute. reflexivity.
  - vm_compute. reflexivity.
Defined.

Definition selfDeploy := DeploySelf envOK cfg0 "v2" (fresh installed).

Lemma self_deploy_restarts_only_after_install_witness :
  (selfDeploy.1.2 = true <-> status selfDeploy.1.1 = 200%Z) /\
  disk selfDeploy.2 !! self = Some (File "v2" true).
Proof.
  destruct (self_deploy_restarts_only_after_install envOK cfg0 "v2" "v1" true installed
              selfDeploy.1.1 selfDeploy.1.2 selfDeploy.2) as (_ & H2 & H3).
  - vm_compute. reflexivity.
  - split; [exact H2|]. apply H3.
    + intros fs0. reflexivity.
    + intros fs0. reflexivity.
    + intros fs0. reflexivity.
    + vm_compute. reflexivity.
    + vm_compute. reflexivity.
    + vm_compute. reflexivity.
Defined.

End UpdateMoreExamples.

(** ** Worked examples *)
Module Walkthroughs.
Import Strs OS Sys Config Registry Ssl Nginx Deploy Update Service Server
       FilepathFacts NginxFacts DeployFacts Scenario SiteCreateExamples DeployExamples
       ApiFacts SslFacts NginxRemoval DeployMore UnpackFacts SiteCreateMore
       RegistryFacts TeardownFacts ServiceFacts JailIPFacts.
Local Open Scope list_scope.

Lemma valid_domain_is_one_path_element_witness :
  normal "c.example.com" /\
  Filepath.Join ["/var/www"; "c.example.com"] = "/var/www/c.example.com"%string.
Proof. apply (valid_domain_is_one_path_element "c.example.com"). reflexivity. Defined.

Lemma service_name_of_valid_domain_witness :
  String.length (serviceName "b-1.example.com") = 15%nat /\
  allChars identChar (serviceName "b-1.example.com") = true /\
  ServiceManager.rcdPath "b-1.example.com" = "/usr/local/etc/rc.d/b_1_example_com"%string.
Proof. apply (service_name_of_valid_domain "b-1.example.com"). reflexivity. Defined.

(** *** Site creation *)

Definition toml (_ : Config) : string := "# shipyard.toml".

Definition createWith (req : SiteCreateRequest) : Response * Config * World :=
  SiteCreate envOK toml quoted override0 httpOnly0
             (fun _ _ _ => "") (fun _ _ _ _ _ => "") (fun _ _ _ _ => "")
             (fun _ _ _ _ _ _ => "") (fun _ => "127.0.1.2") (Some "sk-site-89ab")
             cfg0 (Some req) (fresh ∅).

Definition plain : SiteCreateRequest :=
  {| Domain := "c.example.com"; ReqFrontendRoot := ""; ReqSSLEnabled := false;
     WithBackend := false; BackendPort := 0; ReqProxyPath := "" |}.

Definition taken : SiteCreateRequest :=
  {| Domain := "a.example.com"; ReqFrontendRoot := ""; ReqSSLEnabled := true;
     WithBackend := true; BackendPort := 0; ReqProxyPath := "" |}.

Lemma refused_creation_changes_nothing_witness :
  (createWith taken).1.2 = cfg0 /\ (createWith taken).2 = fresh ∅.
Proof.
  apply (refused_creation_changes_nothing envOK toml quoted override0 httpOnly0
           (fun _ _ _ => "") (fun _ _ _ _ _ => "") (fun _ _ _ _ => "")
           (fun _ _ _ _ _ _ => "") (fun _ => "127.0.1.2") (Some "sk-site-89ab")
           cfg0 (Some taken) (fresh ∅) (createWith taken).1.1).
  - exact (eta3 (createWith taken)).
  - right. vm_compute. reflexivity.
Defined.

Lemma plain_site_creation_only_writes_registry_witness :
  Site (createWith plain).1.2 !! "c.example.com"
  = Some {| FrontendRoot := "/var/www/c.example.com"; APIKey := "sk-site-89ab";
            OverrideIPs := []; Backend := None; SSLEnabled := false |} /\
  exists ok,
    trace (createWith plain).2
    = [EvWrite "/usr/local/etc/shipyard/shipyard.toml" "# shipyard.toml" ok].
Proof.
  destruct (plain_site_creation_only_writes_registry envOK toml quoted override0 httpOnly0
              (fun _ _ _ => "") (fun _ _ _ _ _ => "") (fun _ _ _ _ => "")
              (fun _ _ _ _ _ _ => "") (fun _ => "127.0.1.2") "sk-site-89ab"
              cfg0 plain (fresh ∅) (createWith plain).1.1 (createWith plain).1.2
              (createWith plain).2) as (Hsite & ok & Htr & _).
  - exact (eta3 (createWith plain)).
  - reflexivity.
  - vm_compute. reflexivity.
  - reflexivity.
  - reflexivity.
  - discriminate.
  - split.
    + rewrite Hsite. apply lookup_insert_eq.
    + exists ok. exact Htr.
Defined.

(** *** Certificates *)

(** The ACME client succeeds and leaves the two files of the
    certificate behind. *)
Definition envIssuing : Env :=
  {| spawn := fun argv fs =>
       match argv with
       | "certbot" :: _ =>
           Outcome true "" false
             (<["/usr/local/etc/letsencrypt/live/c.example.com/fullchain.pem" := File "CERT" false]>
                (<["/usr/local/etc/letsencrypt/live/c.example.com/privkey.pem" := File "KEY" false]>
                   fs))
       | _ => Outcome true "" false fs
       end |}.

Definition issued := ObtainCert envIssuing "c.example.com" (fresh ∅).

Lemma ObtainCert_succeeds_only_with_certificate_witness :
  (HasValidCert "c.example.com" issued.2).1 = true.
Proof.
  destruct (ObtainCert_succeeds_only_with_certificate envIssuing "c.example.com"
              (fresh ∅) issued.2 issued.1) as (H & _).
  - exact (surjective_pairing issued).
  - apply H. vm_compute. reflexivity.
Defined.

(** *** Taking a site out of the proxy *)

Definition served : FS :=
  <["/usr/local/etc/nginx/sites-enabled/a.example.com.conf"
    := Link "/usr/local/etc/nginx/sites-available/a.example.com.conf"]>
    (<["/usr/local/etc/nginx/sites-available/a.example.com.conf" := File "server { }" false]> ∅).

Definition unserved :=
  RemoveSiteConfig envBadConf override0 cfg0 "a.example.com" (fresh served).

Lemma RemoveSiteConfig_removes_before_validating_witness :
  disk unserved.2 !! "/usr/local/etc/nginx/sites-enabled/a.example.com.conf" = None /\
  disk unserved.2 !! "/usr/local/etc/nginx/sites-available/a.example.com.conf" = None.
Proof.
  destruct (RemoveSiteConfig_removes_before_validating envBadConf override0 cfg0
              "a.example.com" (fresh served) unserved.2 unserved.1) as (_ & H).
  - exact (surjective_pairing unserved).
  - destruct H as [_ H].
    + vm_compute. eauto.
    + apply H.
      * intros fs. reflexivity.
      * intros fs. reflexivity.
      * vm_compute. discriminate.
      * vm_compute. discriminate.
      * vm_compute. reflexivity.
      * vm_compute. discriminate.
      * vm_compute. discriminate.
Defined.

(** *** Deploying *)

Definition preview :=
  deploy0 "a.example.com" "deadbee" (Some built) "server { }" false (fresh ∅).

Lemma deploy_promotes_only_on_request_witness :
  exists evs, trace preview.2 = [] ++ evs /\ Forall (quietStep cfg0 "a.example.com") evs.
Proof.
  apply (deploy_promotes_only_on_request envOK cfg0 override0 (fun c _ _ _ => c)
           "User-agent: *" (fun _ _ _ _ => "") (fun _ _ _ _ _ _ => "")
           "a.example.com" "deadbee" (Some built) "server { }" (fresh ∅) preview.2 preview.1).
  exact (surjective_pairing preview).
Defined.

(** A directory is in the way of the temporary link. *)
Definition blocked : FS :=
  <[(www ++ "/latest.tmp/junk")%string := File "" false]>
    (<[(www ++ "/latest.tmp")%string := Directory]>
       (<[(www ++ "/latest")%string := Link "deadbee/dist"]> ∅)).

Definition stuck := updateLatestSymlink www "cafe123" (fresh blocked).

Lemma failed_promotion_keeps_latest_witness :
  is_Some stuck.1 /\
  disk stuck.2 !! (www ++ "/latest")%string = Some (Link "deadbee/dist").
Proof.
  split; [vm_compute; eauto|].
  destruct (failed_promotion_keeps_latest www "cafe123"
              ("create temp symlink: symlink cafe123 " ++ www ++ "/latest.tmp: file exists")
              (fresh blocked) stuck.2) as [H _].
  - vm_compute. reflexivity.
  - apply (H "deadbee/dist"). vm_compute. reflexivity.
Defined.

Definition twoFiles : list ZipEntry := [file "index.html" "<html>"; file "app.js" "js"].
Definition laidOut := extractZip (Some twoFiles) commitDir0 (fresh ∅).

Lemma unpacked_files_hold_their_bytes_witness :
  exists data m,
    Payload (file "app.js" "js") = Intact data /\
    disk laidOut.2 !! target commitDir0 (file "app.js" "js") = Some (File data m).
Proof.
  apply (unpacked_files_hold_their_bytes [file "index.html" "<html>"] []
           (file "app.js" "js") commitDir0 (fresh ∅) laidOut.2).
  - vm_compute. reflexivity.
  - intros k t H. unfold fresh in H. cbn [disk] in H. rewrite lookup_empty in H. discriminate.
  - reflexivity.
  - constructor.
Defined.

(** *** The registry *)

Lemma Validate_accepts_exactly_usable_configs_witness :
  Validate quoted (map_to_list (Site cfg0)) cfg0 = None <->
  ListenAddr (Server cfg0) <> ""%string /\ AdminKeys cfg0 <> [] /\
  BinaryPath (Nginx cfg0) <> ""%string /\ MainConfPath (Nginx cfg0) <> ""%string /\
  SitesAvailable (Nginx cfg0) <> ""%string /\ SitesEnabled (Nginx cfg0) <> ""%string /\
  BaseDir (Jail cfg0) <> ""%string /\ JailConfPath (Jail cfg0) <> ""%string /\
  Site cfg0 <> ∅ /\
  forall name site, Site cfg0 !! name = Some site -> usable site.
Proof.
  apply (Validate_accepts_exactly_usable_configs quoted (map_to_list (Site cfg0)) cfg0).
  reflexivity.
Defined.

Definition added := AddSite toml quoted "c.example.com" site0 cfg0 (fresh ∅).
Definition removedAgain := RemoveSite toml quoted "c.example.com" added.1.2 added.2.

Lemma AddSite_then_RemoveSite_round_trip_witness :
  removedAgain.1.2 = cfg0.
Proof.
  destruct (AddSite_then_RemoveSite_round_trip toml quoted "c.example.com" site0
              cfg0 added.1.2 removedAgain.1.2 (fresh ∅) added.2 removedAgain.2
              added.1.1 removedAgain.1.1) as [H _].
  - exact (eta3 added).
  - exact (eta3 removedAgain).
  - vm_compute. reflexivity.
  - exact H.
Defined.

(** A decimal reader for [%d]: an optional sign, then digits. *)
Fixpoint digits (s : string) (acc : Z) : Z :=
  match s with
  | EmptyString => acc
  | String c s' =>
      let d := (Z.of_nat (nat_of_ascii c) - 48)%Z in
      if ((0 <=? d) && (d <=? 9))%Z then digits s' (10 * acc + d)%Z else acc
  end.

Definition scanDec (s : string) : Z :=
  match s with
  | String "-" s' => (- digits s' 0)%Z
  | String "+" s' => digits s' 0
  | _ => digits s 0
  end.

Lemma NextJailIP_is_unused_witness :
  NextJailIP scanDec (map_to_list (Site cfg0)) cfg0 = "127.0.1.2"%string /\
  JailIP backend0 <> NextJailIP scanDec (map_to_list (Site cfg0)) cfg0.
Proof.
  split; [vm_compute; reflexivity|].
  apply (NextJailIP_is_unused scanDec (map_to_list (Site cfg0)) cfg0
           "b.example.com" site1 backend0).
  - reflexivity.
  - vm_compute. reflexivity.
  - vm_compute. reflexivity.
  - vm_compute. reflexivity.
  - vm_compute. reflexivity.
  - reflexivity.
Defined.

(** *** Teardown *)

Definition destroyRequest (site : string) : Request :=
  {| form := Some {| Value := <["site" := [site]]> ∅; FormFile := ∅ |};
     headers := <["X-Shipyard-Key" := "sk-admin-1"]> ∅ |}.

Definition torn :=
  SiteDestroy envOK toml quoted override0 "pot" cfg0 (destroyRequest "b.example.com")
              (fresh ∅).

Example teardown_of_a_backend_site :
  trace torn.2 =
    [EvExec ["service"; "b_example_com"; "stop"] true "";
     EvExec ["sysrc"; "b_example_com_enable=NO"] true "";
     EvRemove "/usr/local/etc/rc.d/b_example_com" false;
     EvExec ["pot"; "stop"; "-p"; "b-example-com"] true "";
     EvExec ["pot"; "destroy"; "-p"; "b-example-com"] true "";
     EvRemove "/usr/local/etc/nginx/sites-enabled/b.example.com.conf" false;
     EvRemove "/usr/local/etc/nginx/sites-available/b.example.com.conf" false;
     EvWrite "/usr/local/etc/nginx/override.conf" "# MANAGED BY SHIPYARD" true;
     EvExec ["/usr/local/sbin/nginx"; "-t"] true "";
     EvExec ["/usr/local/sbin/nginx"; "-s"; "reload"] true "";
     EvWrite "/usr/local/etc/shipyard/shipyard.toml" "# shipyard.toml" true]%string.
Proof. vm_compute. reflexivity. Qed.

Lemma SiteDestroy_takes_the_site_out_witness :
  status torn.1.1 = 200%Z /\ Site torn.1.2 = delete "b.example.com" (Site cfg0).
Proof.
  destruct (SiteDestroy_takes_the_site_out envOK toml quoted override0 "pot" cfg0
              (destroyRequest "b.example.com") (fresh ∅) torn.1.1 torn.1.2 torn.2)
    as [_ H].
  - exact (eta3 torn).
  - destruct (H {| Value := <["site" := ["b.example.com"]]> ∅; FormFile := ∅ |}
                "b.example.com" site1) as (H1 & H2 & _).
    + reflexivity.
    + vm_compute. reflexivity.
    + vm_compute. reflexivity.
    + auto.
Defined.

End Walkthroughs.

(** ** A deploy request, end to end *)
Module ServerExamples.
Import Strs OS Sys Config Deploy Server ServerFacts Scenario DeployExamples.
Local Open Scope list_scope.

(** The frontend deployer of the example host; the upload is taken to
    be the archive [built]. *)
Definition frontend0 (site commit src conf : string) (updateLatest : bool)
  : M (bool * string * option string) :=
  deploy0 site commit (if String.eqb src "PK" then Some built else None) conf updateLatest.

Definition defaultConf (server root : string) : string + string :=
  inr ("server { server_name " ++ server ++ "; root " ++ root ++ "/latest; }")%string.

Definition asGiven (text : string) (_ : string) (_ : Config) : string + string := inr text.

Definition push : Request :=
  {| form := Some {| Value := <["site" := ["a.example.com"]]>
                                (<["commit" := ["abc1234"]]> ∅);
                     FormFile := <["artifact" := [{| filename := "site.zip";
                                                     content := Some "PK" |}]]> ∅ |};
     headers := <["X-Shipyard-Key" := "sk-site-0123"]> ∅ |}.

Definition pushed := DeployFrontend cfg0 frontend0 defaultConf asGiven push (fresh ∅).

Lemma C7_witness :
  middleware PerSite cfg0 push = Next /\
  status pushed.1 = 200%Z /\
  pushed.2 = (frontend0 "a.example.com" "abc1234" "PK"
                "server { server_name a.example.com; root /var/www/a.example.com/latest; }"
                false (fresh ∅)).2 /\
  disk pushed.2 !! "/var/www/a.example.com/abc1234/dist/index.html"%string
  = Some (File "<html>" false).
Proof.
  split; [reflexivity|].
  destruct (C7_commit_id_accepted_iff_latest_or_hex "abc1234") as (_ & _ & _ & H).
  destruct (H eq_refl cfg0 push (fresh ∅)
              {| Value := <["site" := ["a.example.com"]]> (<["commit" := ["abc1234"]]> ∅);
                 FormFile := <["artifact" := [{| filename := "site.zip";
                                                 content := Some "PK" |}]]> ∅ |}
              "a.example.com" site0 {| filename := "site.zip"; content := Some "PK" |} "PK")
    as [Hfront _]; try reflexivity.
  destruct (Hfront frontend0 defaultConf asGiven None
              "server { server_name a.example.com; root /var/www/a.example.com/latest; }"%string)
    as [Hw Hs].
  - reflexivity.
  - apply NotGiven; [left; reflexivity|reflexivity].
  - reflexivity.
  - split; [apply Hs; vm_compute; eauto|]. split; [exact Hw|].
    unfold pushed. rewrite Hw. vm_compute. reflexivity.
Defined.

End ServerExamples.
